(** * kube-machine: the kubelet provisioner wrapper and the node store

    A shallow embedding of the three Go sources of the repository:

    - the [detector] package ([KubeletProvisionerWrapper]): [Module Detector];
    - the [nodestore] package in its Kubernetes-backed form, where a record
      lives in a Node annotation: [Module KubeStore];
    - the [nodestore] package in its file-backed form, where [Save] writes
      [<base>/machines/<name>/config.json]: [Module FileStore].

    Go values are modelled as the code has them: [[]byte] as [list byte],
    [string] as [string], [map[string]string] as an optional
    [gmap string string] (a Go map may be nil), an [error] result as
    [option error], a [(T, error)] result as [result T].  What the code
    reaches through an interface or an imported package is a parameter of
    the definitions (the wrapped provisioner, the Kubernetes client,
    [json.MarshalIndent], [host.MigrateHost], [path/filepath]) or a small
    executable model given next to them ([encoding/base64],
    [text/template], the file system, an in-memory cluster).
    [NewNodeStore] builds the client from an environment that is a
    parameter as well; the [mcndirs] helpers are in [Module Mcndirs]. *)

From Stdlib Require Import NArith ZArith Strings.String Strings.Ascii Strings.Byte.
From stdpp Require Import base gmap strings list fin_maps.

#[local] Open Scope string_scope.

(** ** Errors and results *)

(** [metav1.StatusReason]: the reasons the code or the fake client uses. *)
Inductive StatusReason :=
| StatusReasonNotFound
| StatusReasonAlreadyExists
| StatusReasonConflict
| StatusReasonForbidden
| StatusReasonInternalError.

(** An error of the Kubernetes client: an API status or a transport failure. *)
Inductive kube_error :=
| StatusError (reason : StatusReason) (msg : string)
| TransportError (msg : string).

(** The failures of the modelled file system calls ([syscall.Errno]). *)
Inductive Errno :=
| ENOENT | EEXIST | EISDIR | ENOTDIR | ENOTEMPTY
| EACCES | ENOSPC | EIO | EBUSY.

(** Go's [error] values, as far as the three files produce or forward them. *)
Inductive error :=
| KubeError (e : kube_error)            (* returned by client-go *)
| ErrHostDoesNotExist (name : string)   (* mcnerror.ErrHostDoesNotExist{Name} *)
| ErrNotExist                           (* os.ErrNotExist *)
| PathError (op path : string) (errno : Errno) (* *os.PathError *)
| Errorf (msg : string)                 (* fmt.Errorf(...) *)
| ExecError (name msg : string)         (* text/template's ExecError *)
| ForeignError (msg : string).          (* json, migration, ssh, provisioner *)

Inductive result (A : Type) :=
| Ok (a : A)
| Err (e : error).
Arguments Ok {A} a.
Arguments Err {A} e.

Definition is_Ok {A} (r : result A) : bool :=
  match r with Ok _ => true | Err _ => false end.

Definition errno_string (n : Errno) : string :=
  match n with
  | ENOENT => "no such file or directory"
  | EEXIST => "file exists"
  | EISDIR => "is a directory"
  | ENOTDIR => "not a directory"
  | ENOTEMPTY => "directory not empty"
  | EACCES => "permission denied"
  | ENOSPC => "no space left on device"
  | EIO => "input/output error"
  | EBUSY => "device or resource busy"
  end.

Definition kube_error_string (e : kube_error) : string :=
  match e with
  | StatusError _ msg => msg
  | TransportError msg => msg
  end.

(** [err.Error()], the text [%s] and [%v] print. *)
Definition Error (e : error) : string :=
  match e with
  | KubeError k => kube_error_string k
  | ErrHostDoesNotExist name => "Host does not exist: " +:+ name
  | ErrNotExist => "file does not exist"
  | PathError op path n => op +:+ " " +:+ path +:+ ": " +:+ errno_string n
  | Errorf msg => msg
  | ExecError name msg => "template: " +:+ name +:+ ": " +:+ msg
  | ForeignError msg => msg
  end.

(** [errors.IsNotFound] of apimachinery: true of a status error whose reason
    is NotFound, false of everything else. *)
Definition IsNotFound (e : kube_error) : bool :=
  match e with
  | StatusError StatusReasonNotFound _ => true
  | _ => false
  end.

(** The double quote, kept out of the string literals. *)
Definition dq : string := String "034"%char EmptyString.

(** ** [encoding/base64]: [StdEncoding.EncodeToString] *)

Module Base64.

Definition encodeStd : string :=
  "ABCDEFGHIJKLMNOPQRSTUVWXYZabcdefghijklmnopqrstuvwxyz0123456789+/".

Definition padChar : ascii := "="%char.

(** The character of a 6-bit value. *)
Definition enc6 (v : N) : ascii :=
  match String.get (N.to_nat (N.land v 63)) encodeStd with
  | Some c => c
  | None => padChar
  end.

(** Three source bytes as one 24-bit group. *)
Definition group (a b c : byte) : N :=
  N.lor (N.lor (N.shiftl (Byte.to_N a) 16) (N.shiftl (Byte.to_N b) 8))
        (Byte.to_N c).

Fixpoint EncodeToString (src : list byte) : string :=
  match src with
  | [] => ""
  | [a] =>
      let v := N.shiftl (Byte.to_N a) 16 in
      String (enc6 (N.shiftr v 18))
        (String (enc6 (N.shiftr v 12))
           (String padChar (String padChar "")))
  | [a; b] =>
      let v := N.lor (N.shiftl (Byte.to_N a) 16) (N.shiftl (Byte.to_N b) 8) in
      String (enc6 (N.shiftr v 18))
        (String (enc6 (N.shiftr v 12))
           (String (enc6 (N.shiftr v 6)) (String padChar "")))
  | a :: b :: c :: rest =>
      let v := group a b c in
      String (enc6 (N.shiftr v 18))
        (String (enc6 (N.shiftr v 12))
           (String (enc6 (N.shiftr v 6))
              (String (enc6 v) (EncodeToString rest))))
  end.

(** The characters [EncodeToString] can produce. *)
Definition is_b64_char (c : ascii) : bool :=
  let n := N_of_ascii c in
  ((65 <=? n) && (n <=? 90) || (97 <=? n) && (n <=? 122)
   || (48 <=? n) && (n <=? 57) || (n =? 43) || (n =? 47) || (n =? 61))%N.

(** The 6-bit value of a character of the alphabet. *)
Definition dec6 (c : ascii) : option N :=
  let n := N_of_ascii c in
  if ((65 <=? n) && (n <=? 90))%N then Some (n - 65)%N
  else if ((97 <=? n) && (n <=? 122))%N then Some (n - 71)%N
  else if ((48 <=? n) && (n <=? 57))%N then Some (n + 4)%N
  else if (n =? 43)%N then Some 62%N
  else if (n =? 47)%N then Some 63%N
  else None.

Definition byte_of (n : N) : option byte := Byte.of_N n.

(** [StdEncoding.DecodeString], on text without line breaks: groups of
    four characters, the last one padded with [=]. *)
Fixpoint DecodeString (s : string) : option (list byte) :=
  match s with
  | "" => Some []
  | String c1 (String c2 (String c3 (String c4 rest))) =>
      match dec6 c1, dec6 c2 with
      | Some s1, Some s2 =>
          match byte_of (N.lor (N.shiftl s1 2) (N.shiftr s2 4)) with
          | None => None
          | Some a =>
              if Ascii.eqb c3 padChar then
                if Ascii.eqb c4 padChar then
                  match rest with "" => Some [a] | _ => None end
                else None
              else
                match dec6 c3 with
                | None => None
                | Some s3 =>
                    match byte_of (N.lor (N.shiftl (N.land s2 15) 4) (N.shiftr s3 2)) with
                    | None => None
                    | Some b =>
                        if Ascii.eqb c4 padChar then
                          match rest with "" => Some [a; b] | _ => None end
                        else
                          match dec6 c4 with
                          | None => None
                          | Some s4 =>
                              match byte_of (N.lor (N.shiftl (N.land s3 3) 6) s4),
                                    DecodeString rest with
                              | Some c, Some k => Some (a :: b :: c :: k)
                              | _, _ => None
                              end
                          end
                    end
                end
          end
      | _, _ => None
      end
  | _ => None
  end.

End Base64.

(** ** [text/template], for templates made of text and field actions *)

Module Template.

(** The data the wrapper executes its template on. *)
Record Ctx := { Path : string; Data64 : string; Chmod : string }.

Inductive Node :=
| TextNode (text : string)
| FieldNode (field : string).       (* the action {{.field}} *)

(** A [*template.Template]: a name and, once [Parse] has run, a tree. *)
Record T := { Name : string; Tree : option (list Node) }.

(** [template.New(name)]: "allocates a new, undefined template with the
    given name".  Its argument is the name, not the text. *)
Definition New (name : string) : T := {| Name := name; Tree := None |}.

Definition flush (cur : string) (k : list Node) : list Node :=
  match cur with
  | "" => k
  | _ => TextNode (String.rev cur) :: k
  end.

(** The lexer and parser for text with [{{.Field}}] actions.  [cur] is the
    text read so far, reversed; [act] tells whether we are inside [{{ }}]. *)
Fixpoint parse (act : bool) (cur : string) (s : string) : option (list Node) :=
  match s with
  | "" => if act then None else Some (flush cur [])
  | String c rest =>
      match act, c, rest with
      | false, "{"%char, String "{"%char rest' =>
          option_map (flush cur) (parse true "" rest')
      | true, "}"%char, String "}"%char rest' =>
          match String.rev cur with
          | String "."%char f =>
              option_map (cons (FieldNode f)) (parse false "" rest')
          | _ => None
          end
      | _, _, _ => parse act (String c cur) rest
      end
  end.

(** [t.Parse(text)]. *)
Definition Parse (t : T) (text : string) : result T :=
  match parse false "" text with
  | Some nodes => Ok {| Name := Name t; Tree := Some nodes |}
  | None => Err (ForeignError ("template: " +:+ Name t +:+ ": parse error"))
  end.

Definition field (ctx : Ctx) (f : string) : option string :=
  if String.eqb f "Path" then Some (Path ctx)
  else if String.eqb f "Data64" then Some (Data64 ctx)
  else if String.eqb f "Chmod" then Some (Chmod ctx)
  else None.

Fixpoint walk (name : string) (ctx : Ctx) (nodes : list Node) : result string :=
  match nodes with
  | [] => Ok ""
  | TextNode s :: k =>
      match walk name ctx k with
      | Ok out => Ok (s +:+ out)
      | Err e => Err e
      end
  | FieldNode f :: k =>
      match field ctx f with
      | None => Err (ExecError name ("can't evaluate field " +:+ f))
      | Some v =>
          match walk name ctx k with
          | Ok out => Ok (v +:+ out)
          | Err e => Err e
          end
      end
  end.

Definition hexDigit (n : N) : ascii :=
  match String.get (N.to_nat n) "0123456789abcdef" with
  | Some c => c
  | None => "0"%char
  end.

(** One character as [%q] ([strconv.Quote]) prints it: the double quote and
    the backslash behind a backslash, the control characters by their
    escapes.  Bytes from 128 on are left as they are: the text is taken to
    be printable UTF-8. *)
Definition quoteChar (c : ascii) : string :=
  let n := N_of_ascii c in
  if (n =? 34)%N then "\" +:+ dq
  else if (n =? 92)%N then "\\"
  else if (n =? 7)%N then "\a"
  else if (n =? 8)%N then "\b"
  else if (n =? 12)%N then "\f"
  else if (n =? 10)%N then "\n"
  else if (n =? 13)%N then "\r"
  else if (n =? 9)%N then "\t"
  else if (n =? 11)%N then "\v"
  else if ((n <? 32) || (n =? 127))%N then
    "\x" +:+ String (hexDigit (n / 16)) (String (hexDigit (n mod 16)) "")
  else String c "".

Fixpoint quoteBody (s : string) : string :=
  match s with
  | "" => ""
  | String c rest => quoteChar c +:+ quoteBody rest
  end.

(** [fmt.Sprintf("%q", s)]. *)
Definition quote (s : string) : string := dq +:+ quoteBody s +:+ dq.

(** [t.Execute(buf, ctx)] followed by [buf.String()].  A template that was
    never parsed has no tree, and [Execute] fails on it with
    [%q is an incomplete or empty template] of its name. *)
Definition Execute (t : T) (ctx : Ctx) : result string :=
  match Tree t with
  | None =>
      Err (ExecError (Name t)
             (quote (Name t) +:+ " is an incomplete or empty template"))
  | Some nodes => walk (Name t) ctx nodes
  end.

End Template.

(** ** The [detector] package: the kubelet provisioner wrapper *)

Module Detector.

Definition nl : string := String "010"%char EmptyString.

(** Lines, each ended by a newline, as a Go raw string literal has them. *)
Definition unlines (ls : list string) : string :=
  fold_right (fun l acc => l +:+ nl +:+ acc) "" ls.

Definition nodeKubeconfigPath : string := "/etc/kubeconfig".
Definition kubeletUnitPath : string := "/etc/systemd/system/kubelet.service".
Definition kubeletUnitFile : string := unlines
    [ "[Unit]";
      "Description=Kubernetes Kubelet";
      "";
      "[Service]";
      "Restart=always";
      "RestartSec=10";
      "Environment=" +:+ dq +:+
        "PATH=/usr/local/sbin:/usr/local/bin:/usr/sbin:/usr/bin:/sbin:/bin:/opt/bin"
        +:+ dq;
      "ExecStartPre=/usr/bin/mkdir -p /var/lib/kubelet /var/run/kubernetes";
      "ExecStartPre=/usr/bin/curl -L -o /var/lib/kubelet/kubelet https://storage.googleapis.com/kubernetes-release/release/v1.5.3/bin/linux/amd64/kubelet";
      "ExecStartPre=/usr/bin/chmod +x /var/lib/kubelet/kubelet";
      "ExecStartPre=/usr/bin/mkdir -p /opt/bin";
      "ExecStartPre=/usr/bin/curl -L -o /opt/bin/socat https://s3-eu-west-1.amazonaws.com/kubermatic/coreos/socat";
      "ExecStartPre=/usr/bin/chmod +x /opt/bin/socat";
      "ExecStart=/var/lib/kubelet/kubelet \";
      "  --address=0.0.0.0 \";
      "  --anonymous-auth=false \";
      "  --kubeconfig=/etc/kubeconfig \";
      "  --require-kubeconfig \";
      "  --cluster-dns=10.10.10.10 \";
      "  --cluster-domain=cluster.local \";
      "  --allow-privileged=true \";
      "  --client-ca-file=/etc/ssl/etcd/root-ca.crt \";
      "  --hostname-override=207.154.215.45 \";
      "  --v=2 \";
      "  --logtostderr=true \";
      "  --network-plugin=cni";
      "[Install]";
      "WantedBy=multi-user.target" ].

(** The string handed to [template.New] in [scp]. *)
Definition scpTemplate : string :=
  "touch {{.Path}} && chmod {{.Chmod}} {{.Path}} && echo " +:+ dq +:+
  "{{.Data64}}" +:+ dq +:+ " | base64 -d >> {{.Path}}".

(** [provision.Provisioner], as far as the wrapper calls it.  [W] is the
    state of everything outside the wrapper (the node, the local disk, the
    log); [SO], [AO], [EO] are the swarm, auth and engine options. *)
Record provision_Provisioner (W SO AO EO : Type) := {
  inner_Provision : SO -> AO -> EO -> W -> option error * W;
  SSHCommand : string -> W -> (string * option error) * W
}.
Arguments inner_Provision {W SO AO EO} _ _ _ _ _.
Arguments SSHCommand {W SO AO EO} _ _ _.

(** [provision.Detector]. *)
Record provision_Detector (W SO AO EO D : Type) := {
  inner_DetectProvisioner : D -> result (provision_Provisioner W SO AO EO)
}.
Arguments inner_DetectProvisioner {W SO AO EO D} _ _.

(** The packages the wrapper imports besides: [ioutil.ReadFile] on the
    local disk, [log.Infof] (format and arguments), and the execution of a
    template into a buffer read back with [String()]. *)
Record Env (W : Type) := {
  ReadFile : string -> W -> result (list byte);
  Infof : string -> list string -> W -> W;
  Execute : Template.T -> Template.Ctx -> result string
}.
Arguments ReadFile {W} _ _ _.
Arguments Infof {W} _ _ _ _.
Arguments Execute {W} _ _ _.

Record ExtendedKubeProvisionerDetector (W SO AO EO D : Type) := {
  Detector : provision_Detector W SO AO EO D;
  d_KubeconfigPath : string
}.
Arguments Detector {W SO AO EO D} _.
Arguments d_KubeconfigPath {W SO AO EO D} _.

Record KubeletProvisionerWrapper (W SO AO EO : Type) := {
  Provisioner : provision_Provisioner W SO AO EO;
  KubeconfigPath : string
}.
Arguments Build_KubeletProvisionerWrapper {W SO AO EO} _ _.
Arguments Provisioner {W SO AO EO} _.
Arguments KubeconfigPath {W SO AO EO} _.

Section Wrapper.
  Context {W SO AO EO D : Type}.
  Variable env : Env W.

Definition DetectProvisioner (d : ExtendedKubeProvisionerDetector W SO AO EO D)
    (driver : D) : result (KubeletProvisionerWrapper W SO AO EO) :=
  match inner_DetectProvisioner (Detector d) driver with
  | Err e => Err e
  | Ok p => Ok (Build_KubeletProvisionerWrapper p (d_KubeconfigPath d))
  end.

(** The struct literal of [scp]: [Path] is [nodeKubeconfigPath], whatever
    [path] the caller gave. *)
Definition scp_ctx (data : list byte) (path chmod : string) : Template.Ctx :=
  {| Template.Path := nodeKubeconfigPath;
     Template.Data64 := Base64.EncodeToString data;
     Template.Chmod := chmod |}.

Definition scp (p : KubeletProvisionerWrapper W SO AO EO)
    (data : list byte) (path chmod : string) (w : W) : option error * W :=
  let ctx := scp_ctx data path chmod in
  let cmdTmpl := Template.New scpTemplate in
  match Execute env cmdTmpl ctx with
  | Err err => (Some err, w)
  | Ok cmd =>
      match SSHCommand (Provisioner p) cmd w with
      | ((out, Some err), w') =>
          (Some (Errorf ("Failed to run SSH command (error: " +:+ Error err
                         +:+ "): " +:+ out)), w')
      | ((_, None), w') => (None, w')
      end
  end.

Definition Provision (p : KubeletProvisionerWrapper W SO AO EO)
    (swarmOptions : SO) (authOptions : AO) (engineOptions : EO) (w : W)
    : option error * W :=
  match inner_Provision (Provisioner p) swarmOptions authOptions engineOptions w with
  | (Some err, w1) => (Some err, w1)
  | (None, w1) =>
      match ReadFile env (KubeconfigPath p) w1 with
      | Err err => (Some err, w1)
      | Ok data =>
          let w2 := Infof env "Copying %q to %q on the node..."
                      [KubeconfigPath p; nodeKubeconfigPath] w1 in
          match scp p data nodeKubeconfigPath "0600" w2 with
          | (Some err, w3) => (Some err, w3)
          | (None, w3) =>
              let w4 := Infof env "Copying %q to %q on the node..."
                          ["kubelet unit file"; kubeletUnitPath] w3 in
              match scp p (list_byte_of_string kubeletUnitFile)
                      kubeletUnitPath "0600" w4 with
              | (Some err, w5) => (Some err, w5)
              | (None, w5) => (None, w5)
              end
          end
      end
  end.

End Wrapper.

(** *** A scripted world, to run the wrapper

The world is the list of what happened, oldest first.  The wrapped
provisioner and the node answer from a script. *)

Inductive Event :=
| EvProvision
| EvLog (args : list string)
| EvSSH (cmd : string).

Record Script := {
  provisionFails : option error;
  kubeconfig : result (list byte);
  sshFails : string -> option error      (* by command *)
}.

Definition scriptedProvisioner (s : Script)
    : provision_Provisioner (list Event) unit unit unit :=
  {| inner_Provision := fun _ _ _ w => (provisionFails s, (w ++ [EvProvision])%list);
     SSHCommand := fun cmd w => (("", sshFails s cmd), (w ++ [EvSSH cmd])%list) |}.

(** The environment with [text/template] as Go has it. *)
Definition goEnv (s : Script) : Env (list Event) :=
  {| ReadFile := fun _ _ => kubeconfig s;
     Infof := fun _ args w => (w ++ [EvLog args])%list;
     Execute := Template.Execute |}.

(** An engine that first parses the template's name as its text: what
    [template.New(name).Parse(text)] followed by [Execute] would do. *)
Definition ExecuteParsed (t : Template.T) (ctx : Template.Ctx) : result string :=
  match Template.Parse t (Template.Name t) with
  | Err e => Err e
  | Ok t' => Template.Execute t' ctx
  end.

Definition parsedEnv (s : Script) : Env (list Event) :=
  {| ReadFile := fun _ _ => kubeconfig s;
     Infof := fun _ args w => (w ++ [EvLog args])%list;
     Execute := ExecuteParsed |}.

Definition scriptedWrapper (s : Script)
    : KubeletProvisionerWrapper (list Event) unit unit unit :=
  Build_KubeletProvisionerWrapper (scriptedProvisioner s) "/home/me/.kube/config".

(** The command the interface description gives for a remote copy of [data]
    to [path] with mode [chmod] (stated from the description, to compare
    with what [scp] runs). *)
Definition described_command (data : list byte) (path chmod : string) : string :=
  "touch " +:+ path +:+ " && chmod " +:+ chmod +:+ " " +:+ path
  +:+ " && echo " +:+ dq +:+ Base64.EncodeToString data +:+ dq
  +:+ " | base64 -d >> " +:+ path.

End Detector.

(** ** libmachine's host record *)

(** [drivers.Driver]: the [none] driver, which the file-backed [Load] builds,
    or any other driver with its configuration. *)
Inductive drivers_Driver :=
| NoneDriver (machineName url : string)
| OtherDriver (driverName : string) (config : list byte).

(** [none.NewDriver(hostName, url)]. *)
Definition none_NewDriver (hostName url : string) : drivers_Driver :=
  NoneDriver hostName url.

(** [host.Options], with the fields the code sets. *)
Record Options := {
  Options_Driver : string;
  Options_Memory : Z;
  Options_Disk : Z
}.

(** [host.Host]. *)
Record Host := {
  ConfigVersion : Z;
  Driver : option drivers_Driver;
  DriverName : string;
  HostOptions : option Options;
  Name : string;
  RawDriver : list byte
}.

(** [h.Name = name]. *)
Definition set_Name (h : Host) (name : string) : Host :=
  {| ConfigVersion := ConfigVersion h;
     Driver := Driver h;
     DriverName := DriverName h;
     HostOptions := HostOptions h;
     Name := name;
     RawDriver := RawDriver h |}.

(** The two routines the store imports: [json.MarshalIndent(host, "", "    ")]
    and [host.MigrateHost(h, data)], which returns the migrated host and
    whether a migration was performed. *)
Record Codec := {
  MarshalIndent : Host -> result (list byte);
  MigrateHost : Host -> list byte -> result (Host * bool)
}.

(** ** The Kubernetes client *)

(** [kcorev1.Node], reduced to the metadata the store reads and writes.  A
    Go map may be nil, which is [None]. *)
Record Node := {
  Node_Name : string;
  Annotations : option (gmap string string);
  Labels : option (gmap string string)
}.

Inductive kresult (A : Type) :=
| KOk (a : A)
| KErr (e : kube_error).
Arguments KOk {A} a.
Arguments KErr {A} e.

(** [m[key]] with its [exists] flag; a nil map has no key. *)
Definition map_index (m : option (gmap string string)) (key : string) : option string :=
  match m with
  | None => None
  | Some m' => m' !! key
  end.

(** [if m == nil { m = map[string]string{} }; m[key] = v]. *)
Definition map_assign (m : option (gmap string string)) (key v : string)
    : option (gmap string string) :=
  match m with
  | None => Some (<[key := v]> ∅)
  | Some m' => Some (<[key := v]> m')
  end.

(** [s.Client.CoreV1().Nodes()]: the five calls of the node interface, over
    a cluster state [C]. *)
Record kubernetes_Interface (C : Type) := {
  Get : string -> C -> kresult Node;
  Create : Node -> C -> kresult Node * C;
  Update : Node -> C -> kresult Node * C;
  Delete : string -> C -> option kube_error * C;
  NodeList : C -> kresult (list Node)
}.
Arguments Get {C} _ _ _.
Arguments Create {C} _ _ _.
Arguments Update {C} _ _ _.
Arguments Delete {C} _ _ _.
Arguments NodeList {C} _ _.

(** [return err] of an [error] that came from the client. *)
Definition lift_err (e : option kube_error) : option error :=
  match e with
  | None => None
  | Some k => Some (KubeError k)
  end.

Definition err_of {A} (r : kresult A) : option error :=
  match r with
  | KOk _ => None
  | KErr k => Some (KubeError k)
  end.

(** *** An in-memory cluster

A cluster keeps, by node name, the node's annotations and labels. *)

Abbreviation cluster :=
  (gmap string (option (gmap string string) * option (gmap string string))).

Definition node_of (name : string)
    (m : option (gmap string string) * option (gmap string string)) : Node :=
  {| Node_Name := name; Annotations := fst m; Labels := snd m |}.

Definition notFound (name : string) : kube_error :=
  StatusError StatusReasonNotFound ("nodes " +:+ dq +:+ name +:+ dq +:+ " not found").

Definition alreadyExists (name : string) : kube_error :=
  StatusError StatusReasonAlreadyExists ("nodes " +:+ dq +:+ name +:+ dq +:+ " already exists").

Definition memGet (name : string) (c : cluster) : kresult Node :=
  match c !! name with
  | Some m => KOk (node_of name m)
  | None => KErr (notFound name)
  end.

Definition memCreate (node : Node) (c : cluster) : kresult Node * cluster :=
  match c !! Node_Name node with
  | Some _ => (KErr (alreadyExists (Node_Name node)), c)
  | None => (KOk node, <[Node_Name node := (Annotations node, Labels node)]> c)
  end.

Definition memUpdate (node : Node) (c : cluster) : kresult Node * cluster :=
  match c !! Node_Name node with
  | Some _ => (KOk node, <[Node_Name node := (Annotations node, Labels node)]> c)
  | None => (KErr (notFound (Node_Name node)), c)
  end.

Definition memDelete (name : string) (c : cluster) : option kube_error * cluster :=
  match c !! name with
  | Some _ => (None, delete name c)
  | None => (Some (notFound name), c)
  end.

Definition memList (c : cluster) : kresult (list Node) :=
  KOk (map (fun kv => node_of (fst kv) (snd kv)) (map_to_list c)).

Definition memClient : kubernetes_Interface cluster :=
  {| Get := memGet; Create := memCreate; Update := memUpdate;
     Delete := memDelete; NodeList := memList |}.

(** The same cluster behind an API server that refuses every write. *)
Definition forbidden : kube_error :=
  StatusError StatusReasonForbidden "nodes is forbidden".

Definition readOnlyClient : kubernetes_Interface cluster :=
  {| Get := memGet;
     Create := fun _ c => (KErr forbidden, c);
     Update := fun _ c => (KErr forbidden, c);
     Delete := fun _ c => (Some forbidden, c);
     NodeList := memList |}.

(** A client whose every call fails with [e]. *)
Definition downClient (e : kube_error) : kubernetes_Interface cluster :=
  {| Get := fun _ _ => KErr e;
     Create := fun _ c => (KErr e, c);
     Update := fun _ c => (KErr e, c);
     Delete := fun _ c => (Some e, c);
     NodeList := fun _ => KErr e |}.

(** ** Building a store: the environment of [NewNodeStore]

    [defaultConfig] is [$HOME/.kube/config]; [Stat] is [os.Stat] on it;
    the other three are [rest.InClusterConfig],
    [clientcmd.BuildConfigFromFlags] and [kubernetes.NewForConfig].  The
    [-kubeconfig] flag is a package variable: [NewNodeStore] reads and may
    write it, so it is passed and returned. *)

Inductive StatResult := StatFound | StatNotExist | StatFailed.

Record SetupEnv (Cfg C : Type) := {
  defaultConfig : string;
  Stat : string -> StatResult;
  InClusterConfig : result Cfg;
  BuildConfigFromFlags : string -> string -> result Cfg;
  NewForConfig : Cfg -> result (kubernetes_Interface C)
}.
Arguments defaultConfig {Cfg C} _.
Arguments Stat {Cfg C} _ _.
Arguments InClusterConfig {Cfg C} _.
Arguments BuildConfigFromFlags {Cfg C} _ _ _.
Arguments NewForConfig {Cfg C} _ _.

(** A call returns a value or panics with a message. *)
Inductive outcome (A : Type) :=
| Returned (a : A)
| Panicked (msg : string).
Arguments Returned {A} a.
Arguments Panicked {A} msg.

(** [os.IsNotExist(err)] of the error of [os.Stat]. *)
Definition stat_IsNotExist (r : StatResult) : bool :=
  match r with
  | StatNotExist => true
  | _ => false
  end.

(** ** The [nodestore] package, Kubernetes-backed *)

Module KubeStore.

Definition KubeMachineAnnotationKey : string := "node.alpha.kubernetes.io/kube-machine".
Definition KubeMachineLabel : string := "kube-machine".

Record NodeStore (C : Type) := {
  Path : string;
  CaCertPath : string;
  CaPrivateKeyPath : string;
  Client : kubernetes_Interface C
}.
Arguments Path {C} _.
Arguments CaCertPath {C} _.
Arguments CaPrivateKeyPath {C} _.
Arguments Client {C} _.

Section Store.
  Context {C : Type}.
  Variable codec : Codec.
  Variable s : NodeStore C.

Definition Save (host : Host) (c : C) : option error * C :=
  match MarshalIndent codec host with
  | Err err => (Some err, c)
  | Ok data =>
      match Get (Client s) (Name host) c with
      | KErr err =>
          if IsNotFound err then
            let node :=
              {| Node_Name := Name host;
                 Annotations :=
                   Some {[ KubeMachineAnnotationKey := string_of_list_byte data ]};
                 Labels := Some {[ KubeMachineLabel := "true" ]} |} in
            let '(r, c') := Create (Client s) node c in
            (err_of r, c')
          else (Some (KubeError err), c)
      | KOk node =>
          let node1 :=
            {| Node_Name := Node_Name node;
               Annotations := map_assign (Annotations node)
                                KubeMachineAnnotationKey (string_of_list_byte data);
               Labels := Labels node |} in
          let node2 :=
            {| Node_Name := Node_Name node1;
               Annotations := Annotations node1;
               Labels := map_assign (Labels node1) KubeMachineLabel "true" |} in
          let '(r, c') := Update (Client s) node2 c in
          (err_of r, c')
      end
  end.

Definition Remove (name : string) (c : C) : option error * C :=
  let '(r, c') := Delete (Client s) name c in (lift_err r, c').

(** The loop of [List]: [hostNames] grows by [append]. *)
Definition List_loop (items : list Node) : list string :=
  fold_left
    (fun hostNames node =>
       match map_index (Annotations node) KubeMachineAnnotationKey with
       | Some _ => (hostNames ++ [Node_Name node])%list
       | None => hostNames
       end)
    items [].

Definition List (c : C) : result (list string) :=
  match NodeList (Client s) c with
  | KErr err => Err (KubeError err)
  | KOk nodes => Ok (List_loop nodes)
  end.

Definition Exists (name : string) (c : C) : bool * option error :=
  match Get (Client s) name c with
  | KErr err =>
      if IsNotFound err then (false, None) else (false, Some (KubeError err))
  | KOk _ => (true, None)
  end.

(** [loadConfig] fills [*h]; the host it leaves is the result here. *)
Definition loadConfig (node : Node) (h : Host) (c : C) : result Host * C :=
  match map_index (Annotations node) KubeMachineAnnotationKey with
  | None => (Err ErrNotExist, c)
  | Some data =>
      let name := Name h in
      match MigrateHost codec h (list_byte_of_string data) with
      | Err err => (Err (Errorf ("Error getting migrated host: " +:+ Error err)), c)
      | Ok (migratedHost, migrationPerformed) =>
          let h := set_Name migratedHost name in
          if migrationPerformed : bool then
            match Save h c with
            | (Some err, c') =>
                (Err (Errorf ("Error saving config after migration was performed: "
                              +:+ Error err)), c')
            | (None, c') => (Ok h, c')
            end
          else (Ok h, c)
      end
  end.

(** [&host.Host{Name: name}]. *)
Definition emptyHost (name : string) : Host :=
  {| ConfigVersion := 0; Driver := None; DriverName := "";
     HostOptions := None; Name := name; RawDriver := [] |}.

Definition Load (name : string) (c : C) : result Host * C :=
  match Get (Client s) name c with
  | KErr err =>
      if IsNotFound err then (Err (ErrHostDoesNotExist name), c)
      else (Err (KubeError err), c)
  | KOk node => loadConfig node (emptyHost name) c
  end.

End Store.

(** [NewNodeStore(path, caCertPath, caPrivateKeyPath)], from the value of
    the [-kubeconfig] flag; the second component is the flag afterwards. *)
Definition NewNodeStore {Cfg C : Type} (env : SetupEnv Cfg C)
    (path caCertPath caPrivateKeyPath : string) (kubeconfig : string)
    : outcome (NodeStore C) * string :=
  let st := Stat env (defaultConfig env) in
  if String.eqb kubeconfig "" && stat_IsNotExist st then
    match InClusterConfig env with
    | Err err => (Panicked (Error err), kubeconfig)
    | Ok config =>
        match NewForConfig env config with
        | Err err => (Panicked (Error err), kubeconfig)
        | Ok client =>
            (Returned {| Path := path;
                         CaCertPath := caCertPath;
                         CaPrivateKeyPath := caPrivateKeyPath;
                         Client := client |}, kubeconfig)
        end
    end
  else
    let kubeconfig :=
      if String.eqb kubeconfig "" then defaultConfig env else kubeconfig in
    match BuildConfigFromFlags env "" kubeconfig with
    | Err err => (Panicked (Error err), kubeconfig)
    | Ok config =>
        match NewForConfig env config with
        | Err err => (Panicked (Error err), kubeconfig)
        | Ok client =>
            (Returned {| Path := path;
                         CaCertPath := caCertPath;
                         CaPrivateKeyPath := caPrivateKeyPath;
                         Client := client |}, kubeconfig)
        end
    end.

End KubeStore.

(** ** The file system

A state maps a path to what is there.  An operation returns its outcome,
the state it leaves, and the states the disk went through on the way,
oldest first: a crash leaves the disk in the initial state or in one of
those.  File modes are not modelled.

A call fails when the state does not allow it (a missing directory, a name
that is taken); what the state allows is what [Stat] finds.  It can also
fail for reasons the state does not show (permissions, a full or failing
device): these are the answers of [FailCall] and [FailWrite], which belong
to the operating system as [path/filepath] does. *)

Module FS.

Inductive inode :=
| File (content : list byte)
| Directory.

Abbreviation fs := (gmap string inode).

(** The calls that change the disk. *)
Inductive Call :=
| CallWriteFile (p : string)
| CallClose (p : string)
| CallRemove (p : string)
| CallRename (a b : string)
| CallMkdir (p : string)
| CallTempFile (dir prefix : string).

(** [path/filepath]; the name [ioutil.TempFile] settles on for a directory
    and a prefix (it appends a random number to the prefix and joins the
    result to the directory); and the failures the state does not show:
    [FailCall c s] makes the call [c], which the state [s] allows, fail
    without effect, and [FailWrite p data s] makes the write of [data] to
    [p] break off after so many bytes. *)
Record OS := {
  Join : list string -> string;
  Dir : string -> string;
  TempName : fs -> string -> string -> string;
  FailCall : Call -> fs -> option Errno;
  FailWrite : string -> list byte -> fs -> option (nat * Errno)
}.

Definition M (A : Type) : Type := fs -> A * fs * list fs.

(** Run [m]; stop on an error, go on with [k] otherwise. *)
Definition andThen (m k : M (option error)) : M (option error) :=
  fun s =>
    match m s with
    | (Some err, s1, h1) => (Some err, s1, h1)
    | (None, s1, h1) =>
        let '(r, s2, h2) := k s1 in (r, s2, (h1 ++ h2)%list)
    end.

Section Calls.
  Variable os : OS.

(** [os.Stat(p)]: what is at [p].  A root, that is a path that is its own
    parent, is a directory whether the state lists it or not. *)
Definition Stat (p : string) (s : fs) : option inode :=
  match s !! p with
  | Some x => Some x
  | None => if String.eqb (Dir os p) p then Some Directory else None
  end.

(** The error of a call on a path [p] where [Stat] finds nothing: [ENOTDIR]
    when the nearest path above [p] that exists is a regular file, [ENOENT]
    otherwise.  The parents are followed as [Dir os] gives them, [n] times at
    most. *)
Fixpoint missing_rec (n : nat) (p : string) (s : fs) : Errno :=
  match Stat (Dir os p) s with
  | Some (File _) => ENOTDIR
  | Some Directory => ENOENT
  | None =>
      match n with
      | O => ENOENT
      | S n' => missing_rec n' (Dir os p) s
      end
  end.

Definition missing (p : string) (s : fs) : Errno :=
  missing_rec (String.length p) p s.

(** [_, err := os.Stat(p); os.IsNotExist(err)]: true for [ENOENT] only. *)
Definition IsNotExist (p : string) (s : fs) : bool :=
  match Stat p s with
  | None =>
      match missing p s with
      | ENOENT => true
      | _ => false
      end
  | Some _ => false
  end.

(** The states a write of [data] to [p] goes through: the file opened
    and truncated, then one more byte at a time. *)
Definition write_steps (p : string) (data : list byte) (s : fs) : list fs :=
  map (fun k => <[p := File (take k data)]> s) (seq 0 (S (length data))).

(** The write itself, once the state allows it: the open may fail, and the
    write may break off, leaving the bytes written so far. *)
Definition write (p : string) (data : list byte) : M (option error) :=
  fun s =>
    match FailCall os (CallWriteFile p) s with
    | Some errno => (Some (PathError "open" p errno), s, [])
    | None =>
        match FailWrite os p data s with
        | Some (k, errno) =>
            (Some (PathError "write" p errno),
             <[p := File (take k data)]> s, write_steps p (take k data) s)
        | None => (None, <[p := File data]> s, write_steps p data s)
        end
    end.

(** [ioutil.WriteFile(p, data, 0600)]. *)
Definition WriteFile (p : string) (data : list byte) : M (option error) :=
  fun s =>
    match Stat p s with
    | Some Directory => (Some (PathError "open" p EISDIR), s, [])
    | Some (File _) => write p data s
    | None =>
        match Stat (Dir os p) s with
        | Some Directory => write p data s
        | _ => (Some (PathError "open" p (missing p s)), s, [])
        end
    end.

(** [ioutil.ReadFile(p)]. *)
Definition ReadFile (p : string) (s : fs) : result (list byte) :=
  match Stat p s with
  | Some (File d) => Ok d
  | Some Directory => Err (PathError "read" p EISDIR)
  | None => Err (PathError "open" p (missing p s))
  end.

(** [ioutil.TempFile(dir, prefix)]: a new empty file, or an error when
    the directory is missing or is no directory, or no free name was
    found. *)
Definition TempFile (dir prefix : string) : M (result string) :=
  fun s =>
    let name := TempName os s dir prefix in
    match Stat dir s with
    | Some Directory =>
        match Stat name s with
        | None =>
            match FailCall os (CallTempFile dir prefix) s with
            | Some errno => (Err (PathError "open" name errno), s, [])
            | None => (Ok name, <[name := File []]> s, [<[name := File []]> s])
            end
        | Some _ => (Err (PathError "open" name EEXIST), s, [])
        end
    | Some (File _) => (Err (PathError "open" name ENOTDIR), s, [])
    | None => (Err (PathError "open" name (missing dir s)), s, [])
    end.

(** [f.Close()] of the file opened at [p]. *)
Definition Close (p : string) : M (option error) :=
  fun s =>
    match FailCall os (CallClose p) s with
    | Some errno => (Some (PathError "close" p errno), s, [])
    | None => (None, s, [])
    end.

(** The removal itself, once the state allows it. *)
Definition unlink (p : string) : M (option error) :=
  fun s =>
    match FailCall os (CallRemove p) s with
    | Some errno => (Some (PathError "remove" p errno), s, [])
    | None => (None, delete p s, [delete p s])
    end.

(** [os.Remove(p)]: a file, or a directory with nothing in it; never a
    root. *)
Definition Remove (p : string) : M (option error) :=
  fun s =>
    if String.eqb (Dir os p) p then (Some (PathError "remove" p EBUSY), s, [])
    else
      match s !! p with
      | None => (Some (PathError "remove" p (missing p s)), s, [])
      | Some (File _) => unlink p s
      | Some Directory =>
          if bool_decide (map_Forall (fun q _ => q = p \/ Dir os q <> p) s)
          then unlink p s
          else (Some (PathError "remove" p ENOTEMPTY), s, [])
      end.

(** The renaming itself, once the state allows it: one step. *)
Definition move (a b : string) (d : list byte) : M (option error) :=
  fun s =>
    match FailCall os (CallRename a b) s with
    | Some errno => (Some (PathError "rename" a errno), s, [])
    | None => (None, <[b := File d]> (delete a s), [<[b := File d]> (delete a s)])
    end.

(** [os.Rename(a, b)] of a regular file.  Renaming a directory is not
    modelled: the call then fails. *)
Definition Rename (a b : string) : M (option error) :=
  fun s =>
    match Stat a s with
    | None => (Some (PathError "rename" a (missing a s)), s, [])
    | Some Directory => (Some (PathError "rename" a EISDIR), s, [])
    | Some (File d) =>
        match Stat b s with
        | Some Directory => (Some (PathError "rename" b EISDIR), s, [])
        | Some (File _) => move a b d s
        | None =>
            match Stat (Dir os b) s with
            | Some Directory => move a b d s
            | _ => (Some (PathError "rename" b (missing b s)), s, [])
            end
        end
    end.

(** [os.Mkdir(p, 0700)]: the parent must be a directory and [p] free. *)
Definition Mkdir (p : string) : M (option error) :=
  fun s =>
    match Stat p s with
    | Some _ => (Some (PathError "mkdir" p EEXIST), s, [])
    | None =>
        match Stat (Dir os p) s with
        | Some Directory =>
            match FailCall os (CallMkdir p) s with
            | Some errno => (Some (PathError "mkdir" p errno), s, [])
            | None => (None, <[p := Directory]> s, [<[p := Directory]> s])
            end
        | _ => (Some (PathError "mkdir" p (missing p s)), s, [])
        end
    end.

(** The last step of [os.MkdirAll]: [Mkdir], whose error is dropped when
    the directory is there all the same. *)
Definition mkdirLast (p : string) : M (option error) :=
  fun s =>
    match Mkdir p s with
    | (Some err, s1, h1) =>
        match Stat p s1 with
        | Some Directory => (None, s1, h1)
        | _ => (Some err, s1, h1)
        end
    | (None, s1, h1) => (None, s1, h1)
    end.

(** [os.MkdirAll(p, 0700)]: nothing to do when [p] is a directory, an
    error when it is a file; otherwise the parent is made in the same way,
    then [p].  [os.MkdirAll] calls itself on a path that is shorter each
    time; here the parent is [Dir os p] and the number of calls is bounded
    by [n], after which only [Mkdir] is left. *)
Fixpoint MkdirAll_rec (n : nat) (p : string) : M (option error) :=
  fun s =>
    match Stat p s with
    | Some Directory => (None, s, [])
    | Some (File _) => (Some (PathError "mkdir" p ENOTDIR), s, [])
    | None =>
        match n with
        | O => mkdirLast p s
        | S n' => andThen (MkdirAll_rec n' (Dir os p)) (mkdirLast p) s
        end
    end.

Definition MkdirAll (p : string) : M (option error) :=
  MkdirAll_rec (String.length p) p.

End Calls.

(** Paths joined with a slash, and the parent as the text before the last
    slash: what [path/filepath] gives on clean names without separators.
    The temporary name takes a fixed number. *)
Definition slashJoin (elems : list string) : string :=
  match filter (fun e => e <> "") elems with
  | [] => ""
  | e :: es => fold_left (fun acc x => acc +:+ "/" +:+ x) es e
  end.

Fixpoint beforeLastSlash (s : string) : option string :=
  match s with
  | "" => None
  | String c rest =>
      match beforeLastSlash rest with
      | Some d => Some (String c d)
      | None => if Ascii.eqb c "/"%char then Some "" else None
      end
  end.

Definition slashDir (p : string) : string :=
  match beforeLastSlash p with
  | None => "."
  | Some "" => "/"
  | Some d => d
  end.

(** A system where no call fails unless the state makes it fail. *)
Definition slashOS : OS :=
  {| Join := slashJoin;
     Dir := slashDir;
     TempName := fun _ dir prefix => slashJoin [dir; prefix +:+ "123456789"];
     FailCall := fun _ _ => None;
     FailWrite := fun _ _ _ => None |}.

(** The same system, on which every [os.Rename] is refused. *)
Definition renameFailsOS : OS :=
  {| Join := slashJoin;
     Dir := slashDir;
     TempName := fun _ dir prefix => slashJoin [dir; prefix +:+ "123456789"];
     FailCall := fun c _ => match c with CallRename _ _ => Some EACCES | _ => None end;
     FailWrite := fun _ _ _ => None |}.

End FS.

(** ** The [nodestore] package, file-backed

[Save] writes a file; [Remove], [List], [Exists] and [Load] ask the
Kubernetes client. *)

Module FileStore.

Record NodeStore (C : Type) := {
  Path : string;
  CaCertPath : string;
  CaPrivateKeyPath : string;
  Client : kubernetes_Interface C
}.
Arguments Path {C} _.
Arguments CaCertPath {C} _.
Arguments CaPrivateKeyPath {C} _.
Arguments Client {C} _.

Section Store.
  Context {C : Type}.
  Variable os : FS.OS.
  Variable codec : Codec.
  Variable s : NodeStore C.

Definition GetMachinesDir : string := FS.Join os [Path s; "machines"].

Definition saveToFile (data : list byte) (file : string) : FS.M (option error) :=
  fun d =>
    if FS.IsNotExist os file d then FS.WriteFile os file data d
    else
      match FS.TempFile os (FS.Dir os file) "config.json.tmp" d with
      | (Err err, d1, h1) => (Some err, d1, h1)
      | (Ok tmpfi, d1, h1) =>
          let '(r, d2, h2) :=
            FS.andThen (FS.WriteFile os tmpfi data)
              (FS.andThen (FS.Close os tmpfi)
                 (FS.andThen (FS.Remove os file)
                    (FS.Rename os tmpfi file))) d1 in
          (* defer os.Remove(tmpfi.Name()) *)
          let '(_, d3, h3) := FS.Remove os tmpfi d2 in
          (r, d3, (h1 ++ h2 ++ h3)%list)
      end.

Definition Save (host : Host) : FS.M (option error) :=
  fun d =>
    match MarshalIndent codec host with
    | Err err => (Some err, d, [])
    | Ok data =>
        let hostPath := FS.Join os [GetMachinesDir; Name host] in
        FS.andThen (FS.MkdirAll os hostPath)
          (saveToFile data (FS.Join os [hostPath; "config.json"])) d
    end.

Definition Remove (name : string) (c : C) : option error * C :=
  let '(r, c') := Delete (Client s) name c in (lift_err r, c').

(** The loop of [List]: every node's name is appended. *)
Definition List_loop (items : list Node) : list string :=
  fold_left (fun hostNames node => (hostNames ++ [Node_Name node])%list) items [].

Definition List (c : C) : result (list string) :=
  match NodeList (Client s) c with
  | KErr err => Err (KubeError err)
  | KOk nodes => Ok (List_loop nodes)
  end.

Definition Exists (name : string) (c : C) : bool * option error :=
  match Get (Client s) name c with
  | KErr err =>
      if IsNotFound err then (false, None) else (false, Some (KubeError err))
  | KOk _ => (true, None)
  end.

(** [loadConfig] fills [*h]; the host it leaves is the result here. *)
Definition loadConfig (h : Host) : FS.M (result Host) :=
  fun d =>
    match FS.ReadFile os (FS.Join os [GetMachinesDir; Name h; "config.json"]) d with
    | Err err => (Err err, d, [])
    | Ok data =>
        let name := Name h in
        match MigrateHost codec h data with
        | Err err =>
            (Err (Errorf ("Error getting migrated host: " +:+ Error err)), d, [])
        | Ok (migratedHost, migrationPerformed) =>
            let h := set_Name migratedHost name in
            if migrationPerformed : bool then
              match saveToFile data
                      (FS.Join os [GetMachinesDir; Name h; "config.json.bak"]) d with
              | (Some err, d1, h1) =>
                  (Err (Errorf ("Error attempting to save backup after migration: "
                                +:+ Error err)), d1, h1)
              | (None, d1, h1) =>
                  match Save h d1 with
                  | (Some err, d2, h2) =>
                      (Err (Errorf ("Error saving config after migration was performed: "
                                    +:+ Error err)), d2, (h1 ++ h2)%list)
                  | (None, d2, h2) => (Ok h, d2, (h1 ++ h2)%list)
                  end
              end
            else (Ok h, d, [])
        end
    end.

(** [Load] asks the client whether the node is there and, when it is,
    returns a host made of constants. *)
Definition Load (name : string) (c : C) : result Host :=
  match Get (Client s) name c with
  | KErr err => Err (KubeError err)
  | KOk _ =>
      Ok {| Name := name;
            ConfigVersion := 3;
            Driver := Some (none_NewDriver name "https://1.2.3.4:1234");
            DriverName := "none";
            HostOptions := Some {| Options_Driver := "none";
                                   Options_Memory := 42;
                                   Options_Disk := 1234 |};
            RawDriver := [] |}
  end.

End Store.

(** [NewNodeStore(path, caCertPath, caPrivateKeyPath)], from the value of
    the [-kubeconfig] flag; the second component is the flag afterwards. *)
Definition NewNodeStore {Cfg C : Type} (env : SetupEnv Cfg C)
    (path caCertPath caPrivateKeyPath : string) (kubeconfig : string)
    : outcome (NodeStore C) * string :=
  let st := Stat env (defaultConfig env) in
  if String.eqb kubeconfig "" && stat_IsNotExist st then
    match InClusterConfig env with
    | Err err => (Panicked (Error err), kubeconfig)
    | Ok config =>
        match NewForConfig env config with
        | Err err => (Panicked (Error err), kubeconfig)
        | Ok client =>
            (Returned {| Path := path;
                         CaCertPath := caCertPath;
                         CaPrivateKeyPath := caPrivateKeyPath;
                         Client := client |}, kubeconfig)
        end
    end
  else
    let kubeconfig :=
      if String.eqb kubeconfig "" then defaultConfig env else kubeconfig in
    match BuildConfigFromFlags env "" kubeconfig with
    | Err err => (Panicked (Error err), kubeconfig)
    | Ok config =>
        match NewForConfig env config with
        | Err err => (Panicked (Error err), kubeconfig)
        | Ok client =>
            (Returned {| Path := path;
                         CaCertPath := caCertPath;
                         CaPrivateKeyPath := caPrivateKeyPath;
                         Client := client |}, kubeconfig)
        end
    end.

End FileStore.

(** ** The [mcndirs] package

    [BaseDir] is a package variable, initialised from
    [KUBE_MACHINE_STORAGE_PATH]; the functions read and may write it, so it
    is passed and returned.  [home] is [mcnutils.GetHomeDir()]. *)

Module Mcndirs.

Section Dirs.
  Variable os : FS.OS.
  Variable home : string.

Definition GetBaseDir (BaseDir : string) : string * string :=
  let BaseDir :=
    if String.eqb BaseDir "" then FS.Join os [home; ".kube"; "machine"]
    else BaseDir in
  (BaseDir, BaseDir).

Definition GetMachineDir (BaseDir : string) : string * string :=
  let '(base, BaseDir) := GetBaseDir BaseDir in
  (FS.Join os [base; "machines"], BaseDir).

Definition GetMachineCertDir (BaseDir : string) : string * string :=
  let '(base, BaseDir) := GetBaseDir BaseDir in
  (FS.Join os [base; "certs"], BaseDir).

End Dirs.

End Mcndirs.

(** ** A toy codec, to run the stores

The record is written as its schema version, a space, and its driver
name; a record read back at a version below 3 is migrated to 3. *)

Definition version_byte (v : Z) : byte :=
  match Byte.of_N (Z.to_N (48 + v)) with
  | Some b => b
  | None => "?"%byte
  end.

Definition byte_version (b : byte) : Z := Z.of_N (Byte.to_N b) - 48.

Definition toyMarshal (h : Host) : result (list byte) :=
  if (0 <=? ConfigVersion h)%Z && (ConfigVersion h <=? 9)%Z then
    Ok (version_byte (ConfigVersion h) :: " "%byte :: list_byte_of_string (DriverName h))
  else Err (ForeignError "json: unsupported value").

Definition toyMigrate (h : Host) (data : list byte) : result (Host * bool) :=
  match data with
  | v :: _ :: rest =>
      let ver := byte_version v in
      if (3 <? ver)%Z then Err (ForeignError "config version is from the future")
      else
        Ok ({| ConfigVersion := 3;
               Driver := Some (OtherDriver (string_of_list_byte rest) []);
               DriverName := string_of_list_byte rest;
               HostOptions := None;
               Name := "";
               RawDriver := [] |}, (ver <? 3)%Z)
  | _ => Err (ForeignError "unexpected end of JSON input")
  end.

Definition toyCodec : Codec :=
  {| MarshalIndent := toyMarshal; MigrateHost := toyMigrate |}.

(** ** Stores and states to run the definitions on *)

Definition ksMem : KubeStore.NodeStore cluster :=
  KubeStore.Build_NodeStore cluster "/b" "" "" memClient.

Definition ksReadOnly : KubeStore.NodeStore cluster :=
  KubeStore.Build_NodeStore cluster "/b" "" "" readOnlyClient.

Definition refused : kube_error := TransportError "connection refused".

Definition ksDown : KubeStore.NodeStore cluster :=
  KubeStore.Build_NodeStore cluster "/b" "" "" (downClient refused).

Definition fsMem : FileStore.NodeStore cluster :=
  FileStore.Build_NodeStore cluster "/b" "" "" memClient.

Definition fsDown : FileStore.NodeStore cluster :=
  FileStore.Build_NodeStore cluster "/b" "" "" (downClient refused).

(** A host at the current schema version. *)
Definition hostV3 : Host :=
  {| ConfigVersion := 3;
     Driver := Some (OtherDriver "virtualbox" []);
     DriverName := "virtualbox";
     HostOptions := Some {| Options_Driver := "virtualbox";
                            Options_Memory := 1024;
                            Options_Disk := 20000 |};
     Name := "n1";
     RawDriver := [] |}.

(** A cluster whose node [n1] carries a record at version 3, one whose node
    [n1] carries a record at version 2, and one whose node [n1] carries no
    record. *)
Definition annotated (data : string) : cluster :=
  {[ "n1" := (Some ({[ KubeStore.KubeMachineAnnotationKey := data ]} : gmap string string),
             Some ({[ KubeStore.KubeMachineLabel := "true" ]} : gmap string string)) ]}.

Definition clusterV3 : cluster := annotated "3 virtualbox".
Definition clusterV2 : cluster := annotated "2 virtualbox".
Definition clusterBare : cluster := {[ "n1" := (None, None) ]}.

(** A disk with the machines directory, and one where [n1] was saved at
    version 2. *)
Definition diskEmpty : FS.fs := {[ "/b/machines" := FS.Directory ]}.

Definition diskV2 : FS.fs :=
  {[ "/b/machines" := FS.Directory;
     "/b/machines/n1" := FS.Directory;
     "/b/machines/n1/config.json" := FS.File (list_byte_of_string "2 virtualbox") ]}.

Definition scriptOk : Detector.Script :=
  {| Detector.provisionFails := None;
     Detector.kubeconfig := Ok (list_byte_of_string "apiVersion: v1");
     Detector.sshFails := fun _ => None |}.

Definition scriptInnerFails : Detector.Script :=
  {| Detector.provisionFails := Some (ForeignError "provisioning failed");
     Detector.kubeconfig := Ok (list_byte_of_string "apiVersion: v1");
     Detector.sshFails := fun _ => None |}.

Definition scriptReadFails : Detector.Script :=
  {| Detector.provisionFails := None;
     Detector.kubeconfig := Err (PathError "open" "/home/me/.kube/config" ENOENT);
     Detector.sshFails := fun _ => None |}.

(** The node accepts the copy of the kubeconfig and refuses every other
    command. *)
Definition scriptSecondCopyFails : Detector.Script :=
  {| Detector.provisionFails := None;
     Detector.kubeconfig := Ok (list_byte_of_string "apiVersion: v1");
     Detector.sshFails := fun cmd =>
       if String.eqb cmd
            (Detector.described_command (list_byte_of_string "apiVersion: v1")
               Detector.nodeKubeconfigPath "0600")
       then None else Some (ForeignError "exit status 1") |}.

Definition logKubeconfig : Detector.Event :=
  Detector.EvLog ["/home/me/.kube/config"; Detector.nodeKubeconfigPath].

Definition cfg : string := "/b/machines/n1/config.json".

(** The directory of [n1] without a record, and with a short old record. *)
Definition diskN1 : FS.fs :=
  {[ "/b/machines" := FS.Directory; "/b/machines/n1" := FS.Directory ]}.

Definition diskOld : FS.fs :=
  {[ "/b/machines" := FS.Directory;
     "/b/machines/n1" := FS.Directory;
     cfg := FS.File (list_byte_of_string "2 v") ]}.

(** A disk with the base directory alone, and one where a regular file sits
    where the machines directory should be.  ([∅] is the disk with the root
    alone.) *)
Definition diskBase : FS.fs := {[ "/b" := FS.Directory ]}.

Definition diskBlocked : FS.fs :=
  {[ "/b" := FS.Directory; "/b/machines" := FS.File [] ]}.

Definition hostToy : Host :=
  {| ConfigVersion := 3;
     Driver := Some (OtherDriver "virtualbox" []);
     DriverName := "virtualbox";
     HostOptions := None;
     Name := "n1";
     RawDriver := [] |}.

(** The host the toy migration returns, under the name it was asked for. *)
Definition migratedToy : Host :=
  {| ConfigVersion := 3;
     Driver := Some (OtherDriver "virtualbox" []);
     DriverName := "virtualbox";
     HostOptions := None;
     Name := "";
     RawDriver := [] |}.

(** A machine with the default kubeconfig in place, outside a cluster; and
    the same machine once the file is gone, inside a cluster.  A
    configuration is the name of what it was built from. *)
Definition setupHome : SetupEnv string cluster :=
  {| defaultConfig := "/home/me/.kube/config";
     Stat := fun _ => StatFound;
     InClusterConfig := Err (ForeignError "not running in a cluster");
     BuildConfigFromFlags := fun _ file => Ok file;
     NewForConfig := fun _ => Ok memClient |}.

Definition setupGone : SetupEnv string cluster :=
  {| defaultConfig := "/home/me/.kube/config";
     Stat := fun _ => StatNotExist;
     InClusterConfig := Ok "in-cluster";
     BuildConfigFromFlags := fun _ file => Err (PathError "stat" file ENOENT);
     NewForConfig := fun _ => Ok memClient |}.

(** A cluster with a node that carries a record and one that does not. *)
Definition clusterTwo : cluster := <["n2" := (None, None)]> clusterV3.

(** ** Definitions used to state the properties *)

Definition marked (node : Node) : bool :=
  match map_index (Annotations node) KubeStore.KubeMachineAnnotationKey with
  | Some _ => true
  | None => false
  end.

(** What a path holds in each of the states a run went through. *)
Definition contents (p : string) (h : list FS.fs) : list (option FS.inode) :=
  map (fun s : FS.fs => s !! p) h.

(** The run of [saveToFile] over an existing regular file. *)
Definition overwrite_steps (data : list byte) (file tmp : string) (d : FS.fs) : list FS.fs :=
  let d1 := <[tmp := FS.File []]> d in
  let d2 := <[tmp := FS.File data]> d1 in
  ([d1] ++ FS.write_steps tmp data d1
   ++ [delete file d2; <[file := FS.File data]> (delete tmp (delete file d2))])%list.

(** What [Save] leaves as a node's annotations and labels, given what the
    cluster held for the node. *)
Definition saved_meta
    (old : option (option (gmap string string) * option (gmap string string)))
    (json : string) : option (gmap string string) * option (gmap string string) :=
  match old with
  | None => (Some {[ KubeStore.KubeMachineAnnotationKey := json ]},
             Some {[ KubeStore.KubeMachineLabel := "true" ]})
  | Some (a, l) => (map_assign a KubeStore.KubeMachineAnnotationKey json,
                    map_assign l KubeStore.KubeMachineLabel "true")
  end.

(** The part of a record that the round trip is about. *)
Definition same_config (a b : Host) : Prop :=
  ConfigVersion a = ConfigVersion b /\ Driver a = Driver b
  /\ DriverName a = DriverName b /\ HostOptions a = HostOptions b.

(** What the file-backed [Load] returns for a name whose node exists. *)
Definition stubHost (name : string) : Host :=
  {| ConfigVersion := 3;
     Driver := Some (NoneDriver name "https://1.2.3.4:1234");
     DriverName := "none";
     HostOptions := Some {| Options_Driver := "none";
                            Options_Memory := 42;
                            Options_Disk := 1234 |};
     Name := name;
     RawDriver := [] |}.

(** A system on which no call fails unless the state makes it fail. *)
Definition reliable (os : FS.OS) : Prop :=
  (forall c s, FS.FailCall os c s = None)
  /\ (forall p data s, FS.FailWrite os p data s = None).

(** The parent of [p], [k] levels up. *)
Fixpoint up (os : FS.OS) (k : nat) (p : string) : string :=
  match k with
  | O => p
  | S k' => up os k' (FS.Dir os p)
  end.

(** A path and its parents, [n] levels up. *)
Fixpoint chain (os : FS.OS) (n : nat) (p : string) : list string :=
  p :: match n with
       | O => []
       | S n' => chain os n' (FS.Dir os p)
       end.

(** The removal of [p] is among the calls that the system makes fail. *)
Definition removalFails (os : FS.OS) (p : string) : Prop :=
  exists s, FS.FailCall os (FS.CallRemove p) s <> None.

(** [p] is in [d'] as it was in [d]; or it was not there and is now a
    directory, or a file whose removal failed. *)
Definition kept (os : FS.OS) (d d' : FS.fs) (p : string) : Prop :=
  d' !! p = d !! p
  \/ (d !! p = None
      /\ (d' !! p = Some FS.Directory
          \/ (removalFails os p /\ exists x, d' !! p = Some (FS.File x)))).

(** The 64 six-bit values, to check the alphabet by enumeration. *)
Definition sextets : list N := map N.of_nat (seq 0 64).

(** * Properties *)

(** ** Shared lemmas *)

Lemma kube_List_loop_acc (items : list Node) (acc : list string) :
  fold_left
    (fun hostNames node =>
       match map_index (Annotations node) KubeStore.KubeMachineAnnotationKey with
       | Some _ => (hostNames ++ [Node_Name node])%list
       | None => hostNames
       end) items acc
  = (acc ++ map Node_Name (List.filter marked items))%list.
Proof.
  revert acc. induction items as [|n items IH]; intros acc; simpl.
  - by rewrite app_nil_r.
  - rewrite IH. unfold marked.
    destruct (map_index (Annotations n) KubeStore.KubeMachineAnnotationKey); simpl.
    + by rewrite <- app_assoc.
    + done.
Qed.

Lemma file_List_loop_acc (items : list Node) (acc : list string) :
  fold_left (fun hostNames node => (hostNames ++ [Node_Name node])%list) items acc
  = (acc ++ map Node_Name items)%list.
Proof.
  revert acc. induction items as [|n items IH]; intros acc; simpl.
  - by rewrite app_nil_r.
  - rewrite IH. by rewrite <- app_assoc.
Qed.

(** ** Listing *)

Lemma kube_List_eq {C : Type} (ks : KubeStore.NodeStore C) (c : C) :
  KubeStore.List ks c =
    match NodeList (KubeStore.Client ks) c with
    | KErr err => Err (KubeError err)
    | KOk items => Ok (map Node_Name (List.filter marked items))
    end.
Proof.
  unfold KubeStore.List, KubeStore.List_loop.
  destruct (NodeList _ c); [|done].
  by rewrite kube_List_loop_acc.
Qed.

(** C8.  In the Kubernetes-backed store [List] returns, in the order of the
    client's answer, exactly the names of the nodes whose annotations hold
    the marker key; in the file-backed store it returns the names of all
    nodes.  An error of the client is returned as it is. *)
Theorem List_names {C : Type} (ks : KubeStore.NodeStore C)
    (fst_ : FileStore.NodeStore C) (c : C) :
  KubeStore.List ks c =
    match NodeList (KubeStore.Client ks) c with
    | KErr err => Err (KubeError err)
    | KOk items => Ok (map Node_Name (List.filter marked items))
    end
  /\ FileStore.List fst_ c =
    match NodeList (FileStore.Client fst_) c with
    | KErr err => Err (KubeError err)
    | KOk items => Ok (map Node_Name items)
    end.
Proof.
  split.
  - apply kube_List_eq.
  - unfold FileStore.List, FileStore.List_loop.
    destruct (NodeList _ c); [|done].
    by rewrite file_List_loop_acc.
Qed.

(** A name is listed by the Kubernetes-backed store exactly when some node of
    the client's answer has that name and carries the marker annotation. *)
Lemma kube_List_elem {C : Type} (ks : KubeStore.NodeStore C) (c : C)
    (items : list Node) (names : list string) (n : string) :
  NodeList (KubeStore.Client ks) c = KOk items ->
  KubeStore.List ks c = Ok names ->
  n ∈ names <->
  exists node, node ∈ items /\ Node_Name node = n
               /\ is_Some (map_index (Annotations node) KubeStore.KubeMachineAnnotationKey).
Proof.
  intros Hl HL. rewrite kube_List_eq, Hl in HL. injection HL as <-.
  rewrite list_elem_of_In, in_map_iff. split.
  - intros (node & Hn & Hin). apply filter_In in Hin as [Hin Hm].
    exists node. rewrite list_elem_of_In. repeat split; try done.
    unfold marked in Hm. by destruct (map_index _ _).
  - intros (node & Hin & Hn & [v Hv]). exists node. split; [done|].
    apply filter_In. rewrite <- list_elem_of_In. split; [done|].
    unfold marked. by rewrite Hv.
Qed.

(** ** Existence *)

(** C10.  In both stores [Exists] never fails for an absent node: it answers
    [(false, nil)] when the lookup reports not-found, [(true, nil)] when the
    lookup succeeds, and [(false, err)] on any other error [err] of the
    lookup. *)
Theorem Exists_cases {C : Type} (ks : KubeStore.NodeStore C)
    (fst_ : FileStore.NodeStore C) (name : string) (c : C) :
  (forall err, Get (KubeStore.Client ks) name c = KErr err ->
     IsNotFound err = true -> KubeStore.Exists ks name c = (false, None))
  /\ (forall node, Get (KubeStore.Client ks) name c = KOk node ->
     KubeStore.Exists ks name c = (true, None))
  /\ (forall err, Get (KubeStore.Client ks) name c = KErr err ->
     IsNotFound err = false ->
     KubeStore.Exists ks name c = (false, Some (KubeError err)))
  /\ (forall err, Get (FileStore.Client fst_) name c = KErr err ->
     IsNotFound err = true -> FileStore.Exists fst_ name c = (false, None))
  /\ (forall node, Get (FileStore.Client fst_) name c = KOk node ->
     FileStore.Exists fst_ name c = (true, None))
  /\ (forall err, Get (FileStore.Client fst_) name c = KErr err ->
     IsNotFound err = false ->
     FileStore.Exists fst_ name c = (false, Some (KubeError err))).
Proof.
  unfold KubeStore.Exists, FileStore.Exists.
  repeat split; intros x Hx; rewrite Hx; try done; by intros ->.
Qed.

Lemma Exists_cases_witness :
  KubeStore.Exists ksMem "n2" clusterV3 = (false, None)
  /\ KubeStore.Exists ksMem "n1" clusterV3 = (true, None)
  /\ KubeStore.Exists ksDown "n1" clusterV3 = (false, Some (KubeError refused))
  /\ FileStore.Exists fsMem "n2" clusterV3 = (false, None)
  /\ FileStore.Exists fsMem "n1" clusterV3 = (true, None)
  /\ FileStore.Exists fsDown "n1" clusterV3 = (false, Some (KubeError refused)).
Proof.
  pose proof (Exists_cases ksMem fsMem "n2" clusterV3) as (A1 & _ & _ & A4 & _ & _).
  pose proof (Exists_cases ksMem fsMem "n1" clusterV3) as (_ & B2 & _ & _ & B5 & _).
  pose proof (Exists_cases ksDown fsDown "n1" clusterV3) as (_ & _ & D3 & _ & _ & D6).
  split_and!.
  - apply (A1 (notFound "n2")); vm_compute; reflexivity.
  - eapply B2; vm_compute; reflexivity.
  - apply (D3 refused); vm_compute; reflexivity.
  - apply (A4 (notFound "n2")); vm_compute; reflexivity.
  - eapply B5; vm_compute; reflexivity.
  - apply (D6 refused); vm_compute; reflexivity.
Defined.

(** ** The name of a loaded host *)

(** C9.  A host that [Load] returns for [name] has [name] as its [Name] in
    both stores, whatever name the host returned by the migration routine
    carries: [loadConfig] keeps the name of the host it was given. *)
Theorem Load_keeps_name {C : Type} (os : FS.OS) (codec : Codec)
    (ks : KubeStore.NodeStore C) (fst_ : FileStore.NodeStore C)
    (name : string) (c : C) :
  (forall h c', KubeStore.Load codec ks name c = (Ok h, c') -> Name h = name)
  /\ (forall node h0 h c',
        KubeStore.loadConfig codec ks node h0 c = (Ok h, c') -> Name h = Name h0)
  /\ (forall h, FileStore.Load fst_ name c = Ok h -> Name h = name)
  /\ (forall h0 d h d' hist,
        FileStore.loadConfig os codec fst_ h0 d = (Ok h, d', hist) -> Name h = Name h0).
Proof.
  assert (K : forall node h0 h c',
             KubeStore.loadConfig codec ks node h0 c = (Ok h, c') -> Name h = Name h0).
  { intros node h0 h c'. unfold KubeStore.loadConfig.
    destruct (map_index _ _) as [data|]; [|discriminate].
    destruct (MigrateHost codec h0 _) as [[m b]|e]; [|discriminate].
    destruct b.
    - destruct (KubeStore.Save codec ks _ c) as [[e|] c'']; [discriminate|].
      by intros [= <- _].
    - by intros [= <- _]. }
  repeat split.
  - intros h c'. unfold KubeStore.Load.
    destruct (Get _ name c) as [node|e].
    + intros H. by apply K in H.
    + by destruct (IsNotFound e).
  - exact K.
  - intros h. unfold FileStore.Load.
    destruct (Get _ name c); [|discriminate]. by intros [= <-].
  - intros h0 d h d' hist. unfold FileStore.loadConfig.
    destruct (FS.ReadFile os _ d) as [data|e]; [|discriminate].
    destruct (MigrateHost codec h0 data) as [[m b]|e]; [|discriminate].
    destruct b.
    + destruct (FileStore.saveToFile os data _ d) as [[[e|] d1] h1]; [discriminate|].
      destruct (FileStore.Save os codec fst_ _ d1) as [[[e|] d2] h2]; [discriminate|].
      by intros [= <- _ _].
    + by intros [= <- _ _].
Qed.

Lemma Load_keeps_name_witness :
  (exists m b, MigrateHost toyCodec (KubeStore.emptyHost "n1")
                 (list_byte_of_string "2 virtualbox") = Ok (m, b) /\ Name m = "")
  /\ (exists h c', KubeStore.Load toyCodec ksMem "n1" clusterV2 = (Ok h, c')
                   /\ Name h = "n1")
  /\ (exists h d' hist,
        FileStore.loadConfig FS.slashOS toyCodec fsMem (KubeStore.emptyHost "n1") diskV2
        = (Ok h, d', hist) /\ Name h = "n1").
Proof.
  split_and!.
  - eexists _, _. split; vm_compute; reflexivity.
  - assert (G : is_Ok (fst (KubeStore.Load toyCodec ksMem "n1" clusterV2)) = true)
      by (vm_compute; reflexivity).
    destruct (KubeStore.Load toyCodec ksMem "n1" clusterV2) as [[h|e] c'] eqn:E;
      [|discriminate G].
    exists h, c'. split; [reflexivity|].
    exact (proj1 (Load_keeps_name FS.slashOS toyCodec ksMem fsMem "n1" clusterV2) _ _ E).
  - assert (G : is_Ok (fst (fst (FileStore.loadConfig FS.slashOS toyCodec fsMem
                                   (KubeStore.emptyHost "n1") diskV2))) = true)
      by (vm_compute; reflexivity).
    destruct (FileStore.loadConfig FS.slashOS toyCodec fsMem
                (KubeStore.emptyHost "n1") diskV2) as [[[h|e] d'] hist] eqn:E;
      [|discriminate G].
    exists h, d', hist. split; [reflexivity|].
    exact (proj2 (proj2 (proj2
             (Load_keeps_name FS.slashOS toyCodec ksMem fsMem "n1" clusterV2)))
             _ _ _ _ _ E).
Defined.

(** ** The provisioner wrapper *)

Section WrapperProps.
  Context {W SO AO EO : Type}.
  Variable env : Detector.Env W.
  Variable p : Detector.KubeletProvisionerWrapper W SO AO EO.

(** [scp] never reads its [path] argument. *)
Lemma scp_path_ignored (data : list byte) (path path' chmod : string) (w : W) :
  Detector.scp env p data path chmod w = Detector.scp env p data path' chmod w.
Proof. reflexivity. Qed.

(** A failure of the remote command reaches the caller of [scp] inside a
    new error that quotes it together with the command's output. *)
Lemma scp_wraps_ssh_error (data : list byte) (path chmod cmd out : string)
    (err : error) (w w' : W) :
  Detector.Execute env (Template.New Detector.scpTemplate)
    (Detector.scp_ctx data path chmod) = Ok cmd ->
  Detector.SSHCommand (Detector.Provisioner p) cmd w = ((out, Some err), w') ->
  Detector.scp env p data path chmod w
  = (Some (Errorf ("Failed to run SSH command (error: " +:+ Error err
                   +:+ "): " +:+ out)), w').
Proof. intros He Hs. unfold Detector.scp. by rewrite He, Hs. Qed.

End WrapperProps.

(** With [text/template] as Go has it, the template is never parsed and
    [scp] fails before any command is sent. *)
Lemma scp_go_fails {SO AO EO : Type} (s : Detector.Script)
    (p : Detector.KubeletProvisionerWrapper (list Detector.Event) SO AO EO)
    (data : list byte) (path chmod : string) (w : list Detector.Event) :
  Detector.scp (Detector.goEnv s) p data path chmod w
  = (Some (ExecError Detector.scpTemplate
             (Template.quote Detector.scpTemplate
              +:+ " is an incomplete or empty template")), w).
Proof. reflexivity. Qed.

(** So, with [text/template] as Go has it, [Provision] never returns nil:
    when the wrapped provisioner and the read of the kubeconfig succeed, the
    first copy fails. *)
Lemma Provision_go_never_succeeds {W SO AO EO : Type} (env : Detector.Env W)
    (p : Detector.KubeletProvisionerWrapper W SO AO EO)
    (so : SO) (ao : AO) (eo : EO) (w : W) :
  Detector.Execute env = Template.Execute ->
  exists err, fst (Detector.Provision env p so ao eo w) = Some err.
Proof.
  intros HE. unfold Detector.Provision.
  destruct (Detector.inner_Provision _ so ao eo w) as [[e|] w1]; [by exists e|].
  destruct (Detector.ReadFile env _ w1) as [data|e]; [|by exists e].
  unfold Detector.scp at 1. rewrite HE. simpl. by eexists.
Qed.

Lemma append_assoc (a b c : string) : (a +:+ b) +:+ c = a +:+ (b +:+ c).
Proof.
  induction a as [|x a IH]; [reflexivity|].
  change (String x ((a +:+ b) +:+ c) = String x (a +:+ (b +:+ c))).
  by rewrite IH.
Qed.

Lemma append_nil_r (a : string) : a +:+ "" = a.
Proof.
  induction a as [|x a IH]; [reflexivity|].
  change (String x (a +:+ "") = String x a). by rewrite IH.
Qed.

(** Had the template been parsed, it would expand to the described command
    for the path in the context. *)
Lemma ExecuteParsed_scpTemplate (ctx : Template.Ctx) :
  Detector.ExecuteParsed (Template.New Detector.scpTemplate) ctx
  = Ok ("touch " +:+ Template.Path ctx +:+ " && chmod " +:+ Template.Chmod ctx
        +:+ " " +:+ Template.Path ctx +:+ " && echo " +:+ dq
        +:+ Template.Data64 ctx +:+ dq +:+ " | base64 -d >> " +:+ Template.Path ctx).
Proof.
  unfold Detector.ExecuteParsed, Template.Parse.
  replace (Template.parse false "" (Template.Name (Template.New Detector.scpTemplate)))
    with (Some [Template.TextNode "touch "; Template.FieldNode "Path";
                Template.TextNode " && chmod "; Template.FieldNode "Chmod";
                Template.TextNode " "; Template.FieldNode "Path";
                Template.TextNode (" && echo " +:+ dq); Template.FieldNode "Data64";
                Template.TextNode (dq +:+ " | base64 -d >> ");
                Template.FieldNode "Path"])
    by (vm_compute; reflexivity).
  unfold Template.Execute. cbn. f_equal.
  by rewrite !append_assoc, append_nil_r.
Qed.

(** C2, on the kubelet unit file.  The described command writes to
    [/etc/systemd/system/kubelet.service].  As Go runs [scp], the template
    was never parsed, [Execute] fails and no command is sent.  With the
    template parsed, the command sent is the described one for
    [/etc/kubeconfig], which is not the described one for the unit's path. *)
Theorem scp_kubelet_unit_command :
  let data := list_byte_of_string Detector.kubeletUnitFile in
  Detector.scp (Detector.goEnv scriptOk) (Detector.scriptedWrapper scriptOk)
    data Detector.kubeletUnitPath "0600" []
  = (Some (ExecError Detector.scpTemplate
             (Template.quote Detector.scpTemplate
              +:+ " is an incomplete or empty template")), [])
  /\ Detector.scp (Detector.parsedEnv scriptOk) (Detector.scriptedWrapper scriptOk)
       data Detector.kubeletUnitPath "0600" []
     = (None, [Detector.EvSSH
                 (Detector.described_command data Detector.nodeKubeconfigPath "0600")])
  /\ Detector.described_command data Detector.nodeKubeconfigPath "0600"
     <> Detector.described_command data Detector.kubeletUnitPath "0600".
Proof.
  split_and!.
  - vm_compute. reflexivity.
  - vm_compute. reflexivity.
  - apply String.eqb_neq. vm_compute. reflexivity.
Qed.

(** With a template engine that parses the text first, [scp] sends the
    described command for [/etc/kubeconfig] and, when the node refuses it,
    returns a new error that quotes the node's error and the output. *)
Lemma scp_parsed (s : Detector.Script) (data : list byte) (path chmod : string)
    (w : list Detector.Event) :
  Detector.scp (Detector.parsedEnv s) (Detector.scriptedWrapper s) data path chmod w
  = (match Detector.sshFails s
             (Detector.described_command data Detector.nodeKubeconfigPath chmod) with
     | Some err =>
         Some (Errorf ("Failed to run SSH command (error: " +:+ Error err +:+ "): "))
     | None => None
     end,
     (w ++ [Detector.EvSSH
              (Detector.described_command data Detector.nodeKubeconfigPath chmod)])%list).
Proof.
  unfold Detector.scp. cbn [Detector.Execute Detector.parsedEnv].
  rewrite ExecuteParsed_scpTemplate. cbn.
  fold (Detector.described_command data Detector.nodeKubeconfigPath chmod).
  destruct (Detector.sshFails s _); [|done].
  by rewrite ?append_assoc, append_nil_r.
Qed.

(** C3.  The order of the steps and the abort are as described, the copies
    are not.  As Go runs it, [Provision] runs the wrapped provisioner first
    and returns its error as it is, with nothing else done; it then reads
    the kubeconfig and returns the error of the read as it is; and when both
    have succeeded it logs the first copy and fails in [scp], on the
    template that was never parsed: whatever the node would answer, no
    command is ever sent, neither file is copied, and [Provision] never
    returns nil.  And were the template parsed, a command the node refuses
    would not surface as it is either: the code at the end of [scp] puts it
    into a new error. *)
Theorem Provision_never_copies (s : Detector.Script) (w : list Detector.Event) :
  Detector.Provision (Detector.goEnv s) (Detector.scriptedWrapper s) tt tt tt w
  = match Detector.provisionFails s with
    | Some err => (Some err, (w ++ [Detector.EvProvision])%list)
    | None =>
        match Detector.kubeconfig s with
        | Err err => (Some err, (w ++ [Detector.EvProvision])%list)
        | Ok _ =>
            (Some (ExecError Detector.scpTemplate
                     (Template.quote Detector.scpTemplate
                      +:+ " is an incomplete or empty template")),
             (w ++ [Detector.EvProvision; logKubeconfig])%list)
        end
    end
  /\ (forall cmd,
        Detector.EvSSH cmd
          ∈ snd (Detector.Provision (Detector.goEnv s) (Detector.scriptedWrapper s)
                   tt tt tt w) ->
        Detector.EvSSH cmd ∈ w)
  /\ fst (Detector.Provision (Detector.goEnv s) (Detector.scriptedWrapper s) tt tt tt w)
     <> None
  /\ (forall err,
        Detector.provisionFails s = None ->
        Detector.sshFails s
          (Detector.described_command (list_byte_of_string Detector.kubeletUnitFile)
             Detector.nodeKubeconfigPath "0600") = Some err ->
        (forall data, Detector.kubeconfig s = Ok data ->
           Detector.sshFails s
             (Detector.described_command data Detector.nodeKubeconfigPath "0600") = None) ->
        forall data, Detector.kubeconfig s = Ok data ->
        fst (Detector.Provision (Detector.parsedEnv s) (Detector.scriptedWrapper s)
               tt tt tt w)
        = Some (Errorf ("Failed to run SSH command (error: " +:+ Error err +:+ "): "))).
Proof.
  assert (E : Detector.Provision (Detector.goEnv s) (Detector.scriptedWrapper s) tt tt tt w
              = match Detector.provisionFails s with
                | Some err => (Some err, (w ++ [Detector.EvProvision])%list)
                | None =>
                    match Detector.kubeconfig s with
                    | Err err => (Some err, (w ++ [Detector.EvProvision])%list)
                    | Ok _ =>
                        (Some (ExecError Detector.scpTemplate
                                 (Template.quote Detector.scpTemplate
                                  +:+ " is an incomplete or empty template")),
                         (w ++ [Detector.EvProvision; logKubeconfig])%list)
                    end
                end).
  { unfold Detector.Provision. cbn [Detector.inner_Provision Detector.Provisioner
      Detector.scriptedWrapper Detector.scriptedProvisioner Detector.ReadFile
      Detector.goEnv Detector.KubeconfigPath Detector.Infof].
    destruct (Detector.provisionFails s); [done|].
    destruct (Detector.kubeconfig s) as [data|e]; [|done].
    rewrite scp_go_fails. by rewrite <- app_assoc. }
  split_and!.
  - exact E.
  - intros cmd. rewrite E.
    destruct (Detector.provisionFails s); [|destruct (Detector.kubeconfig s)]; simpl;
      rewrite !elem_of_app, ?elem_of_cons, ?elem_of_nil; unfold logKubeconfig;
      intros [?|H]; try done; destruct H as [H|H]; try done; destruct H as [H|H]; done.
  - rewrite E. destruct (Detector.provisionFails s); [done|].
    by destruct (Detector.kubeconfig s).
  - intros err Hp Hssh Hfirst data Hk.
    unfold Detector.Provision. cbn [Detector.inner_Provision Detector.Provisioner
      Detector.scriptedWrapper Detector.scriptedProvisioner Detector.ReadFile
      Detector.parsedEnv Detector.KubeconfigPath Detector.Infof].
    rewrite Hp, Hk.
    pose proof (scp_parsed s) as SP. unfold Detector.scriptedWrapper in SP.
    rewrite SP, (Hfirst data Hk). rewrite SP, Hssh. reflexivity.
Qed.

Lemma Provision_never_copies_witness :
  Detector.Provision (Detector.goEnv scriptInnerFails)
    (Detector.scriptedWrapper scriptInnerFails) tt tt tt []
  = (Some (ForeignError "provisioning failed"), [Detector.EvProvision])
  /\ Detector.Provision (Detector.goEnv scriptReadFails)
       (Detector.scriptedWrapper scriptReadFails) tt tt tt []
     = (Some (PathError "open" "/home/me/.kube/config" ENOENT), [Detector.EvProvision])
  /\ Detector.Provision (Detector.goEnv scriptOk)
       (Detector.scriptedWrapper scriptOk) tt tt tt []
     = (Some (ExecError Detector.scpTemplate
                (Template.quote Detector.scpTemplate
                 +:+ " is an incomplete or empty template")),
        [Detector.EvProvision; logKubeconfig])
  /\ fst (Detector.Provision (Detector.parsedEnv scriptSecondCopyFails)
            (Detector.scriptedWrapper scriptSecondCopyFails) tt tt tt [])
     = Some (Errorf "Failed to run SSH command (error: exit status 1): ").
Proof.
  split_and!.
  - exact (proj1 (Provision_never_copies scriptInnerFails [])).
  - exact (proj1 (Provision_never_copies scriptReadFails [])).
  - exact (proj1 (Provision_never_copies scriptOk [])).
  - apply (proj2 (proj2 (proj2 (Provision_never_copies scriptSecondCopyFails [])))
             (ForeignError "exit status 1") eq_refl)
      with (data := list_byte_of_string "apiVersion: v1").
    + vm_compute. reflexivity.
    + intros data [= <-]. vm_compute. reflexivity.
    + reflexivity.
Defined.

(** ** The file system calls and [saveToFile] *)

Lemma write_steps_elem (p : string) (data : list byte) (d s : FS.fs) :
  s ∈ FS.write_steps p data d ->
  exists k, k <= length data /\ s = <[p := FS.File (take k data)]> d.
Proof.
  unfold FS.write_steps. rewrite list_elem_of_In, in_map_iff.
  intros (k & <- & Hk). apply in_seq in Hk. exists k. split; [lia|done].
Qed.

Lemma Forall_write_steps (R : FS.fs -> Prop) (p : string) (data : list byte) (d : FS.fs) :
  (forall x, R (<[p := FS.File x]> d)) -> Forall R (FS.write_steps p data d).
Proof.
  intros H. apply Forall_forall. intros s (k & _ & ->)%write_steps_elem. apply H.
Qed.

Section FSLemmas.
Variable os : FS.OS.

Lemma Stat_lookup (p : string) (x : FS.inode) (s : FS.fs) :
  s !! p = Some x -> FS.Stat os p s = Some x.
Proof. intros H. unfold FS.Stat. by rewrite H. Qed.

Lemma Stat_None (p : string) (s : FS.fs) :
  FS.Stat os p s = None -> s !! p = None /\ FS.Dir os p <> p.
Proof.
  unfold FS.Stat. destruct (s !! p); [done|].
  destruct (String.eqb_spec (FS.Dir os p) p); [done|]. by intros _.
Qed.

Lemma Stat_File (p : string) (x : list byte) (s : FS.fs) :
  FS.Stat os p s = Some (FS.File x) -> s !! p = Some (FS.File x).
Proof.
  unfold FS.Stat. destruct (s !! p); [done|]. by destruct (String.eqb _ _).
Qed.

Lemma Stat_insert_ne (p q : string) (x : FS.inode) (s : FS.fs) :
  p <> q -> FS.Stat os p (<[q := x]> s) = FS.Stat os p s.
Proof. intros H. unfold FS.Stat. by rewrite lookup_insert_ne. Qed.

Lemma Stat_insert_eq (p : string) (x : FS.inode) (s : FS.fs) :
  FS.Stat os p (<[p := x]> s) = Some x.
Proof. unfold FS.Stat. by rewrite lookup_insert_eq. Qed.

Lemma Stat_delete_ne (p q : string) (s : FS.fs) :
  p <> q -> FS.Stat os p (delete q s) = FS.Stat os p s.
Proof. intros H. unfold FS.Stat. by rewrite lookup_delete_ne. Qed.

Lemma Stat_delete_None (p : string) (s : FS.fs) :
  FS.Dir os p <> p -> FS.Stat os p (delete p s) = None.
Proof.
  intros H. unfold FS.Stat. rewrite lookup_delete_eq.
  by destruct (String.eqb_spec (FS.Dir os p) p).
Qed.

Lemma missing_rec_dir (n : nat) (p : string) (s : FS.fs) :
  FS.Stat os (FS.Dir os p) s = Some FS.Directory -> FS.missing_rec os n p s = ENOENT.
Proof. intros H. destruct n; simpl; by rewrite H. Qed.

Lemma IsNotExist_dir (p : string) (s : FS.fs) :
  FS.Stat os p s = None -> FS.Stat os (FS.Dir os p) s = Some FS.Directory ->
  FS.IsNotExist os p s = true.
Proof.
  intros H1 H2. unfold FS.IsNotExist, FS.missing. by rewrite H1, missing_rec_dir.
Qed.

Lemma IsNotExist_true (p : string) (s : FS.fs) :
  FS.IsNotExist os p s = true -> FS.Stat os p s = None.
Proof. unfold FS.IsNotExist. by destruct (FS.Stat os p s). Qed.

Lemma IsNotExist_false (p : string) (s : FS.fs) :
  FS.IsNotExist os p s = false ->
  is_Some (FS.Stat os p s) \/ FS.Stat os (FS.Dir os p) s <> Some FS.Directory.
Proof.
  intros H. destruct (FS.Stat os p s) as [x|] eqn:Hp; [by left; eexists|].
  right. intros Hd. by rewrite (IsNotExist_dir p s Hp Hd) in H.
Qed.

(** What a call can have done, whatever made it fail. *)
Lemma write_inv (p : string) (data : list byte) (d d' : FS.fs) (r : option error)
    (h : list FS.fs) :
  FS.write os p data d = (r, d', h) ->
  (r <> None /\ d' = d /\ h = [])
  \/ (exists x, d' = <[p := FS.File x]> d /\ h = FS.write_steps p x d
        /\ (r = None -> x = data)).
Proof.
  unfold FS.write. intros H. repeat case_match; simplify_eq.
  - by left.
  - right. by eexists.
  - right. by eexists.
Qed.

Lemma WriteFile_any (p : string) (data : list byte) (d d' : FS.fs) (r : option error)
    (h : list FS.fs) :
  FS.WriteFile os p data d = (r, d', h) ->
  (r <> None /\ d' = d /\ h = [])
  \/ (exists x, d' = <[p := FS.File x]> d /\ h = FS.write_steps p x d
        /\ (r = None -> x = data)).
Proof.
  unfold FS.WriteFile. intros H.
  repeat case_match; simplify_eq; first [by left | by apply write_inv].
Qed.

Lemma WriteFile_inv (p : string) (data : list byte) (d d' : FS.fs) (h : list FS.fs) :
  FS.WriteFile os p data d = (None, d', h) ->
  d' = <[p := FS.File data]> d /\ h = FS.write_steps p data d.
Proof.
  intros [(H & _)|(x & -> & -> & Hx)]%WriteFile_any; [done|]. by rewrite (Hx eq_refl).
Qed.

Lemma Close_inv (p : string) (d d' : FS.fs) (r : option error) (h : list FS.fs) :
  FS.Close os p d = (r, d', h) -> d' = d /\ h = [].
Proof. unfold FS.Close. intros H. by repeat case_match; simplify_eq. Qed.

Lemma Remove_inv (p : string) (d d' : FS.fs) (r : option error) (h : list FS.fs) :
  FS.Remove os p d = (r, d', h) ->
  (r = None /\ d' = delete p d /\ h = [delete p d] /\ is_Some (d !! p))
  \/ (r <> None /\ d' = d /\ h = []
      /\ (FS.Dir os p = p \/ d !! p = None \/ d !! p = Some FS.Directory
          \/ (FS.FailCall os (FS.CallRemove p) d <> None
              /\ exists x, d !! p = Some (FS.File x)))).
Proof.
  unfold FS.Remove, FS.unlink. intros H.
  destruct (String.eqb_spec (FS.Dir os p) p) as [Hroot|Hroot].
  { injection H as <- <- <-. right. split_and!; [done|done|done|by left]. }
  repeat case_match; simplify_eq;
    first [ left; split_and!; by eauto
          | right; split_and!; try done; right; by eauto
          | right; split_and!; try done; right; right; right; split;
            [congruence|by eauto] ].
Qed.

Lemma Rename_inv (a b : string) (d d' : FS.fs) (r : option error) (h : list FS.fs) :
  FS.Rename os a b d = (r, d', h) ->
  (r <> None /\ d' = d /\ h = [])
  \/ (r = None /\ exists x, d !! a = Some (FS.File x)
        /\ d' = <[b := FS.File x]> (delete a d) /\ h = [d']).
Proof.
  unfold FS.Rename, FS.move. intros H.
  repeat case_match; simplify_eq;
    first [by left | right; split; [done|]; eexists; split; [by apply Stat_File|done]].
Qed.

Lemma TempFile_inv (dir prefix : string) (d d' : FS.fs) (r : result string)
    (h : list FS.fs) :
  FS.TempFile os dir prefix d = (r, d', h) ->
  (is_Ok r = false /\ d' = d /\ h = [])
  \/ (r = Ok (FS.TempName os d dir prefix)
      /\ FS.Stat os dir d = Some FS.Directory
      /\ FS.Stat os (FS.TempName os d dir prefix) d = None
      /\ d' = <[FS.TempName os d dir prefix := FS.File []]> d /\ h = [d']).
Proof.
  unfold FS.TempFile. intros H.
  repeat case_match; simplify_eq; first [by left | by right].
Qed.

(** The calls on a system where nothing fails unless the state makes it. *)
Lemma WriteFile_over (p : string) (data x : list byte) (d : FS.fs) :
  reliable os -> FS.Stat os p d = Some (FS.File x) ->
  FS.WriteFile os p data d = (None, <[p := FS.File data]> d, FS.write_steps p data d).
Proof.
  intros [R1 R2] H. unfold FS.WriteFile, FS.write. by rewrite H, R1, R2.
Qed.

Lemma WriteFile_new (p : string) (data : list byte) (d : FS.fs) :
  reliable os -> FS.Stat os p d = None -> FS.Stat os (FS.Dir os p) d = Some FS.Directory ->
  FS.WriteFile os p data d = (None, <[p := FS.File data]> d, FS.write_steps p data d).
Proof.
  intros [R1 R2] H1 H2. unfold FS.WriteFile, FS.write. by rewrite H1, H2, R1, R2.
Qed.

Lemma Remove_file (p : string) (x : list byte) (d : FS.fs) :
  reliable os -> FS.Dir os p <> p -> d !! p = Some (FS.File x) ->
  FS.Remove os p d = (None, delete p d, [delete p d]).
Proof.
  intros [R1 _] Hroot H. unfold FS.Remove, FS.unlink.
  destruct (String.eqb_spec (FS.Dir os p) p); [done|]. by rewrite H, R1.
Qed.

Lemma Remove_absent (p : string) (d : FS.fs) :
  FS.Stat os p d = None ->
  FS.Remove os p d = (Some (PathError "remove" p (FS.missing os p d)), d, []).
Proof.
  intros [H1 H2]%Stat_None. unfold FS.Remove.
  destruct (String.eqb_spec (FS.Dir os p) p); [done|]. by rewrite H1.
Qed.

Lemma Rename_file (a b : string) (x : list byte) (d : FS.fs) :
  reliable os ->
  FS.Stat os a d = Some (FS.File x) -> FS.Stat os b d = None ->
  FS.Stat os (FS.Dir os b) d = Some FS.Directory ->
  FS.Rename os a b d
  = (None, <[b := FS.File x]> (delete a d), [<[b := FS.File x]> (delete a d)]).
Proof.
  intros [R1 _] H1 H2 H3. unfold FS.Rename, FS.move. by rewrite H1, H2, H3, R1.
Qed.

Lemma TempFile_fresh (dir prefix : string) (d : FS.fs) :
  reliable os ->
  FS.Stat os dir d = Some FS.Directory ->
  FS.Stat os (FS.TempName os d dir prefix) d = None ->
  FS.TempFile os dir prefix d
  = (Ok (FS.TempName os d dir prefix),
     <[FS.TempName os d dir prefix := FS.File []]> d,
     [<[FS.TempName os d dir prefix := FS.File []]> d]).
Proof. intros [R1 _] H1 H2. unfold FS.TempFile. by rewrite H1, H2, R1. Qed.

(** The run of [saveToFile] over a regular file when nothing fails. *)
Lemma saveToFile_existing (data old : list byte) (file : string) (d : FS.fs) :
  reliable os ->
  d !! file = Some (FS.File old) ->
  FS.Stat os (FS.Dir os file) d = Some FS.Directory ->
  FS.Stat os (FS.TempName os d (FS.Dir os file) "config.json.tmp") d = None ->
  FileStore.saveToFile os data file d
  = (None, <[file := FS.File data]> d,
     overwrite_steps data file (FS.TempName os d (FS.Dir os file) "config.json.tmp") d).
Proof.
  intros R Hf Hd Ht. set (tmp := FS.TempName os d (FS.Dir os file) "config.json.tmp") in *.
  destruct (Stat_None _ _ Ht) as [Ht' Htr].
  assert (Hne : tmp <> file) by congruence.
  assert (Hfd : FS.Dir os file <> file).
  { intros E. rewrite E in Hd. rewrite (Stat_lookup _ _ _ Hf) in Hd. discriminate. }
  unfold FileStore.saveToFile, FS.IsNotExist. rewrite (Stat_lookup _ _ _ Hf).
  rewrite TempFile_fresh by done. fold tmp.
  unfold FS.andThen.
  rewrite (WriteFile_over tmp data []) by (done || apply Stat_insert_eq).
  unfold FS.Close. rewrite (proj1 R).
  rewrite (Remove_file file old) by (done || by rewrite !lookup_insert_ne).
  rewrite (Rename_file tmp file data); [|done| | |].
  2: { rewrite Stat_delete_ne by done. apply Stat_insert_eq. }
  2: { by apply Stat_delete_None. }
  2: { rewrite Stat_delete_ne by done.
       destruct (decide (FS.Dir os file = tmp)) as [E|E].
       - rewrite E in Hd. congruence.
       - by rewrite !Stat_insert_ne. }
  rewrite Remove_absent.
  2: { rewrite Stat_insert_ne by done. by apply Stat_delete_None. }
  unfold overwrite_steps. simpl. f_equal; [f_equal|].
  - apply map_eq. intros q. destruct (decide (q = file)) as [->|].
    + by rewrite !lookup_insert_eq.
    + rewrite !(lookup_insert_ne _ file) by done.
      destruct (decide (q = tmp)) as [->|].
      * by rewrite lookup_delete_eq.
      * rewrite !lookup_delete_ne, !lookup_insert_ne by done. done.
  - by rewrite app_nil_r.
Qed.

Lemma saveToFile_fresh (data : list byte) (file : string) (d : FS.fs) :
  FS.Stat os file d = None -> FS.Stat os (FS.Dir os file) d = Some FS.Directory ->
  FileStore.saveToFile os data file d = FS.WriteFile os file data d.
Proof.
  intros H1 H2. unfold FileStore.saveToFile. by rewrite (IsNotExist_dir file d H1 H2).
Qed.

(** Every run of [saveToFile], whatever fails on the way.  Paths other than
    the destination and the temporary file are never touched; the temporary
    file is gone at the end unless its removal failed; the destination holds
    what it held, nothing, or the new bytes (or, when it did not exist and
    is written directly, a part of them); and a run that returns nil leaves
    the new bytes in the destination and everything else as it was. *)
Lemma saveToFile_run (data : list byte) (file : string) (d d' : FS.fs)
    (r : option error) (h : list FS.fs) :
  FileStore.saveToFile os data file d = (r, d', h) ->
  let tmp := FS.TempName os d (FS.Dir os file) "config.json.tmp" in
  let R := fun s : FS.fs =>
    (forall p, p <> file -> p <> tmp -> s !! p = d !! p)
    /\ (s !! file = d !! file \/ s !! file = None \/ s !! file = Some (FS.File data)
        \/ (d !! file = None /\ exists x, s !! file = Some (FS.File x))) in
  R d' /\ Forall R h
  /\ (forall p, p <> file ->
        d' !! p = d !! p
        \/ (d !! p = None /\ removalFails os p /\ exists x, d' !! p = Some (FS.File x)))
  /\ (r = None -> d' = <[file := FS.File data]> d).
Proof.
  intros Hrun tmp R. unfold FileStore.saveToFile in Hrun.
  assert (R0 : R d) by (split; [done|by left]).
  destruct (FS.IsNotExist os file d) eqn:HI.
  1: { destruct (Stat_None _ _ (IsNotExist_true _ _ HI)) as [Hf _].
       apply WriteFile_any in Hrun as [(Hr & -> & ->)|(x & -> & -> & Hx)].
       { split_and!; [done|constructor|by left|done]. }
       assert (RW : forall y, R (<[file := FS.File y]> d)).
       { intros y. split.
         - intros p Hp _. by rewrite lookup_insert_ne.
         - right. right. right. split; [done|]. exists y. apply lookup_insert_eq. }
       split_and!; [apply RW|by apply Forall_write_steps| |].
       - intros p Hp. left. by rewrite lookup_insert_ne.
       - intros Hr. by rewrite (Hx Hr). }
  destruct (FS.TempFile os (FS.Dir os file) "config.json.tmp" d) as [[rt d1] h1] eqn:HT.
  apply TempFile_inv in HT as [(Hrt & -> & ->)|(-> & Hd & Ht & -> & ->)].
  { destruct rt as [?|e]; [done|]. injection Hrun as <- <- <-.
    split_and!; [done|constructor|by left|done]. }
  fold tmp in Ht, Hrun |- *.
  apply IsNotExist_false in HI as [[x0 Hs]|HI]; [|done].
  assert (Hne : tmp <> file) by congruence.
  destruct (Stat_None _ _ Ht) as [Ht' Htroot].
  set (d1 := <[tmp := FS.File []]> d) in *.
  assert (R1 : R d1).
  { unfold d1. split; [intros p Hp Hpt; by rewrite lookup_insert_ne|].
    left. by rewrite lookup_insert_ne. }
  unfold FS.andThen in Hrun.
  (* the deferred removal, from any state *)
  assert (Fin : forall r2 d2 h2,
            R d2 -> Forall R h2 -> d2 !! tmp <> Some FS.Directory ->
            (r2 = None -> d2 = <[file := FS.File data]> d) ->
            (let '(_, d3, h3) := FS.Remove os tmp d2 in (r2, d3, ([d1] ++ h2 ++ h3)%list))
            = (r, d', h) ->
            R d' /\ Forall R h
            /\ (forall p, p <> file ->
                  d' !! p = d !! p
                  \/ (d !! p = None /\ removalFails os p
                      /\ exists x, d' !! p = Some (FS.File x)))
            /\ (r = None -> d' = <[file := FS.File data]> d)).
  { intros r2 d2 h2 [A2 B2] F2 T2 S2.
    destruct (FS.Remove os tmp d2) as [[r3 d3] h3] eqn:HR. intros [= <- <- <-].
    apply Remove_inv in HR as [(_ & -> & -> & _)|(_ & -> & -> & Hwhy)].
    - assert (R3 : R (delete tmp d2)).
      { split; [intros p Hp Hpt; rewrite lookup_delete_ne by done; by apply A2|].
        by rewrite lookup_delete_ne. }
      split_and!; [done| | |].
      + apply Forall_cons; split; [done|]. apply Forall_app; split; [done|].
        by apply Forall_singleton.
      + intros p Hp. left. destruct (decide (p = tmp)) as [->|Hpt].
        * by rewrite lookup_delete_eq, Ht'.
        * rewrite lookup_delete_ne by done. by apply A2.
      + intros Hr. rewrite (S2 Hr). apply delete_id.
        by rewrite lookup_insert_ne.
    - split_and!; [done| | |done].
      + apply Forall_cons; split; [done|]. apply Forall_app; split; [done|constructor].
      + intros p Hp. destruct (decide (p = tmp)) as [->|Hpt]; [|left; by apply A2].
        destruct Hwhy as [Hroot|[Hn|[Hdir|Hfail]]].
        * done.
        * left. by rewrite Hn.
        * done.
        * destruct Hfail as [Hfail Hx]. right. split_and!; [done|by exists d2|done]. }
  destruct (FS.WriteFile os tmp data d1) as [[rw dw] hw] eqn:HW.
  apply WriteFile_any in HW as [(Hrw & -> & ->)|(x & -> & -> & Hx)].
  { destruct rw as [e|]; [|done].
    apply (Fin (Some e) d1 []); [done|constructor| |done|exact Hrun].
    unfold d1. by rewrite lookup_insert_eq. }
  set (dw := <[tmp := FS.File x]> d1) in *.
  assert (RX : forall y, R (<[tmp := FS.File y]> d1)).
  { intros y. unfold d1. split; [intros p Hp Hpt; by rewrite !lookup_insert_ne|].
    left. by rewrite !lookup_insert_ne. }
  assert (Rw : R dw) by apply RX.
  assert (Fw : Forall R (FS.write_steps tmp x d1)) by by apply Forall_write_steps.
  assert (Tw : dw !! tmp <> Some FS.Directory) by (unfold dw; by rewrite lookup_insert_eq).
  destruct rw as [e|].
  { apply (Fin (Some e) dw (FS.write_steps tmp x d1)); [done|done|done|done|exact Hrun]. }
  specialize (Hx eq_refl). subst x.
  destruct (FS.Close os tmp dw) as [[rc dc] hc] eqn:HC.
  apply Close_inv in HC as [-> ->].
  destruct rc as [e|].
  { apply (Fin (Some e) dw (FS.write_steps tmp data d1 ++ [])%list);
      [done|by rewrite app_nil_r|done|done|exact Hrun]. }
  destruct (FS.Remove os file dw) as [[rr dr] hr] eqn:HR.
  apply Remove_inv in HR as [(-> & -> & -> & _)|(Hrr & -> & -> & _)].
  2: { destruct rr as [e|]; [|done].
       apply (Fin (Some e) dw (FS.write_steps tmp data d1 ++ [] ++ [])%list);
         [done|by rewrite !app_nil_r|done|done|exact Hrun]. }
  set (dr := delete file dw) in *.
  assert (Rr : R dr).
  { unfold dr, dw, d1.
    split; [intros p Hp Hpt; by rewrite lookup_delete_ne, !lookup_insert_ne|].
    right. left. apply lookup_delete_eq. }
  assert (Tr : dr !! tmp <> Some FS.Directory).
  { unfold dr, dw. by rewrite lookup_delete_ne, lookup_insert_eq. }
  destruct (FS.Rename os tmp file dr) as [[rn dn] hn] eqn:HN.
  apply Rename_inv in HN as [(Hrn & -> & ->)|(-> & y & Hy & -> & ->)].
  { destruct rn as [e|]; [|done].
    apply (Fin (Some e) dr (FS.write_steps tmp data d1 ++ [] ++ [dr] ++ [])%list);
      [done| |done|done|exact Hrun].
    rewrite !app_nil_r. apply Forall_app; split; [done|by apply Forall_singleton]. }
  assert (y = data) as ->.
  { unfold dr, dw in Hy. rewrite lookup_delete_ne, lookup_insert_eq in Hy by done.
    congruence. }
  set (dn := <[file := FS.File data]> (delete tmp dr)) in *.
  assert (Rn : R dn).
  { split.
    - intros p Hp Hpt. unfold dn, dr, dw, d1.
      by rewrite lookup_insert_ne, !lookup_delete_ne, !lookup_insert_ne.
    - right. right. left. apply lookup_insert_eq. }
  apply (Fin None dn (FS.write_steps tmp data d1 ++ [] ++ [dr] ++ [dn])%list);
    [done| | | |exact Hrun].
  - apply Forall_app; split; [done|]. simpl.
    apply Forall_cons; split; [done|]. by apply Forall_singleton.
  - unfold dn. by rewrite lookup_insert_ne, lookup_delete_eq.
  - intros _. unfold dn, dr, dw, d1. apply map_eq. intros q.
    destruct (decide (q = file)) as [->|Hq]; [by rewrite !lookup_insert_eq|].
    rewrite !(lookup_insert_ne _ file) by done.
    destruct (decide (q = tmp)) as [->|Hqt]; [by rewrite lookup_delete_eq|].
    by rewrite !lookup_delete_ne, !lookup_insert_ne.
Qed.

Lemma saveToFile_ok (data : list byte) (file : string) (d d' : FS.fs) (h : list FS.fs) :
  FileStore.saveToFile os data file d = (None, d', h) ->
  d' !! file = Some (FS.File data)
  /\ forall p, p <> file -> d' !! p = d !! p.
Proof.
  intros H. destruct (saveToFile_run data file d d' None h H) as (_ & _ & _ & E).
  rewrite (E eq_refl). split; [apply lookup_insert_eq|].
  intros p Hp. by rewrite lookup_insert_ne.
Qed.

End FSLemmas.

(** C4, as the code has it.  Over a destination that is a regular file,
    whatever call fails and wherever the run stops, the destination holds
    its previous content, or is absent, or holds the new content, in every
    state on the way and at the end; a run that returns nil leaves the new
    content in the destination and nothing else changed.  When nothing
    fails, the run is: the temporary file made in the destination's
    directory, the data written to it, the destination removed, the
    temporary file renamed to it.  A destination that does not exist, in a
    directory that does, is written directly, byte after byte. *)
Theorem saveToFile_crash_states (os : FS.OS) (data old : list byte) (file : string)
    (d d' : FS.fs) (r : option error) (h : list FS.fs) :
  d !! file = Some (FS.File old) ->
  FileStore.saveToFile os data file d = (r, d', h) ->
  (forall s, s ∈ h \/ s = d' ->
     s !! file = Some (FS.File old) \/ s !! file = None
     \/ s !! file = Some (FS.File data))
  /\ (r = None -> d' = <[file := FS.File data]> d)
  /\ (reliable os ->
      FS.Stat os (FS.Dir os file) d = Some FS.Directory ->
      FS.Stat os (FS.TempName os d (FS.Dir os file) "config.json.tmp") d = None ->
      r = None
      /\ h = overwrite_steps data file
               (FS.TempName os d (FS.Dir os file) "config.json.tmp") d)
  /\ (forall d0,
        FS.Stat os file d0 = None -> FS.Stat os (FS.Dir os file) d0 = Some FS.Directory ->
        FileStore.saveToFile os data file d0 = FS.WriteFile os file data d0
        /\ (reliable os ->
            FileStore.saveToFile os data file d0
            = (None, <[file := FS.File data]> d0, FS.write_steps file data d0))).
Proof.
  intros Hf Hrun.
  destruct (saveToFile_run os data file d d' r h Hrun) as ([_ B] & F & _ & E).
  rewrite Forall_forall in F. split_and!.
  - intros s [Hs| ->].
    + destruct (proj2 (F s Hs)) as [H|[H|[H|[H _]]]];
        [left; congruence|by right; left|by right; right|congruence].
    + destruct B as [H|[H|[H|[H _]]]];
        [left; congruence|by right; left|by right; right|congruence].
  - exact E.
  - intros R Hd Ht. rewrite (saveToFile_existing os data old file d R Hf Hd Ht) in Hrun.
    by injection Hrun as <- _ <-.
  - intros d0 H1 H2. split; [by apply saveToFile_fresh|].
    intros R. rewrite saveToFile_fresh by done. by apply WriteFile_new.
Qed.

(** C4, refuted as stated.  A first save goes through a state where the
    destination is empty and states where it holds a part of the data; a
    save over an existing record goes through a state where the destination
    is absent; and when the rename is refused the save ends there, with the
    destination absent and the temporary file removed: neither the old nor
    the new content is left. *)
Lemma saveToFile_not_atomic :
  contents cfg
    (snd (FileStore.saveToFile FS.slashOS (list_byte_of_string "3 v") cfg diskN1))
  = [Some (FS.File []);
     Some (FS.File (list_byte_of_string "3"));
     Some (FS.File (list_byte_of_string "3 "));
     Some (FS.File (list_byte_of_string "3 v"))]
  /\ contents cfg
       (snd (FileStore.saveToFile FS.slashOS (list_byte_of_string "3 v") cfg diskOld))
     = [Some (FS.File (list_byte_of_string "2 v"));
        Some (FS.File (list_byte_of_string "2 v"));
        Some (FS.File (list_byte_of_string "2 v"));
        Some (FS.File (list_byte_of_string "2 v"));
        Some (FS.File (list_byte_of_string "2 v"));
        None;
        Some (FS.File (list_byte_of_string "3 v"))]
  /\ fst (FileStore.saveToFile FS.renameFailsOS (list_byte_of_string "3 v") cfg diskOld)
     = (Some (PathError "rename" "/b/machines/n1/config.json.tmp123456789" EACCES),
        diskN1).
Proof. split_and!; vm_compute; reflexivity. Qed.

Lemma saveToFile_crash_states_witness :
  diskOld !! cfg = Some (FS.File (list_byte_of_string "2 v"))
  /\ (forall s,
        s ∈ snd (FileStore.saveToFile FS.renameFailsOS (list_byte_of_string "3 v")
                   cfg diskOld) ->
        s !! cfg = Some (FS.File (list_byte_of_string "2 v")) \/ s !! cfg = None
        \/ s !! cfg = Some (FS.File (list_byte_of_string "3 v")))
  /\ snd (FileStore.saveToFile FS.slashOS (list_byte_of_string "3 v") cfg diskOld)
     = overwrite_steps (list_byte_of_string "3 v") cfg
         "/b/machines/n1/config.json.tmp123456789" diskOld.
Proof.
  assert (Hf : diskOld !! cfg = Some (FS.File (list_byte_of_string "2 v")))
    by (vm_compute; reflexivity).
  split_and!; [exact Hf| |].
  - destruct (FileStore.saveToFile FS.renameFailsOS (list_byte_of_string "3 v") cfg diskOld)
      as [[r d'] h] eqn:E.
    intros s Hs.
    exact (proj1 (saveToFile_crash_states FS.renameFailsOS (list_byte_of_string "3 v")
                    (list_byte_of_string "2 v") cfg diskOld d' r h Hf E) s (or_introl Hs)).
  - destruct (FileStore.saveToFile FS.slashOS (list_byte_of_string "3 v") cfg diskOld)
      as [[r d'] h] eqn:E.
    apply (proj1 (proj2 (proj2 (saveToFile_crash_states FS.slashOS
             (list_byte_of_string "3 v") (list_byte_of_string "2 v") cfg diskOld
             d' r h Hf E)))).
    + split; intros; reflexivity.
    + vm_compute. reflexivity.
    + vm_compute. reflexivity.
Defined.

(** ** Saving *)

Lemma map_index_assign (m : option (gmap string string)) (k v : string) :
  map_index (map_assign m k v) k = Some v.
Proof. destruct m; simpl; apply lookup_insert_eq. Qed.

Lemma saved_meta_marker old json :
  map_index (fst (saved_meta old json)) KubeStore.KubeMachineAnnotationKey = Some json
  /\ map_index (snd (saved_meta old json)) KubeStore.KubeMachineLabel = Some "true".
Proof.
  destruct old as [[a l]|]; simpl.
  - split; apply map_index_assign.
  - split; apply lookup_singleton_eq.
Qed.

(** [Save] on the in-memory cluster. *)
Lemma kube_Save_mem (codec : Codec) (r : Host) (data : list byte) (c : cluster) :
  MarshalIndent codec r = Ok data ->
  KubeStore.Save codec ksMem r c
  = (None, <[Name r := saved_meta (c !! Name r) (string_of_list_byte data)]> c).
Proof.
  intros Hm. unfold KubeStore.Save. rewrite Hm. simpl. unfold memGet.
  destruct (c !! Name r) as [[a l]|] eqn:Hc; simpl.
  - unfold memUpdate. simpl. by rewrite Hc.
  - unfold memCreate. simpl. by rewrite Hc.
Qed.

Lemma mkdirLast_inv (os : FS.OS) (p : string) (s s1 : FS.fs) (r : option error)
    (h1 : list FS.fs) :
  FS.mkdirLast os p s = (r, s1, h1) ->
  (s1 = s /\ h1 = [] /\ (r = None -> FS.Stat os p s = Some FS.Directory))
  \/ (r = None /\ s !! p = None /\ s1 = <[p := FS.Directory]> s /\ h1 = [s1]).
Proof.
  unfold FS.mkdirLast, FS.Mkdir. intros H.
  repeat case_match; simplify_eq;
    first [ by left
          | right; split_and!; try done;
            match goal with H : FS.Stat _ _ _ = None |- _ =>
              by apply Stat_None in H as [? _] end ].
Qed.

Lemma chain_up (os : FS.OS) (n : nat) (p q : string) :
  q ∈ chain os n (FS.Dir os p) -> q ∈ chain os (S n) p.
Proof. intros H. simpl. by apply list_elem_of_further. Qed.

Lemma chain_self (os : FS.OS) (n : nat) (p : string) : p ∈ chain os n p.
Proof. destruct n; apply list_elem_of_here. Qed.

(** Every run of [MkdirAll], whatever fails on the way: what was on the disk
    stays, and what is added is a directory at the path or at one of its
    parents; after a run that returns nil the path is a directory. *)
Lemma MkdirAll_rec_run (os : FS.OS) (n : nat) (p : string) (d d1 : FS.fs)
    (r : option error) (h1 : list FS.fs) :
  FS.MkdirAll_rec os n p d = (r, d1, h1) ->
  let G := fun s : FS.fs =>
    forall q, s !! q = d !! q
              \/ (d !! q = None /\ s !! q = Some FS.Directory /\ q ∈ chain os n p) in
  G d1 /\ Forall G h1 /\ (r = None -> FS.Stat os p d1 = Some FS.Directory).
Proof.
  revert p d d1 r h1. induction n as [|n IH]; intros p d d1 r h1 Hrun G.
  - simpl in Hrun. destruct (FS.Stat os p d) as [[x|]|] eqn:Hp.
    + injection Hrun as <- <- <-. split_and!; [by left|constructor|done].
    + injection Hrun as <- <- <-. split_and!; [by left|constructor|done].
    + apply Stat_None in Hp as [Hp _].
      apply mkdirLast_inv in Hrun as [(-> & -> & Hr)|(-> & _ & -> & ->)].
      * split_and!; [by left|constructor|done].
      * assert (G1 : G (<[p := FS.Directory]> d)).
        { intros q. destruct (decide (q = p)) as [->|Hq].
          - right. rewrite lookup_insert_eq. split_and!; [done|done|apply chain_self].
          - left. by rewrite lookup_insert_ne. }
        split_and!; [done|by apply Forall_singleton|intros _; apply Stat_insert_eq].
  - simpl in Hrun. destruct (FS.Stat os p d) as [[x|]|] eqn:Hp.
    + injection Hrun as <- <- <-. split_and!; [by left|constructor|done].
    + injection Hrun as <- <- <-. split_and!; [by left|constructor|done].
    + apply Stat_None in Hp as [Hp _].
      unfold FS.andThen in Hrun.
      destruct (FS.MkdirAll_rec os n (FS.Dir os p) d) as [[r0 d0] h0] eqn:H0.
      destruct (IH _ _ _ _ _ H0) as (A0 & F0 & _).
      assert (Up : forall s : FS.fs,
                (forall q, s !! q = d !! q
                   \/ (d !! q = None /\ s !! q = Some FS.Directory
                       /\ q ∈ chain os n (FS.Dir os p))) -> G s).
      { intros s Hs q. destruct (Hs q) as [H|(H1 & H2 & H3)]; [by left|].
        right. split_and!; [done|done|by apply chain_up]. }
      assert (F0' : Forall G h0).
      { rewrite Forall_forall in F0. apply Forall_forall. intros s Hs. apply Up, F0, Hs. }
      destruct r0 as [e|].
      { injection Hrun as <- <- <-. split_and!; [by apply Up|done|done]. }
      destruct (FS.mkdirLast os p d0) as [[r' d'] h'] eqn:HL.
      injection Hrun as <- <- <-.
      apply mkdirLast_inv in HL as [(-> & -> & Hr)|(-> & Hn & -> & ->)].
      * split_and!; [by apply Up|by rewrite app_nil_r|done].
      * assert (G1 : G (<[p := FS.Directory]> d0)).
        { intros q. destruct (decide (q = p)) as [->|Hq].
          - right. rewrite lookup_insert_eq. split_and!; [done|done|apply chain_self].
          - rewrite lookup_insert_ne by done. by apply Up. }
        split_and!; [done| |intros _; apply Stat_insert_eq].
        apply Forall_app; split; [done|by apply Forall_singleton].
Qed.

Lemma MkdirAll_inv (os : FS.OS) (p : string) (d d1 : FS.fs) (h1 : list FS.fs) :
  FS.MkdirAll os p d = (None, d1, h1) ->
  FS.Stat os p d1 = Some FS.Directory /\ forall q x, d !! q = Some x -> d1 !! q = Some x.
Proof.
  intros H. destruct (MkdirAll_rec_run os _ p d d1 None h1 H) as (G1 & _ & S).
  split; [by apply S|]. intros q x Hq. destruct (G1 q) as [E|(E & _)]; congruence.
Qed.

(** [MkdirAll] where nothing fails and a directory is found [k] levels up,
    with nothing between it and the path: the [k] directories are made. *)
Lemma MkdirAll_rec_deep (os : FS.OS) (n k : nat) (p : string) (d : FS.fs) :
  reliable os -> k <= n ->
  FS.Stat os (up os k p) d = Some FS.Directory ->
  (forall j, j < k -> FS.Stat os (up os j p) d = None) ->
  exists d1 h1,
    FS.MkdirAll_rec os n p d = (None, d1, h1)
    /\ FS.Stat os p d1 = Some FS.Directory
    /\ (forall j, j < k -> d1 !! up os j p = Some FS.Directory)
    /\ (forall q, (forall j, j < k -> q <> up os j p) -> d1 !! q = d !! q).
Proof.
  intros R. revert k p d. induction n as [|n IH]; intros k p d Hk Htop Hbelow.
  - assert (k = 0) as -> by lia. simpl in Htop. simpl. rewrite Htop.
    exists d, []. split_and!; [done|done|intros j Hj; lia|done].
  - destruct k as [|k].
    { simpl in Htop. simpl. rewrite Htop.
      exists d, []. split_and!; [done|done|intros j Hj; lia|done]. }
    pose proof (Hbelow 0 ltac:(lia)) as Hp. simpl in Hp.
    destruct (Stat_None _ _ _ Hp) as [Hp' Hroot].
    destruct (IH k (FS.Dir os p) d) as (d1 & h1 & E & S1 & D1 & F1);
      [lia|exact Htop|intros j Hj; apply (Hbelow (S j)); lia|].
    destruct (MkdirAll_rec_run os n (FS.Dir os p) d d1 None h1 E) as (G1 & _ & _).
    simpl. rewrite Hp. unfold FS.andThen. rewrite E.
    unfold FS.mkdirLast, FS.Mkdir.
    destruct (FS.Stat os p d1) as [[x|]|] eqn:Hp1.
    + apply Stat_File in Hp1. destruct (G1 p) as [G|(_ & G & _)]; congruence.
    + exists d1, (h1 ++ [])%list. rewrite Hp1.
      assert (Hraw : d1 !! p = Some FS.Directory).
      { unfold FS.Stat in Hp1. destruct (d1 !! p); [done|].
        by destruct (String.eqb_spec (FS.Dir os p) p). }
      split_and!; [done|done| |].
      * intros [|j] Hj; [done|]. apply D1. lia.
      * intros q Hq. apply F1. intros j Hj. apply (Hq (S j)). lia.
    + rewrite S1, (proj1 R).
      exists (<[p := FS.Directory]> d1), (h1 ++ [<[p := FS.Directory]> d1])%list.
      split_and!; [done|apply Stat_insert_eq| |].
      * intros [|j] Hj; [apply lookup_insert_eq|]. simpl.
        destruct (decide (up os j (FS.Dir os p) = p)) as [->|Hne];
          [apply lookup_insert_eq|].
        rewrite lookup_insert_ne by done. apply D1. lia.
      * intros q Hq. rewrite lookup_insert_ne by (intros ->; by apply (Hq 0 ltac:(lia))).
        apply F1. intros j Hj. apply (Hq (S j)). lia.
Qed.

(** [MkdirAll] where a regular file is found [k] levels up, with nothing
    between it and the path: the error names the file, nothing is made. *)
Lemma MkdirAll_rec_blocked (os : FS.OS) (n k : nat) (p : string) (x : list byte)
    (d : FS.fs) :
  k <= n ->
  FS.Stat os (up os k p) d = Some (FS.File x) ->
  (forall j, j < k -> FS.Stat os (up os j p) d = None) ->
  FS.MkdirAll_rec os n p d = (Some (PathError "mkdir" (up os k p) ENOTDIR), d, []).
Proof.
  revert k p. induction n as [|n IH]; intros k p Hk Htop Hbelow.
  - assert (k = 0) as -> by lia. simpl in *. by rewrite Htop.
  - destruct k as [|k]; [simpl in *; by rewrite Htop|].
    pose proof (Hbelow 0 ltac:(lia)) as Hp. simpl in Hp.
    simpl. rewrite Hp. unfold FS.andThen.
    rewrite (IH k (FS.Dir os p)); [done|lia|exact Htop|].
    intros j Hj. apply (Hbelow (S j)). lia.
Qed.

Lemma andThen_ok_inv (m k : FS.M (option error)) (d d' : FS.fs) (h : list FS.fs) :
  FS.andThen m k d = (None, d', h) ->
  exists d1 h1 h2, m d = (None, d1, h1) /\ k d1 = (None, d', h2) /\ h = (h1 ++ h2)%list.
Proof.
  unfold FS.andThen. destruct (m d) as [[[e|] d1] h1] eqn:Em; [discriminate|].
  destruct (k d1) as [[r d2] h2] eqn:Ek. intros H. injection H as -> -> <-.
  by exists d1, h1, h2.
Qed.

(** C7.  [Save] marshals the record and stores the bytes.  Kubernetes-backed:
    when the lookup reports not-found, it creates a node named [r.Name]
    whose only annotation is the marker key with the JSON and whose only
    label is the marker label; when the lookup finds the node, it updates
    that node with the marker annotation set to the JSON and the marker
    label set; on the in-memory cluster the call succeeds and the node named
    [r.Name] then carries both.  File-backed: a [Save] that returns nil
    leaves the JSON in [Join(Join(machines dir, r.Name), "config.json")] and
    that directory in place.  Where nothing fails and, going up from the
    directory, a directory is found after [k] paths where nothing is, a
    first [Save] returns nil, makes these [k] directories, writes the JSON
    and changes nothing else; over a record that is there, it replaces the
    record and changes nothing else.  Where, going up in the same way, a
    regular file is found, [Save] fails with ENOTDIR on that file and makes
    and writes nothing.  ([k] is at most the length of the path, which is
    as far as [MkdirAll] is followed; [filepath.Dir] shortens a path that is
    not a root.) *)
Theorem Save_stores_record {C : Type} (os : FS.OS) (codec : Codec)
    (ks : KubeStore.NodeStore C) (fst_ : FileStore.NodeStore C)
    (r : Host) (data : list byte) :
  MarshalIndent codec r = Ok data ->
  let json := string_of_list_byte data in
  let hostPath := FS.Join os [FileStore.GetMachinesDir os fst_; Name r] in
  let file := FS.Join os [hostPath; "config.json"] in
  (forall c err,
      Get (KubeStore.Client ks) (Name r) c = KErr err -> IsNotFound err = true ->
      KubeStore.Save codec ks r c
      = let '(res, c') :=
          Create (KubeStore.Client ks)
            {| Node_Name := Name r;
               Annotations := Some {[ KubeStore.KubeMachineAnnotationKey := json ]};
               Labels := Some {[ KubeStore.KubeMachineLabel := "true" ]} |} c in
        (err_of res, c'))
  /\ (forall c node,
      Get (KubeStore.Client ks) (Name r) c = KOk node ->
      KubeStore.Save codec ks r c
      = let '(res, c') :=
          Update (KubeStore.Client ks)
            {| Node_Name := Node_Name node;
               Annotations := map_assign (Annotations node)
                                KubeStore.KubeMachineAnnotationKey json;
               Labels := map_assign (Labels node) KubeStore.KubeMachineLabel "true" |} c in
        (err_of res, c'))
  /\ (forall c : cluster, exists c' a l,
      KubeStore.Save codec ksMem r c = (None, c')
      /\ c' !! Name r = Some (a, l)
      /\ map_index a KubeStore.KubeMachineAnnotationKey = Some json
      /\ map_index l KubeStore.KubeMachineLabel = Some "true"
      /\ forall n, n <> Name r -> c' !! n = c !! n)
  /\ (forall d d' h,
      FileStore.Save os codec fst_ r d = (None, d', h) ->
      d' !! file = Some (FS.File data)
      /\ (file <> hostPath -> FS.Stat os hostPath d' = Some FS.Directory))
  /\ (forall d k,
      reliable os -> k <= String.length hostPath ->
      FS.Stat os (up os k hostPath) d = Some FS.Directory ->
      (forall j, j < k -> FS.Stat os (up os j hostPath) d = None) ->
      FS.Stat os file d = None -> FS.Dir os file = hostPath ->
      (forall j, j < k -> file <> up os j hostPath) ->
      exists d' h,
        FileStore.Save os codec fst_ r d = (None, d', h)
        /\ d' !! file = Some (FS.File data)
        /\ (forall j, j < k -> d' !! up os j hostPath = Some FS.Directory)
        /\ (forall q, q <> file -> (forall j, j < k -> q <> up os j hostPath) ->
              d' !! q = d !! q))
  /\ (forall d old,
      reliable os ->
      FS.Stat os hostPath d = Some FS.Directory -> d !! file = Some (FS.File old) ->
      FS.Dir os file = hostPath ->
      FS.Stat os (FS.TempName os d hostPath "config.json.tmp") d = None ->
      fst (FileStore.Save os codec fst_ r d) = (None, <[file := FS.File data]> d))
  /\ (forall d k x,
      k <= String.length hostPath ->
      FS.Stat os (up os k hostPath) d = Some (FS.File x) ->
      (forall j, j < k -> FS.Stat os (up os j hostPath) d = None) ->
      FileStore.Save os codec fst_ r d
      = (Some (PathError "mkdir" (up os k hostPath) ENOTDIR), d, [])).
Proof.
  intros Hm json hostPath file. split_and!.
  - intros c err Hg Hnf. unfold KubeStore.Save. by rewrite Hm, Hg, Hnf.
  - intros c node Hg. unfold KubeStore.Save. by rewrite Hm, Hg.
  - intros c. rewrite (kube_Save_mem codec r data c Hm).
    destruct (saved_meta_marker (c !! Name r) json) as [Ha Hl].
    destruct (saved_meta (c !! Name r) json) as [a l] eqn:E.
    exists (<[Name r := (a, l)]> c), a, l. fold json. rewrite E.
    split_and!; [done|apply lookup_insert_eq|done|done|].
    intros n Hn. by rewrite lookup_insert_ne.
  - intros d d' h. unfold FileStore.Save. rewrite Hm. fold hostPath file.
    intros (d1 & h1 & h2 & Hmk & Hsave & _)%andThen_ok_inv.
    apply MkdirAll_inv in Hmk as [Hdir _].
    apply saveToFile_ok in Hsave as [Hfile Hframe].
    split; [done|]. intros Hne. unfold FS.Stat in *. by rewrite Hframe.
  - intros d k R Hk Htop Hbelow Hf Hdir Hfile. unfold FileStore.Save. rewrite Hm.
    fold hostPath file. unfold FS.andThen, FS.MkdirAll.
    destruct (MkdirAll_rec_deep os _ k hostPath d R Hk Htop Hbelow)
      as (d1 & h1 & -> & S1 & D1 & F1).
    destruct (Stat_None _ _ _ Hf) as [Hf' Hroot].
    assert (Hf1 : FS.Stat os file d1 = None).
    { unfold FS.Stat. rewrite (F1 file Hfile), Hf'.
      by destruct (String.eqb_spec (FS.Dir os file) file). }
    rewrite saveToFile_fresh by (done || by rewrite Hdir).
    rewrite WriteFile_new by (done || by rewrite Hdir).
    eexists _, _. split_and!; [done|apply lookup_insert_eq| |].
    + intros j Hj. rewrite lookup_insert_ne by by apply Hfile.
      by apply D1.
    + intros q Hq Hqs. rewrite lookup_insert_ne by done. by apply F1.
  - intros d old R Hh Hf Hdir Ht. unfold FileStore.Save. rewrite Hm. fold hostPath file.
    unfold FS.andThen.
    assert (FS.MkdirAll os hostPath d = (None, d, [])) as ->.
    { unfold FS.MkdirAll.
      destruct (String.length hostPath); simpl; by rewrite Hh. }
    by rewrite (saveToFile_existing os data old file d R Hf) by by rewrite Hdir.
  - intros d k x Hk Htop Hbelow. unfold FileStore.Save. rewrite Hm. fold hostPath.
    unfold FS.andThen, FS.MkdirAll.
    by rewrite (MkdirAll_rec_blocked os _ k hostPath x d Hk Htop Hbelow).
Qed.

Lemma Save_stores_record_witness :
  MarshalIndent toyCodec hostV3 = Ok (list_byte_of_string "3 virtualbox")
  /\ (exists (c' : cluster) a l,
        KubeStore.Save toyCodec ksMem hostV3 clusterBare = (None, c')
        /\ c' !! "n1" = Some (a, l)
        /\ map_index a KubeStore.KubeMachineAnnotationKey = Some "3 virtualbox"
        /\ map_index l KubeStore.KubeMachineLabel = Some "true")
  /\ (exists d' h,
        FileStore.Save FS.slashOS toyCodec fsMem hostV3 ∅ = (None, d', h)
        /\ d' !! cfg = Some (FS.File (list_byte_of_string "3 virtualbox"))
        /\ d' !! "/b/machines/n1" = Some FS.Directory
        /\ d' !! "/b/machines" = Some FS.Directory
        /\ d' !! "/b" = Some FS.Directory
        /\ d' !! "/c" = None)
  /\ (exists d' h,
        FileStore.Save FS.slashOS toyCodec fsMem hostV3 diskBase = (None, d', h)
        /\ d' !! cfg = Some (FS.File (list_byte_of_string "3 virtualbox"))
        /\ d' !! "/b/machines/n1" = Some FS.Directory
        /\ d' !! "/b/machines" = Some FS.Directory)
  /\ fst (FileStore.Save FS.slashOS toyCodec fsMem hostV3 diskV2)
     = (None, <[cfg := FS.File (list_byte_of_string "3 virtualbox")]> diskV2)
  /\ FileStore.Save FS.slashOS toyCodec fsMem hostV3 diskBlocked
     = (Some (PathError "mkdir" "/b/machines" ENOTDIR), diskBlocked, []).
Proof.
  assert (Hm : MarshalIndent toyCodec hostV3 = Ok (list_byte_of_string "3 virtualbox"))
    by (vm_compute; reflexivity).
  assert (R : reliable FS.slashOS) by (split; intros; reflexivity).
  pose proof (Save_stores_record FS.slashOS toyCodec ksMem fsMem hostV3
                (list_byte_of_string "3 virtualbox") Hm) as H.
  cbv zeta in H. destruct H as (_ & _ & K3 & _ & F2 & F3 & F4).
  split_and!.
  - exact Hm.
  - destruct (K3 clusterBare) as (c' & a & l & H1 & H2 & H3 & H4 & _).
    exists c', a, l. split_and!; [exact H1|exact H2|exact H3|exact H4].
  - destruct (F2 ∅ 3 R) as (d' & h & E & Hf & Hd & Hq).
    + vm_compute. lia.
    + vm_compute. reflexivity.
    + intros [|[|[|j]]] Hj; [vm_compute; reflexivity..|lia].
    + vm_compute. reflexivity.
    + vm_compute. reflexivity.
    + intros [|[|[|j]]] Hj; [apply String.eqb_neq; vm_compute; reflexivity..|lia].
    + exists d', h.
      split_and!; [exact E|exact Hf|exact (Hd 0 ltac:(lia))|exact (Hd 1 ltac:(lia))
                  |exact (Hd 2 ltac:(lia))|].
      rewrite Hq; [done|apply String.eqb_neq; vm_compute; reflexivity|].
      intros [|[|[|j]]] Hj; [apply String.eqb_neq; vm_compute; reflexivity..|lia].
  - destruct (F2 diskBase 2 R) as (d' & h & E & Hf & Hd & _).
    + vm_compute. lia.
    + vm_compute. reflexivity.
    + intros [|[|j]] Hj; [vm_compute; reflexivity..|lia].
    + vm_compute. reflexivity.
    + vm_compute. reflexivity.
    + intros [|[|j]] Hj; [apply String.eqb_neq; vm_compute; reflexivity..|lia].
    + exists d', h.
      split_and!; [exact E|exact Hf|exact (Hd 0 ltac:(lia))|exact (Hd 1 ltac:(lia))].
  - apply (F3 diskV2 (list_byte_of_string "2 virtualbox") R); vm_compute; reflexivity.
  - apply (F4 diskBlocked 1 []).
    + vm_compute. lia.
    + vm_compute. reflexivity.
    + intros [|j] Hj; [vm_compute; reflexivity|lia].
Defined.

(** ** Saving, then loading *)

(** X4.  On the in-memory cluster, when the migration routine reads back
    what [MarshalIndent] wrote, a record that was saved is loaded again with
    its name, schema version, driver and options. *)
Lemma kube_Save_Load (codec : Codec) (r : Host) (data : list byte) (c : cluster) :
  MarshalIndent codec r = Ok data ->
  (forall h0, exists m b,
      MigrateHost codec h0 data = Ok (m, b) /\ same_config m r
      /\ (b = true -> is_Ok (MarshalIndent codec (set_Name m (Name h0))) = true)) ->
  exists c1 h c2,
    KubeStore.Save codec ksMem r c = (None, c1)
    /\ KubeStore.Load codec ksMem (Name r) c1 = (Ok h, c2)
    /\ Name h = Name r /\ same_config h r.
Proof.
  intros Hm Hmig. rewrite (kube_Save_mem codec r data c Hm).
  eexists _. unfold KubeStore.Load. simpl. unfold memGet.
  rewrite lookup_insert_eq. unfold KubeStore.loadConfig. simpl.
  rewrite (proj1 (saved_meta_marker (c !! Name r) (string_of_list_byte data))).
  rewrite list_byte_of_string_of_list_byte.
  destruct (Hmig (KubeStore.emptyHost (Name r))) as (m & b & -> & Hs & Hb).
  destruct b.
  - destruct (MarshalIndent codec (set_Name m (Name (KubeStore.emptyHost (Name r)))))
      as [d'|e] eqn:Hm'; [|by specialize (Hb eq_refl)].
    simpl in Hm'. rewrite (kube_Save_mem codec _ d' _ Hm').
    eexists _, _. split_and!; done.
  - eexists _, _. split_and!; done.
Qed.

Example kube_Save_Load_toy :
  exists c1 h c2,
    KubeStore.Save toyCodec ksMem hostToy ∅ = (None, c1)
    /\ KubeStore.Load toyCodec ksMem "n1" c1 = (Ok h, c2)
    /\ Name h = "n1" /\ same_config h hostToy.
Proof.
  apply (kube_Save_Load toyCodec hostToy (list_byte_of_string "3 virtualbox") ∅).
  - vm_compute. reflexivity.
  - intros h0. eexists _, false. split_and!; [reflexivity| |done].
    repeat split.
Defined.

(** The file-backed [Load] answers from the client alone: a failed lookup is
    its error, a successful one gives the fixed host. *)
Lemma file_Load_eq {C : Type} (fst_ : FileStore.NodeStore C) (name : string) (c : C) :
  FileStore.Load fst_ name c
  = match Get (FileStore.Client fst_) name c with
    | KErr err => Err (KubeError err)
    | KOk _ => Ok (stubHost name)
    end.
Proof. reflexivity. Qed.

(** C1, on the file-backed store.  [Save] of a virtualbox record succeeds and
    writes it to [config.json]; [Load] of the same name then returns the
    fixed [none] host with 42 and 1234 as memory and disk when the cluster
    has a node of that name, and the client's not-found error when it has
    none.  In neither case are the driver and options those that were
    saved. *)
Theorem file_Load_ignores_saved_record :
  fst (FileStore.Save FS.slashOS toyCodec fsMem hostV3 diskEmpty)
  = (None, <[cfg := FS.File (list_byte_of_string "3 virtualbox")]>
             (<["/b/machines/n1" := FS.Directory]> diskEmpty))
  /\ FileStore.Load fsMem (Name hostV3) clusterBare = Ok (stubHost "n1")
  /\ DriverName (stubHost "n1") <> DriverName hostV3
  /\ Driver (stubHost "n1") <> Driver hostV3
  /\ HostOptions (stubHost "n1") <> HostOptions hostV3
  /\ FileStore.Load fsMem (Name hostV3) ∅ = Err (KubeError (notFound "n1")).
Proof.
  split_and!; try discriminate; vm_compute; reflexivity.
Qed.

(** ** The errors of [Load] *)

(** C5, refuted as stated.  A backend error met while re-saving after a
    migration does not reach the caller unchanged: with an API server that
    forbids writes, the update fails with the server's error, and [Load]
    returns a new error that only quotes its message. *)
Lemma Load_backend_error_not_unchanged :
  KubeStore.Load toyCodec ksReadOnly "n1" clusterV2
  = (Err (Errorf "Error saving config after migration was performed: nodes is forbidden"),
     clusterV2)
  /\ Get readOnlyClient "n1" clusterV2
     = KOk (node_of "n1"
              (Some {[ KubeStore.KubeMachineAnnotationKey := "2 virtualbox" ]},
               Some {[ KubeStore.KubeMachineLabel := "true" ]}))
  /\ fst (Update readOnlyClient
            (node_of "n1"
               (Some {[ KubeStore.KubeMachineAnnotationKey := "3 virtualbox" ]},
                Some {[ KubeStore.KubeMachineLabel := "true" ]})) clusterV2)
     = KErr forbidden
  /\ Errorf "Error saving config after migration was performed: nodes is forbidden"
     <> KubeError forbidden.
Proof.
  split_and!; try discriminate; vm_compute; reflexivity.
Qed.

(** C5, as the code has it.  Kubernetes-backed: a lookup that reports
    not-found makes [Load] return [ErrHostDoesNotExist] for the name, and
    [Load] returns that kind of error in no other case; any other error of
    the lookup is returned as it is; a node without the marker annotation
    gives [os.ErrNotExist]; a failure of the migration routine and a failure
    of the re-save are returned as new errors that quote the message.
    File-backed: every error of the lookup, not-found included, is returned
    as it is, and [Load] fails in no other way. *)
Theorem Load_error_kinds {C : Type} (codec : Codec)
    (ks : KubeStore.NodeStore C) (fst_ : FileStore.NodeStore C)
    (name : string) (c : C) :
  (forall err, Get (KubeStore.Client ks) name c = KErr err -> IsNotFound err = true ->
     KubeStore.Load codec ks name c = (Err (ErrHostDoesNotExist name), c))
  /\ (forall err, Get (KubeStore.Client ks) name c = KErr err -> IsNotFound err = false ->
     KubeStore.Load codec ks name c = (Err (KubeError err), c))
  /\ (forall n c', KubeStore.Load codec ks name c = (Err (ErrHostDoesNotExist n), c') ->
     n = name /\ c' = c
     /\ exists err, Get (KubeStore.Client ks) name c = KErr err /\ IsNotFound err = true)
  /\ (forall node, Get (KubeStore.Client ks) name c = KOk node ->
     map_index (Annotations node) KubeStore.KubeMachineAnnotationKey = None ->
     KubeStore.Load codec ks name c = (Err ErrNotExist, c))
  /\ (forall node data err,
     Get (KubeStore.Client ks) name c = KOk node ->
     map_index (Annotations node) KubeStore.KubeMachineAnnotationKey = Some data ->
     MigrateHost codec (KubeStore.emptyHost name) (list_byte_of_string data) = Err err ->
     KubeStore.Load codec ks name c
     = (Err (Errorf ("Error getting migrated host: " +:+ Error err)), c))
  /\ (forall node data m err c',
     Get (KubeStore.Client ks) name c = KOk node ->
     map_index (Annotations node) KubeStore.KubeMachineAnnotationKey = Some data ->
     MigrateHost codec (KubeStore.emptyHost name) (list_byte_of_string data)
     = Ok (m, true) ->
     KubeStore.Save codec ks (set_Name m name) c = (Some err, c') ->
     KubeStore.Load codec ks name c
     = (Err (Errorf ("Error saving config after migration was performed: "
                     +:+ Error err)), c'))
  /\ (forall err, Get (FileStore.Client fst_) name c = KErr err ->
     FileStore.Load fst_ name c = Err (KubeError err))
  /\ (forall e, FileStore.Load fst_ name c = Err e ->
     exists err, Get (FileStore.Client fst_) name c = KErr err /\ e = KubeError err).
Proof.
  split_and!.
  - intros err Hg Hnf. unfold KubeStore.Load. by rewrite Hg, Hnf.
  - intros err Hg Hnf. unfold KubeStore.Load. by rewrite Hg, Hnf.
  - intros n c'. unfold KubeStore.Load.
    destruct (Get _ name c) as [node|err] eqn:Hg.
    + unfold KubeStore.loadConfig.
      destruct (map_index _ _) as [data|]; [|discriminate].
      destruct (MigrateHost codec _ _) as [[m b]|e0]; [|discriminate].
      destruct b; [|discriminate].
      destruct (KubeStore.Save codec ks _ c) as [[e1|] c1]; discriminate.
    + destruct (IsNotFound err) eqn:Hnf; [|discriminate].
      intros [= <- <-]. split_and!; [done|done|]. by exists err.
  - intros node Hg Ha. unfold KubeStore.Load, KubeStore.loadConfig. by rewrite Hg, Ha.
  - intros node data err Hg Ha Hmig.
    unfold KubeStore.Load, KubeStore.loadConfig. by rewrite Hg, Ha, Hmig.
  - intros node data m err c' Hg Ha Hmig Hs.
    unfold KubeStore.Load, KubeStore.loadConfig. rewrite Hg, Ha, Hmig. simpl.
    by rewrite Hs.
  - intros err Hg. unfold FileStore.Load. by rewrite Hg.
  - intros e. unfold FileStore.Load.
    destruct (Get _ name c) as [node|err]; [discriminate|].
    intros [= <-]. by exists err.
Qed.

Lemma Load_error_kinds_witness :
  KubeStore.Load toyCodec ksMem "n2" clusterV2 = (Err (ErrHostDoesNotExist "n2"), clusterV2)
  /\ KubeStore.Load toyCodec ksDown "n1" clusterV2 = (Err (KubeError refused), clusterV2)
  /\ (exists err, Get memClient "n2" clusterV2 = KErr err /\ IsNotFound err = true)
  /\ KubeStore.Load toyCodec ksMem "n1" clusterBare = (Err ErrNotExist, clusterBare)
  /\ KubeStore.Load toyCodec ksMem "n1" (annotated "9 virtualbox")
     = (Err (Errorf "Error getting migrated host: config version is from the future"),
        annotated "9 virtualbox")
  /\ KubeStore.Load toyCodec ksReadOnly "n1" clusterV2
     = (Err (Errorf ("Error saving config after migration was performed: "
                     +:+ Error (KubeError forbidden))), clusterV2)
  /\ FileStore.Load fsDown "n1" clusterV2 = Err (KubeError refused)
  /\ FileStore.Load fsMem "n2" clusterV2 = Err (KubeError (notFound "n2"))
  /\ IsNotFound (notFound "n2") = true.
Proof.
  pose proof (Load_error_kinds toyCodec ksMem fsMem "n2" clusterV2)
    as (A & _ & A3 & _ & _ & _ & A7 & _).
  pose proof (Load_error_kinds toyCodec ksDown fsDown "n1" clusterV2)
    as (_ & B & _ & _ & _ & _ & B7 & _).
  pose proof (Load_error_kinds toyCodec ksMem fsMem "n1" clusterBare)
    as (_ & _ & _ & D & _).
  pose proof (Load_error_kinds toyCodec ksMem fsMem "n1" (annotated "9 virtualbox"))
    as (_ & _ & _ & _ & M & _).
  pose proof (Load_error_kinds toyCodec ksReadOnly fsMem "n1" clusterV2)
    as (_ & _ & _ & _ & _ & E & _).
  assert (HA : KubeStore.Load toyCodec ksMem "n2" clusterV2
               = (Err (ErrHostDoesNotExist "n2"), clusterV2)).
  { apply (A (notFound "n2")); vm_compute; reflexivity. }
  split_and!.
  - exact HA.
  - apply (B refused); vm_compute; reflexivity.
  - exact (proj2 (proj2 (A3 "n2" clusterV2 HA))).
  - apply (D (node_of "n1" (None, None))); vm_compute; reflexivity.
  - eapply (M _ "9 virtualbox" (ForeignError "config version is from the future"));
      vm_compute; reflexivity.
  - eapply (E _ "2 virtualbox"); vm_compute; reflexivity.
  - apply (B7 refused); vm_compute; reflexivity.
  - apply (A7 (notFound "n2")); vm_compute; reflexivity.
  - reflexivity.
Defined.

(** ** Migration on load *)

(** C6.  The Kubernetes-backed [Load] writes exactly when the migration
    routine reports a migration: on every path where it does not (a failed
    lookup, a node without a record, an error of the routine, a record that
    is current) the cluster is returned as it was, and where it does the
    outcome is that of [Save] on the migrated host.  (The client and its
    state are any, so a client that records the calls made to it is
    included.)  The file-backed [Load] does none of this: whatever is on the
    disk, it returns its fixed host as soon as the node is found, so a
    record at version 2 is not read, migrated, backed up or saved again.
    The file's own [loadConfig], which [Load] does not call, would on that
    disk write [config.json.bak] and the migrated record; whenever it
    writes, a migration was reported, the original bytes go to the backup
    first, and the migrated host is saved only from a disk where the backup
    is complete. *)
Theorem Load_migration_writes {C : Type} (os : FS.OS) (codec : Codec)
    (ks : KubeStore.NodeStore C) (fst_ : FileStore.NodeStore C)
    (name : string) (c : C) :
  (forall r c', KubeStore.Load codec ks name c = (r, c') ->
     c' = c
     \/ exists node data m,
          Get (KubeStore.Client ks) name c = KOk node
          /\ map_index (Annotations node) KubeStore.KubeMachineAnnotationKey = Some data
          /\ MigrateHost codec (KubeStore.emptyHost name) (list_byte_of_string data)
             = Ok (m, true)
          /\ c' = snd (KubeStore.Save codec ks (set_Name m name) c))
  /\ (forall node data m b,
        Get (KubeStore.Client ks) name c = KOk node ->
        map_index (Annotations node) KubeStore.KubeMachineAnnotationKey = Some data ->
        MigrateHost codec (KubeStore.emptyHost name) (list_byte_of_string data)
        = Ok (m, b) ->
        KubeStore.Load codec ks name c
        = if b then
            match KubeStore.Save codec ks (set_Name m name) c with
            | (Some err, c') =>
                (Err (Errorf ("Error saving config after migration was performed: "
                              +:+ Error err)), c')
            | (None, c') => (Ok (set_Name m name), c')
            end
          else (Ok (set_Name m name), c))
  /\ (forall h0 d r d' hist,
        FileStore.loadConfig os codec fst_ h0 d = (r, d', hist) ->
        let bak := FS.Join os [FileStore.GetMachinesDir os fst_; Name h0;
                               "config.json.bak"] in
        (d' = d /\ hist = [])
        \/ exists data m rb d1 h1,
             FS.ReadFile os (FS.Join os [FileStore.GetMachinesDir os fst_; Name h0;
                                      "config.json"]) d = Ok data
             /\ MigrateHost codec h0 data = Ok (m, true)
             /\ FileStore.saveToFile os data bak d = (rb, d1, h1)
             /\ ((rb <> None /\ d' = d1 /\ hist = h1)
                 \/ (rb = None /\ d1 !! bak = Some (FS.File data)
                     /\ exists rs h2,
                          FileStore.Save os codec fst_ (set_Name m (Name h0)) d1
                          = (rs, d', h2)
                          /\ hist = (h1 ++ h2)%list)))
  /\ FS.ReadFile FS.slashOS cfg diskV2 = Ok (list_byte_of_string "2 virtualbox")
  /\ (forall node, Get (FileStore.Client fst_) name c = KOk node ->
        FileStore.Load fst_ name c = Ok (stubHost name))
  /\ fst (FileStore.loadConfig FS.slashOS toyCodec fsMem (KubeStore.emptyHost "n1") diskV2)
     = (Ok hostToy,
        <[cfg := FS.File (list_byte_of_string "3 virtualbox")]>
          (<["/b/machines/n1/config.json.bak"
             := FS.File (list_byte_of_string "2 virtualbox")]> diskV2)).
Proof.
  split_and!.
  - intros r c'. unfold KubeStore.Load.
    destruct (Get _ name c) as [node|err] eqn:Hg.
    2: { destruct (IsNotFound err); intros [= _ <-]; by left. }
    unfold KubeStore.loadConfig.
    destruct (map_index _ _) as [data|] eqn:Ha; [|intros [= _ <-]; by left].
    destruct (MigrateHost codec _ _) as [[m b]|e0] eqn:Hmig; [|intros [= _ <-]; by left].
    destruct b; [|intros [= _ <-]; by left].
    simpl. intros H. right. exists node, data, m. split_and!; [done|done|done|].
    destruct (KubeStore.Save codec ks _ c) as [[e1|] c1]; by injection H as _ <-.
  - intros node data m b Hg Ha Hmig.
    unfold KubeStore.Load, KubeStore.loadConfig. by rewrite Hg, Ha, Hmig.
  - intros h0 d r d' hist Hrun bak. unfold FileStore.loadConfig in Hrun.
    destruct (FS.ReadFile os _ d) as [data|e0] eqn:Hr; [|injection Hrun as _ <- <-; by left].
    destruct (MigrateHost codec h0 data) as [[m b]|e0] eqn:Hmig;
      [|injection Hrun as _ <- <-; by left].
    destruct b; [|injection Hrun as _ <- <-; by left].
    simpl in Hrun. fold bak in Hrun.
    destruct (FileStore.saveToFile os data bak d) as [[rb d1] h1] eqn:Hb.
    right. exists data, m, rb, d1, h1. split_and!; [done|done|done|].
    destruct rb as [e1|].
    { left. by injection Hrun as _ <- <-. }
    right. split; [done|]. split; [by apply saveToFile_ok in Hb as [? _]|].
    destruct (FileStore.Save os codec fst_ _ d1) as [[rs d2] h2] eqn:Hs.
    exists rs, h2. destruct rs; by injection Hrun as _ <- <-.
  - vm_compute. reflexivity.
  - intros node Hg. unfold FileStore.Load. by rewrite Hg.
  - vm_compute. reflexivity.
Qed.

Lemma Load_migration_writes_witness :
  KubeStore.Load toyCodec ksMem "n1" clusterV3 = (Ok hostToy, clusterV3)
  /\ KubeStore.Load toyCodec ksMem "n1" clusterV2
     = (Ok hostToy, <["n1" := saved_meta (clusterV2 !! "n1") "3 virtualbox"]> clusterV2)
  /\ (KubeStore.Load toyCodec ksMem "n2" clusterV2
      = (Err (ErrHostDoesNotExist "n2"), clusterV2))
  /\ FileStore.Load fsMem "n1" clusterV2 = Ok (stubHost "n1").
Proof.
  pose proof (Load_migration_writes FS.slashOS toyCodec ksMem fsMem "n1" clusterV3)
    as (_ & A & _).
  pose proof (Load_migration_writes FS.slashOS toyCodec ksMem fsMem "n1" clusterV2)
    as (_ & B & _).
  pose proof (Load_migration_writes FS.slashOS toyCodec ksMem fsMem "n2" clusterV2)
    as (D & _).
  pose proof (Load_migration_writes FS.slashOS toyCodec ksMem fsMem "n1" clusterV2)
    as (_ & _ & _ & _ & L & _).
  split_and!.
  - rewrite (A (node_of "n1" (Some {[ KubeStore.KubeMachineAnnotationKey := "3 virtualbox" ]},
                              Some {[ KubeStore.KubeMachineLabel := "true" ]}))
               "3 virtualbox" migratedToy false);
      [reflexivity|vm_compute; reflexivity|vm_compute; reflexivity|vm_compute; reflexivity].
  - rewrite (B (node_of "n1" (Some {[ KubeStore.KubeMachineAnnotationKey := "2 virtualbox" ]},
                              Some {[ KubeStore.KubeMachineLabel := "true" ]}))
               "2 virtualbox" migratedToy true);
      [vm_compute; reflexivity|vm_compute; reflexivity|vm_compute; reflexivity
      |vm_compute; reflexivity].
  - destruct (KubeStore.Load toyCodec ksMem "n2" clusterV2) as [r c'] eqn:E.
    assert (Hr : r = Err (ErrHostDoesNotExist "n2")).
    { change r with (fst (r, c')). rewrite <- E. vm_compute. reflexivity. }
    destruct (D r c' eq_refl) as [->|(node & data & m & Hg & _)]; [by rewrite Hr|].
    vm_compute in Hg. discriminate Hg.
  - apply (L (node_of "n1" (Some {[ KubeStore.KubeMachineAnnotationKey := "2 virtualbox" ]},
                            Some {[ KubeStore.KubeMachineLabel := "true" ]}))).
    vm_compute. reflexivity.
Defined.

(** ** The payload of a remote copy *)

Lemma sextet_In (k : N) : (k < 64)%N -> In k sextets.
Proof.
  intros H. unfold sextets. apply in_map_iff. exists (N.to_nat k).
  split; [lia|]. apply in_seq. lia.
Qed.

Lemma land63_lt (v : N) : (N.land v 63 < 64)%N.
Proof.
  change 63%N with (N.ones 6). rewrite N.land_ones. apply N.mod_lt. discriminate.
Qed.

Lemma enc6_sextet (k : N) :
  (k < 64)%N ->
  Base64.dec6 (Base64.enc6 k) = Some k /\ Base64.is_b64_char (Base64.enc6 k) = true
  /\ Ascii.eqb (Base64.enc6 k) Base64.padChar = false.
Proof.
  intros H. apply sextet_In in H.
  assert (A : forallb (fun k =>
                match Base64.dec6 (Base64.enc6 k) with
                | Some k' => N.eqb k' k
                | None => false
                end && Base64.is_b64_char (Base64.enc6 k)
                && negb (Ascii.eqb (Base64.enc6 k) Base64.padChar)) sextets = true)
    by (vm_compute; reflexivity).
  rewrite forallb_forall in A. specialize (A k H).
  apply andb_prop in A as [A A3]. apply andb_prop in A as [A1 A2].
  destruct (Base64.dec6 (Base64.enc6 k)) as [k'|]; [|discriminate].
  apply N.eqb_eq in A1 as ->. split_and!; [done|done|].
  by destruct (Ascii.eqb _ _).
Qed.

Lemma testbit_small (b k : N) : (b < 2 ^ k)%N -> N.testbit b k = false.
Proof.
  intros H. destruct (N.eq_dec b 0%N) as [->|Hb]; [apply N.bits_0|].
  apply N.bits_above_log2. apply N.log2_lt_pow2; lia.
Qed.

Lemma lor_shiftl_add (a b n : N) :
  (b < 2 ^ n)%N -> N.lor (N.shiftl a n) b = (a * 2 ^ n + b)%N.
Proof.
  intros H. rewrite <- N.shiftl_mul_pow2.
  assert (Z : N.land (N.shiftl a n) b = 0%N).
  { apply N.bits_inj; intros k; rewrite N.land_spec, N.bits_0.
    destruct (N.lt_ge_cases k n) as [Hk|Hk]; [by rewrite N.shiftl_spec_low|].
    rewrite (testbit_small b k), andb_false_r; [done|].
    eapply N.lt_le_trans; [exact H|]. apply N.pow_le_mono_r; lia. }
  rewrite <- N.lxor_lor by exact Z. symmetry. by apply N.add_nocarry_lxor.
Qed.

Lemma to_N_lt (b : byte) : (Byte.to_N b < 256)%N.
Proof. pose proof (Byte.to_N_bounded b). lia. Qed.

Lemma group_value (a b c : byte) :
  Base64.group a b c = (Byte.to_N a * 65536 + Byte.to_N b * 256 + Byte.to_N c)%N.
Proof.
  unfold Base64.group.
  pose proof (to_N_lt a) as Ha. pose proof (to_N_lt b) as Hb. pose proof (to_N_lt c) as Hc.
  set (x := Byte.to_N a) in *. set (y := Byte.to_N b) in *. set (z := Byte.to_N c) in *.
  rewrite (N.shiftl_mul_pow2 y 8).
  rewrite (lor_shiftl_add x (y * 2 ^ 8) 16) by (simpl; lia).
  replace (x * 2 ^ 16 + y * 2 ^ 8)%N with ((x * 2 ^ 8 + y) * 2 ^ 8)%N by (simpl; lia).
  rewrite <- N.shiftl_mul_pow2.
  rewrite (lor_shiftl_add _ z 8) by (simpl; lia).
  simpl. lia.
Qed.

Lemma div_eq (a b q r : N) : (r < b)%N -> a = (b * q + r)%N -> (a / b)%N = q.
Proof. intros H1 H2. symmetry. by apply (N.div_unique a b q r). Qed.

Lemma mod_eq (a b q r : N) : (r < b)%N -> a = (b * q + r)%N -> (a mod b)%N = r.
Proof. intros H1 H2. symmetry. by apply (N.mod_unique a b q r). Qed.

Lemma split_N (x b : N) : b <> 0%N -> exists q r, x = (b * q + r)%N /\ (r < b)%N.
Proof.
  intros Hb. exists (x / b)%N, (x mod b)%N. split; [by apply N.div_mod|by apply N.mod_lt].
Qed.

Lemma group_sextets (a b c : byte) :
  let v := Base64.group a b c in
  let s1 := N.land (N.shiftr v 18) 63 in
  let s2 := N.land (N.shiftr v 12) 63 in
  let s3 := N.land (N.shiftr v 6) 63 in
  let s4 := N.land v 63 in
  N.lor (N.shiftl s1 2) (N.shiftr s2 4) = Byte.to_N a
  /\ N.lor (N.shiftl (N.land s2 15) 4) (N.shiftr s3 2) = Byte.to_N b
  /\ N.lor (N.shiftl (N.land s3 3) 6) s4 = Byte.to_N c.
Proof.
  intros v s1 s2 s3 s4. subst v s1 s2 s3 s4. rewrite group_value.
  pose proof (to_N_lt a) as Ha. pose proof (to_N_lt b) as Hb. pose proof (to_N_lt c) as Hc.
  set (x := Byte.to_N a) in *. set (y := Byte.to_N b) in *. set (z := Byte.to_N c) in *.
  destruct (split_N x 4) as (x1 & x0 & Ex & Hx0); [done|].
  destruct (split_N y 16) as (y1 & y0 & Ey & Hy0); [done|].
  destruct (split_N z 64) as (z1 & z0 & Ez & Hz0); [done|].
  change 63%N with (N.ones 6). change 15%N with (N.ones 4). change 3%N with (N.ones 2).
  rewrite !N.land_ones, !N.shiftr_div_pow2.
  change (2 ^ 18)%N with 262144%N. change (2 ^ 12)%N with 4096%N.
  change (2 ^ 6)%N with 64%N. change (2 ^ 4)%N with 16%N. change (2 ^ 2)%N with 4%N.
  set (v := (x * 65536 + y * 256 + z)%N).
  assert (E1 : ((v / 262144) mod 64 = x1)%N).
  { rewrite (div_eq v 262144 x1 (x0 * 65536 + y * 256 + z)) by (subst v; lia).
    apply (mod_eq _ _ 0%N); lia. }
  assert (E2 : ((v / 4096) mod 64 = 16 * x0 + y1)%N).
  { rewrite (div_eq v 4096 (x * 16 + y1) (y0 * 256 + z)) by (subst v; lia).
    apply (mod_eq _ _ x1); lia. }
  assert (E3 : ((v / 64) mod 64 = 4 * y0 + z1)%N).
  { rewrite (div_eq v 64 (x * 1024 + y * 4 + z1) z0) by (subst v; lia).
    apply (mod_eq _ _ (x * 16 + y1)); lia. }
  assert (E4 : (v mod 64 = z0)%N).
  { apply (mod_eq _ _ (x * 1024 + y * 4 + z1)); subst v; lia. }
  rewrite E1, E2, E3, E4.
  rewrite (div_eq (16 * x0 + y1) 16 x0 y1) by lia.
  rewrite (div_eq (4 * y0 + z1) 4 y0 z1) by lia.
  rewrite (mod_eq (16 * x0 + y1) 16 x0 y1) by lia.
  rewrite (mod_eq (4 * y0 + z1) 4 y0 z1) by lia.
  rewrite !lor_shiftl_add by (simpl; lia).
  simpl. lia.
Qed.

Lemma enc6_facts (v : N) :
  Base64.dec6 (Base64.enc6 v) = Some (N.land v 63)
  /\ Base64.is_b64_char (Base64.enc6 v) = true
  /\ Ascii.eqb (Base64.enc6 v) Base64.padChar = false.
Proof.
  assert (E : Base64.enc6 v = Base64.enc6 (N.land v 63)).
  { unfold Base64.enc6. by rewrite <- N.land_assoc, N.land_diag. }
  rewrite E. apply enc6_sextet, land63_lt.
Qed.

(** Induction on a list three elements at a time. *)
Lemma list_ind3 {A : Type} (P : list A -> Prop) :
  P [] -> (forall a, P [a]) -> (forall a b, P [a; b]) ->
  (forall a b c l, P l -> P (a :: b :: c :: l)) ->
  forall l, P l.
Proof.
  intros H0 H1 H2 H3 l.
  assert (H : P l /\ (forall a, P (a :: l)) /\ (forall a b, P (a :: b :: l))).
  { induction l as [|x l (IH0 & IH1 & IH2)]; [by split_and!|].
    split_and!; [apply IH1|intros a; apply IH2|intros a b; by apply H3]. }
  apply H.
Qed.

Lemma group_tail1 (a : byte) :
  N.shiftl (Byte.to_N a) 16 = Base64.group a "000"%byte "000"%byte.
Proof. unfold Base64.group. simpl (Byte.to_N "000"). by rewrite N.shiftl_0_l, !N.lor_0_r. Qed.

Lemma group_tail2 (a b : byte) :
  N.lor (N.shiftl (Byte.to_N a) 16) (N.shiftl (Byte.to_N b) 8)
  = Base64.group a b "000"%byte.
Proof. unfold Base64.group. simpl (Byte.to_N "000"). by rewrite N.lor_0_r. Qed.

Lemma Encode_1 (a : byte) :
  Base64.EncodeToString [a]
  = String (Base64.enc6 (N.shiftr (Base64.group a "000" "000") 18))
      (String (Base64.enc6 (N.shiftr (Base64.group a "000" "000") 12))
         (String Base64.padChar (String Base64.padChar ""))).
Proof. rewrite <- group_tail1. reflexivity. Qed.

Lemma Encode_2 (a b : byte) :
  Base64.EncodeToString [a; b]
  = String (Base64.enc6 (N.shiftr (Base64.group a b "000") 18))
      (String (Base64.enc6 (N.shiftr (Base64.group a b "000") 12))
         (String (Base64.enc6 (N.shiftr (Base64.group a b "000") 6))
            (String Base64.padChar ""))).
Proof. rewrite <- group_tail2. reflexivity. Qed.

Lemma Encode_3 (a b c : byte) (l : list byte) :
  Base64.EncodeToString (a :: b :: c :: l)
  = String (Base64.enc6 (N.shiftr (Base64.group a b c) 18))
      (String (Base64.enc6 (N.shiftr (Base64.group a b c) 12))
         (String (Base64.enc6 (N.shiftr (Base64.group a b c) 6))
            (String (Base64.enc6 (Base64.group a b c)) (Base64.EncodeToString l)))).
Proof. reflexivity. Qed.

Lemma EncodeToString_chars (data : list byte) :
  forallb Base64.is_b64_char (list_ascii_of_string (Base64.EncodeToString data)) = true.
Proof.
  induction data as [|a|a b|a b c l IH] using list_ind3.
  - reflexivity.
  - rewrite Encode_1. cbn [list_ascii_of_string forallb].
    by rewrite !(proj1 (proj2 (enc6_facts _))).
  - rewrite Encode_2. cbn [list_ascii_of_string forallb].
    by rewrite !(proj1 (proj2 (enc6_facts _))).
  - rewrite Encode_3. cbn [list_ascii_of_string forallb].
    by rewrite !(proj1 (proj2 (enc6_facts _))), IH.
Qed.

Lemma EncodeToString_length (data : list byte) :
  String.length (Base64.EncodeToString data) = 4 * ((length data + 2) / 3).
Proof.
  induction data as [|a|a b|a b c l IH] using list_ind3.
  - reflexivity.
  - rewrite Encode_1. reflexivity.
  - rewrite Encode_2. reflexivity.
  - rewrite Encode_3. cbn [String.length length]. rewrite IH.
    replace (S (S (S (length l))) + 2) with ((length l + 2) + 1 * 3) by lia.
    rewrite Nat.div_add by done. lia.
Qed.

Lemma decode_byte (n : N) (b : byte) : n = Byte.to_N b -> Base64.byte_of n = Some b.
Proof. intros ->. apply Byte.of_to_N. Qed.

Lemma pad_eqb : Ascii.eqb Base64.padChar Base64.padChar = true.
Proof. reflexivity. Qed.

Lemma Decode_4 (c1 c2 c3 c4 : ascii) (rest : string) :
  Base64.DecodeString (String c1 (String c2 (String c3 (String c4 rest))))
  = match Base64.dec6 c1, Base64.dec6 c2 with
    | Some s1, Some s2 =>
        match Base64.byte_of (N.lor (N.shiftl s1 2) (N.shiftr s2 4)) with
        | None => None
        | Some a =>
            if Ascii.eqb c3 Base64.padChar then
              if Ascii.eqb c4 Base64.padChar then
                match rest with "" => Some [a] | _ => None end
              else None
            else
              match Base64.dec6 c3 with
              | None => None
              | Some s3 =>
                  match Base64.byte_of
                          (N.lor (N.shiftl (N.land s2 15) 4) (N.shiftr s3 2)) with
                  | None => None
                  | Some b =>
                      if Ascii.eqb c4 Base64.padChar then
                        match rest with "" => Some [a; b] | _ => None end
                      else
                        match Base64.dec6 c4 with
                        | None => None
                        | Some s4 =>
                            match Base64.byte_of (N.lor (N.shiftl (N.land s3 3) 6) s4),
                                  Base64.DecodeString rest with
                            | Some c, Some k => Some (a :: b :: c :: k)
                            | _, _ => None
                            end
                        end
                  end
              end
        end
    | _, _ => None
    end.
Proof. reflexivity. Qed.

Lemma DecodeString_EncodeToString (data : list byte) :
  Base64.DecodeString (Base64.EncodeToString data) = Some data.
Proof.
  induction data as [|a|a b|a b c l IH] using list_ind3.
  - reflexivity.
  - rewrite Encode_1, Decode_4.
    destruct (group_sextets a "000" "000") as (Ea & _ & _). cbv zeta in Ea.
    rewrite !(proj1 (enc6_facts _)). rewrite (decode_byte _ a Ea).
    by rewrite pad_eqb.
  - rewrite Encode_2, Decode_4.
    destruct (group_sextets a b "000") as (Ea & Eb & _). cbv zeta in Ea, Eb.
    rewrite !(proj1 (enc6_facts _)). rewrite (decode_byte _ a Ea).
    rewrite (proj2 (proj2 (enc6_facts _))). rewrite (decode_byte _ b Eb).
    by rewrite pad_eqb.
  - rewrite Encode_3, Decode_4.
    destruct (group_sextets a b c) as (Ea & Eb & Ec). cbv zeta in Ea, Eb, Ec.
    rewrite !(proj1 (enc6_facts _)). rewrite (decode_byte _ a Ea).
    rewrite !(proj2 (proj2 (enc6_facts _))). rewrite (decode_byte _ b Eb).
    rewrite (decode_byte _ c Ec). by rewrite IH.
Qed.

(** X2.  The payload [scp] puts between the double quotes of the command is
    made of letters, digits, [+], [/] and [=] only, whatever the bytes of
    the file: no quote, dollar, backquote, backslash or line break of the
    data reaches the shell.  It is four characters for every three bytes,
    rounded up. *)
Theorem scp_payload_shape (data : list byte) (path chmod : string) :
  let payload := Template.Data64 (Detector.scp_ctx data path chmod) in
  forallb Base64.is_b64_char (list_ascii_of_string payload) = true
  /\ String.length payload = 4 * ((length data + 2) / 3).
Proof.
  simpl. split; [apply EncodeToString_chars|apply EncodeToString_length].
Qed.

(** X3.  The encoding of [scp] loses nothing: two files that differ give
    payloads that differ (the payload decodes back to the file). *)
Theorem scp_payload_injective (data data' : list byte) (path path' chmod chmod' : string) :
  data <> data' ->
  Template.Data64 (Detector.scp_ctx data path chmod)
  <> Template.Data64 (Detector.scp_ctx data' path' chmod').
Proof.
  intros Hne Heq. simpl in Heq. apply Hne.
  assert (H : Some data = Some data'); [|by injection H].
  by rewrite <- !DecodeString_EncodeToString, Heq.
Qed.

Lemma scp_payload_injective_witness :
  String.eqb
    (Template.Data64 (Detector.scp_ctx (list_byte_of_string "a") "/etc/kubeconfig" "0600"))
    (Template.Data64 (Detector.scp_ctx (list_byte_of_string "b") "/etc/kubeconfig" "0600"))
  = false.
Proof.
  apply String.eqb_neq.
  apply (scp_payload_injective (list_byte_of_string "a") (list_byte_of_string "b")).
  discriminate.
Defined.

(** ** From detection to provisioning *)

(** X1.  A wrapper obtained from [DetectProvisioner] wraps the provisioner
    that was detected and reads the detector's kubeconfig path.  With
    [text/template] as Go has it, its [Provision] never returns nil and never
    reaches the node: the world it leaves is the one the wrapped provisioner
    left, with at most the one log line of the first copy added. *)
Theorem detected_Provision_go {W SO AO EO D : Type} (env : Detector.Env W)
    (d : Detector.ExtendedKubeProvisionerDetector W SO AO EO D) (driver : D)
    (p : Detector.KubeletProvisionerWrapper W SO AO EO)
    (so : SO) (ao : AO) (eo : EO) (w : W) :
  Detector.Execute env = Template.Execute ->
  Detector.DetectProvisioner d driver = Ok p ->
  Detector.inner_DetectProvisioner (Detector.Detector d) driver
  = Ok (Detector.Provisioner p)
  /\ Detector.KubeconfigPath p = Detector.d_KubeconfigPath d
  /\ exists err,
       fst (Detector.Provision env p so ao eo w) = Some err
       /\ let w1 := snd (Detector.inner_Provision (Detector.Provisioner p) so ao eo w) in
          (snd (Detector.Provision env p so ao eo w) = w1
           \/ snd (Detector.Provision env p so ao eo w)
              = Detector.Infof env "Copying %q to %q on the node..."
                  [Detector.d_KubeconfigPath d; Detector.nodeKubeconfigPath] w1).
Proof.
  intros HE HD. unfold Detector.DetectProvisioner in HD.
  destruct (Detector.inner_DetectProvisioner _ driver) as [inner|e]; [|discriminate].
  injection HD as <-. simpl. split_and!; [done|done|].
  unfold Detector.Provision. simpl.
  destruct (Detector.inner_Provision inner so ao eo w) as [[e|] w1]; simpl.
  { exists e. split; [done|by left]. }
  destruct (Detector.ReadFile env _ w1) as [data|e]; simpl.
  2: { exists e. split; [done|by left]. }
  unfold Detector.scp. rewrite HE. simpl. eexists. split; [done|by right].
Qed.

Lemma detected_Provision_go_witness :
  exists err,
    fst (Detector.Provision (Detector.goEnv scriptOk) (Detector.scriptedWrapper scriptOk)
           tt tt tt []) = Some err
    /\ (snd (Detector.Provision (Detector.goEnv scriptOk)
               (Detector.scriptedWrapper scriptOk) tt tt tt [])
        = [Detector.EvProvision]
        \/ snd (Detector.Provision (Detector.goEnv scriptOk)
                  (Detector.scriptedWrapper scriptOk) tt tt tt [])
           = [Detector.EvProvision; logKubeconfig]).
Proof.
  exact (proj2 (proj2
    (detected_Provision_go (D := unit) (Detector.goEnv scriptOk)
       {| Detector.Detector :=
            {| Detector.inner_DetectProvisioner :=
                 fun _ => Ok (Detector.scriptedProvisioner scriptOk) |};
          Detector.d_KubeconfigPath := "/home/me/.kube/config" |}
       tt (Detector.scriptedWrapper scriptOk) tt tt tt [] eq_refl eq_refl))).
Defined.

(** ** The Kubernetes-backed store on the in-memory cluster *)

Lemma saved_meta_twice old j1 j2 :
  saved_meta (Some (saved_meta old j1)) j2 = saved_meta old j2.
Proof.
  destruct old as [[[a|] [l|]]|]; simpl;
    rewrite ?insert_insert_eq, ?insert_singleton_eq; reflexivity.
Qed.

Lemma saved_meta_rest old json a l k :
  old = Some (a, l) ->
  (k <> KubeStore.KubeMachineAnnotationKey ->
   map_index (fst (saved_meta old json)) k = map_index a k)
  /\ (k <> KubeStore.KubeMachineLabel ->
      map_index (snd (saved_meta old json)) k = map_index l k).
Proof.
  intros ->. simpl. split; intros Hk.
  - destruct a; simpl; rewrite lookup_insert_ne by done; [done|apply lookup_empty].
  - destruct l; simpl; rewrite lookup_insert_ne by done; [done|apply lookup_empty].
Qed.

(** X5.  On the in-memory cluster, [Save] touches one node only, the one
    named after the record, and on that node only the marker annotation and
    the marker label: every other node, and every other annotation and label
    of the node, is as before. *)
Theorem kube_Save_keeps_rest (codec : Codec) (r : Host) (data : list byte) (c : cluster) :
  MarshalIndent codec r = Ok data ->
  exists c' : cluster,
    KubeStore.Save codec ksMem r c = (None, c')
    /\ (forall n, n <> Name r -> c' !! n = c !! n)
    /\ (forall a l, c !! Name r = Some (a, l) ->
        exists a' l', c' !! Name r = Some (a', l')
          /\ (forall k, k <> KubeStore.KubeMachineAnnotationKey ->
                map_index a' k = map_index a k)
          /\ (forall k, k <> KubeStore.KubeMachineLabel ->
                map_index l' k = map_index l k)).
Proof.
  intros Hm. rewrite (kube_Save_mem codec r data c Hm). eexists. split_and!; [done| |].
  - intros n Hn. by rewrite lookup_insert_ne.
  - intros a l Hc. rewrite lookup_insert_eq.
    destruct (saved_meta (c !! Name r) (string_of_list_byte data)) as [a' l'] eqn:E.
    exists a', l'. split; [done|].
    split; intros k Hk.
    + pose proof (proj1 (saved_meta_rest _ (string_of_list_byte data) a l k Hc) Hk) as H.
      by rewrite E in H.
    + pose proof (proj2 (saved_meta_rest _ (string_of_list_byte data) a l k Hc) Hk) as H.
      by rewrite E in H.
Qed.

Lemma kube_Save_keeps_rest_witness :
  exists c' : cluster,
    KubeStore.Save toyCodec ksMem hostV3 clusterTwo = (None, c')
    /\ (forall n, n <> "n1" -> c' !! n = clusterTwo !! n).
Proof.
  destruct (kube_Save_keeps_rest toyCodec hostV3 (list_byte_of_string "3 virtualbox")
              clusterTwo) as (c' & H1 & H2 & _).
  - vm_compute. reflexivity.
  - exists c'. split; [exact H1|exact H2].
Defined.

(** X6.  On the in-memory cluster, saving twice under one name is the same
    as saving the second record alone: the first record leaves no trace. *)
Theorem kube_Save_last_wins (codec : Codec) (r1 r2 : Host) (d1 d2 : list byte) (c : cluster) :
  MarshalIndent codec r1 = Ok d1 -> MarshalIndent codec r2 = Ok d2 ->
  Name r1 = Name r2 ->
  KubeStore.Save codec ksMem r2 (snd (KubeStore.Save codec ksMem r1 c))
  = KubeStore.Save codec ksMem r2 c.
Proof.
  intros H1 H2 Hn.
  rewrite (kube_Save_mem codec r1 d1 c H1). simpl.
  rewrite !(kube_Save_mem codec r2 d2 _ H2). rewrite Hn.
  by rewrite lookup_insert_eq, insert_insert_eq, saved_meta_twice.
Qed.

Lemma kube_Save_last_wins_witness :
  KubeStore.Save toyCodec ksMem hostV3 (snd (KubeStore.Save toyCodec ksMem hostToy clusterV2))
  = KubeStore.Save toyCodec ksMem hostV3 clusterV2.
Proof.
  apply (kube_Save_last_wins toyCodec hostToy hostV3
           (list_byte_of_string "3 virtualbox") (list_byte_of_string "3 virtualbox"));
    vm_compute; reflexivity.
Defined.

Lemma mem_List_elem (c : cluster) (n : string) :
  exists names, KubeStore.List ksMem c = Ok names
    /\ (n ∈ names <->
        exists a l, c !! n = Some (a, l)
          /\ is_Some (map_index a KubeStore.KubeMachineAnnotationKey)).
Proof.
  destruct (KubeStore.List ksMem c) as [names|e] eqn:HL; [|discriminate].
  exists names. split; [done|].
  rewrite (kube_List_elem ksMem c _ names n eq_refl HL). split.
  - intros (node & Hin & Hn & Hm).
    apply list_elem_of_fmap in Hin as ([k [a l]] & -> & Hkv).
    apply elem_of_map_to_list in Hkv. simpl in *. subst k. by exists a, l.
  - intros (a & l & Hc & Hm). exists (node_of n (a, l)). split_and!; [|done|done].
    apply list_elem_of_fmap. exists (n, (a, l)). split; [done|].
    by apply elem_of_map_to_list.
Qed.

(** X7.  The life of a record on the in-memory cluster.  After [Save] the
    name exists and is listed.  After [Remove] it does not exist, is not
    listed, [Load] answers that the host does not exist, and every other
    node is as it was before the [Save]: [Remove] deletes the node itself,
    not only the record on it. *)
Theorem kube_lifecycle (codec : Codec) (r : Host) (data : list byte) (c : cluster) :
  MarshalIndent codec r = Ok data ->
  let c1 := snd (KubeStore.Save codec ksMem r c) in
  let c2 := snd (KubeStore.Remove ksMem (Name r) c1) in
  fst (KubeStore.Save codec ksMem r c) = None
  /\ KubeStore.Exists ksMem (Name r) c1 = (true, None)
  /\ (exists names, KubeStore.List ksMem c1 = Ok names /\ Name r ∈ names)
  /\ fst (KubeStore.Remove ksMem (Name r) c1) = None
  /\ KubeStore.Exists ksMem (Name r) c2 = (false, None)
  /\ KubeStore.Load codec ksMem (Name r) c2 = (Err (ErrHostDoesNotExist (Name r)), c2)
  /\ (exists names, KubeStore.List ksMem c2 = Ok names /\ Name r ∉ names)
  /\ (forall n, n <> Name r -> c2 !! n = c !! n).
Proof.
  intros Hm c1 c2. subst c1 c2. rewrite (kube_Save_mem codec r data c Hm). simpl.
  set (meta := saved_meta (c !! Name r) (string_of_list_byte data)).
  assert (HR : KubeStore.Remove ksMem (Name r) (<[Name r := meta]> c)
               = (None, delete (Name r) (<[Name r := meta]> c))).
  { unfold KubeStore.Remove. simpl. unfold memDelete. by rewrite lookup_insert_eq. }
  rewrite HR. simpl.
  split_and!.
  - done.
  - unfold KubeStore.Exists. simpl. unfold memGet. by rewrite lookup_insert_eq.
  - destruct (mem_List_elem (<[Name r := meta]> c) (Name r)) as (names & HL & Hin).
    exists names. split; [done|]. apply Hin. exists (fst meta), (snd meta).
    split; [rewrite lookup_insert_eq; by destruct meta|].
    subst meta. by rewrite (proj1 (saved_meta_marker _ _)).
  - done.
  - unfold KubeStore.Exists. simpl. unfold memGet. by rewrite lookup_delete_eq.
  - unfold KubeStore.Load. simpl. unfold memGet. by rewrite lookup_delete_eq.
  - destruct (mem_List_elem (delete (Name r) (<[Name r := meta]> c)) (Name r))
      as (names & HL & Hin).
    exists names. split; [done|]. rewrite Hin. intros (a & l & Hc & _).
    by rewrite lookup_delete_eq in Hc.
  - intros n Hn. by rewrite lookup_delete_ne, lookup_insert_ne.
Qed.

Lemma kube_lifecycle_witness :
  KubeStore.Exists ksMem "n1" (snd (KubeStore.Save toyCodec ksMem hostV3 clusterTwo))
  = (true, None)
  /\ KubeStore.Exists ksMem "n1"
       (snd (KubeStore.Remove ksMem "n1"
               (snd (KubeStore.Save toyCodec ksMem hostV3 clusterTwo))))
     = (false, None).
Proof.
  assert (Hm : MarshalIndent toyCodec hostV3 = Ok (list_byte_of_string "3 virtualbox"))
    by (vm_compute; reflexivity).
  pose proof (kube_lifecycle toyCodec hostV3 (list_byte_of_string "3 virtualbox")
                clusterTwo Hm) as H.
  cbv zeta in H. destruct H as (_ & H2 & _ & _ & H5 & _).
  split; [exact H2|exact H5].
Defined.

(** X8.  Migration on load happens once.  When what the migration routine
    produces is current once marshalled again, a [Load] that succeeded
    leaves a cluster on which a second [Load] of the same name succeeds and
    writes nothing. *)
Theorem kube_Load_twice (codec : Codec) (name : string) (c c1 : cluster) (h : Host) :
  (forall h0 h1 data m n d1,
      MigrateHost codec h0 data = Ok (m, true) ->
      MarshalIndent codec (set_Name m n) = Ok d1 ->
      exists m', MigrateHost codec h1 d1 = Ok (m', false)) ->
  KubeStore.Load codec ksMem name c = (Ok h, c1) ->
  exists h', KubeStore.Load codec ksMem name c1 = (Ok h', c1).
Proof.
  intros Hcur. unfold KubeStore.Load. simpl. unfold memGet.
  destruct (c !! name) as [meta|] eqn:Hc; [|discriminate].
  unfold KubeStore.loadConfig at 1.
  destruct (map_index (Annotations (node_of name meta)) _) as [data|] eqn:Ha;
    [|discriminate].
  destruct (MigrateHost codec (KubeStore.emptyHost name) (list_byte_of_string data))
    as [[m b]|e] eqn:Hmig; [|discriminate].
  destruct b.
  - simpl.
    destruct (MarshalIndent codec (set_Name m name)) as [d1|e] eqn:Hm.
    2: { unfold KubeStore.Save. rewrite Hm. discriminate. }
    rewrite (kube_Save_mem codec _ d1 c Hm). simpl. intros [= <- <-].
    rewrite lookup_insert_eq. unfold KubeStore.loadConfig. simpl.
    rewrite (proj1 (saved_meta_marker (c !! name) (string_of_list_byte d1))).
    rewrite list_byte_of_string_of_list_byte.
    destruct (Hcur _ (KubeStore.emptyHost name) _ _ _ _ Hmig Hm) as [m' ->].
    by eexists.
  - intros [= <- <-]. rewrite Hc. unfold KubeStore.loadConfig. rewrite Ha.
    simpl. rewrite Hmig. by eexists.
Qed.

Lemma toyCodec_current (h0 h1 : Host) (data : list byte) (m : Host) (n : string)
    (d1 : list byte) :
  MigrateHost toyCodec h0 data = Ok (m, true) ->
  MarshalIndent toyCodec (set_Name m n) = Ok d1 ->
  exists m', MigrateHost toyCodec h1 d1 = Ok (m', false).
Proof.
  simpl. unfold toyMigrate, toyMarshal.
  destruct data as [|v [|sp rest]]; try discriminate.
  destruct (3 <? byte_version v)%Z; [discriminate|].
  intros [= <- _]. simpl. intros [= <-]. by eexists.
Qed.

Lemma kube_Load_twice_witness :
  exists h',
    KubeStore.Load toyCodec ksMem "n1" (snd (KubeStore.Load toyCodec ksMem "n1" clusterV2))
    = (Ok h', snd (KubeStore.Load toyCodec ksMem "n1" clusterV2)).
Proof.
  destruct (KubeStore.Load toyCodec ksMem "n1" clusterV2) as [r c1] eqn:E.
  assert (Hr : is_Ok r = true).
  { change r with (fst (r, c1)). rewrite <- E. vm_compute. reflexivity. }
  destruct r as [h|e]; [|discriminate Hr].
  exact (kube_Load_twice toyCodec "n1" clusterV2 c1 h toyCodec_current E).
Defined.

(** X9.  How the Kubernetes-backed [Save] fails, for any client.  A
    record that cannot be marshalled gives the marshalling error, and a
    lookup that fails with anything but not-found gives that error; in both
    cases the cluster is left as it is.  Every other error of [Save] is an
    error of the client. *)
Theorem kube_Save_failures {C : Type} (codec : Codec) (ks : KubeStore.NodeStore C)
    (r : Host) (c : C) :
  (forall e, MarshalIndent codec r = Err e -> KubeStore.Save codec ks r c = (Some e, c))
  /\ (forall data k, MarshalIndent codec r = Ok data ->
        Get (KubeStore.Client ks) (Name r) c = KErr k -> IsNotFound k = false ->
        KubeStore.Save codec ks r c = (Some (KubeError k), c))
  /\ (forall e c', KubeStore.Save codec ks r c = (Some e, c') ->
        MarshalIndent codec r = Err e \/ exists k, e = KubeError k).
Proof.
  unfold KubeStore.Save. split_and!.
  - by intros e ->.
  - by intros data k -> -> ->.
  - intros e c'. destruct (MarshalIndent codec r) as [data|e0]; [|intros [= <- _]; by left].
    destruct (Get _ (Name r) c) as [node|k].
    + destruct (Update _ _ c) as [[n|k] c'']; simpl; [discriminate|].
      intros [= <- _]. right. by exists k.
    + destruct (IsNotFound k).
      * destruct (Create _ _ c) as [[n|k'] c'']; simpl; [discriminate|].
        intros [= <- _]. right. by exists k'.
      * intros [= <- _]. right. by exists k.
Qed.

Lemma kube_Save_failures_witness :
  KubeStore.Save toyCodec ksMem
    {| ConfigVersion := 10; Driver := None; DriverName := "none";
       HostOptions := None; Name := "n1"; RawDriver := [] |} clusterV2
  = (Some (ForeignError "json: unsupported value"), clusterV2)
  /\ KubeStore.Save toyCodec ksDown hostV3 clusterV2 = (Some (KubeError refused), clusterV2)
  /\ (MarshalIndent toyCodec hostV3 = Err (KubeError forbidden)
      \/ exists k, KubeError forbidden = KubeError k).
Proof.
  split_and!.
  - apply (proj1 (kube_Save_failures toyCodec ksMem _ clusterV2)). vm_compute. reflexivity.
  - apply (proj1 (proj2 (kube_Save_failures toyCodec ksDown hostV3 clusterV2))
             (list_byte_of_string "3 virtualbox") refused); vm_compute; reflexivity.
  - apply (proj2 (proj2 (kube_Save_failures toyCodec ksReadOnly hostV3 clusterV2))
             (KubeError forbidden) clusterV2).
    vm_compute. reflexivity.
Defined.

(** ** The two stores on one client *)

(** X15.  On one and the same client, the names the Kubernetes-backed
    [List] returns are, in the same order, among those the file-backed
    [List] returns: the latter lists every node, the former only the nodes
    with a record. *)
Theorem kube_List_sublist_file_List {C : Type} (ks : KubeStore.NodeStore C)
    (fst_ : FileStore.NodeStore C) (c : C) (names : list string) :
  KubeStore.Client ks = FileStore.Client fst_ ->
  KubeStore.List ks c = Ok names ->
  exists all, FileStore.List fst_ c = Ok all /\ sublist names all.
Proof.
  intros HC. rewrite kube_List_eq. unfold FileStore.List, FileStore.List_loop.
  rewrite <- HC. destruct (NodeList _ c) as [items|e]; [|discriminate].
  intros [= <-]. eexists. split; [done|]. rewrite file_List_loop_acc. simpl.
  clear. induction items as [|n items IH]; simpl; [constructor|].
  destruct (marked n); simpl; by constructor.
Qed.

Lemma kube_List_sublist_file_List_witness :
  exists all, FileStore.List fsMem clusterTwo = Ok all /\ sublist ["n1"] all.
Proof.
  apply (kube_List_sublist_file_List ksMem fsMem clusterTwo ["n1"]).
  - reflexivity.
  - vm_compute. reflexivity.
Defined.

(** X16.  [Exists] and [Load] agree, as both start from the same lookup.
    Kubernetes-backed: a name that does not exist loads as
    [ErrHostDoesNotExist]; for a name that exists [Load] never answers
    [ErrHostDoesNotExist]; an error of [Exists] is the error of [Load].
    File-backed: [Load] succeeds exactly when [Exists] says true, and an
    error of [Exists] is the error of [Load]. *)
Theorem Exists_Load_agree {C : Type} (codec : Codec) (ks : KubeStore.NodeStore C)
    (fst_ : FileStore.NodeStore C) (name : string) (c : C) :
  (KubeStore.Exists ks name c = (false, None) ->
   KubeStore.Load codec ks name c = (Err (ErrHostDoesNotExist name), c))
  /\ (KubeStore.Exists ks name c = (true, None) ->
      forall n c', KubeStore.Load codec ks name c <> (Err (ErrHostDoesNotExist n), c'))
  /\ (forall e, KubeStore.Exists ks name c = (false, Some e) ->
      KubeStore.Load codec ks name c = (Err e, c))
  /\ (FileStore.Exists fst_ name c = (true, None) <->
      exists h, FileStore.Load fst_ name c = Ok h)
  /\ (forall e, FileStore.Exists fst_ name c = (false, Some e) ->
      FileStore.Load fst_ name c = Err e).
Proof.
  unfold KubeStore.Exists, FileStore.Exists, KubeStore.Load, FileStore.Load.
  split_and!.
  - destruct (Get _ name c) as [node|k]; [discriminate|].
    by destruct (IsNotFound k).
  - destruct (Get _ name c) as [node|k]; [|by destruct (IsNotFound k)].
    intros _ n c' H. unfold KubeStore.loadConfig in H.
    repeat case_match; simplify_eq.
  - intros e. destruct (Get _ name c) as [node|k]; [discriminate|].
    destruct (IsNotFound k); [discriminate|]. by intros [= <-].
  - destruct (Get _ name c) as [node|k].
    + split; [by eexists|done].
    + split; [by destruct (IsNotFound k)|]. by intros [h ?].
  - intros e. destruct (Get _ name c) as [node|k]; [discriminate|].
    destruct (IsNotFound k); [discriminate|]. by intros [= <-].
Qed.

Lemma Exists_Load_agree_witness :
  KubeStore.Load toyCodec ksMem "n2" clusterV2 = (Err (ErrHostDoesNotExist "n2"), clusterV2)
  /\ KubeStore.Load toyCodec ksDown "n1" clusterV2 = (Err (KubeError refused), clusterV2)
  /\ (exists h, FileStore.Load fsMem "n1" clusterV2 = Ok h)
  /\ FileStore.Load fsDown "n1" clusterV2 = Err (KubeError refused).
Proof.
  pose proof (Exists_Load_agree toyCodec ksMem fsMem "n2" clusterV2) as (A & _).
  pose proof (Exists_Load_agree toyCodec ksDown fsDown "n1" clusterV2)
    as (_ & _ & B & _ & B5).
  pose proof (Exists_Load_agree toyCodec ksMem fsMem "n1" clusterV2)
    as (_ & _ & _ & D & _).
  split_and!.
  - apply A. vm_compute. reflexivity.
  - apply B. vm_compute. reflexivity.
  - apply D. vm_compute. reflexivity.
  - apply B5. vm_compute. reflexivity.
Defined.

(** ** What the file-backed store changes on the disk *)

Lemma kept_refl (os : FS.OS) (d : FS.fs) (p : string) : kept os d d p.
Proof. by left. Qed.

Lemma kept_trans (os : FS.OS) (d d1 d2 : FS.fs) (p : string) :
  kept os d d1 p -> kept os d1 d2 p -> kept os d d2 p.
Proof.
  unfold kept. intros [E1|(N1 & H1)] [E2|(N2 & H2)].
  - left. congruence.
  - right. split; [congruence|done].
  - right. split; [done|]. by rewrite E2.
  - destruct H1 as [H1|(_ & x & H1)]; congruence.
Qed.

Lemma saveToFile_kept (os : FS.OS) (data : list byte) (file : string) (d d' : FS.fs)
    (r : option error) (h : list FS.fs) (p : string) :
  FileStore.saveToFile os data file d = (r, d', h) -> p <> file -> kept os d d' p.
Proof.
  intros Hrun Hp. destruct (saveToFile_run os data file d d' r h Hrun) as (_ & _ & K & _).
  destruct (K p Hp) as [E|(N & F & X)]; [by left|]. right. split; [done|]. by right.
Qed.

Lemma MkdirAll_kept (os : FS.OS) (p0 : string) (d d1 : FS.fs) (r : option error)
    (h1 : list FS.fs) (p : string) :
  FS.MkdirAll os p0 d = (r, d1, h1) -> kept os d d1 p.
Proof.
  intros Hrun. destruct (MkdirAll_rec_run os _ p0 d d1 r h1 Hrun) as (G & _).
  destruct (G p) as [E|(N & D & _)]; [by left|]. right. split; [done|]. by left.
Qed.

(** Under a directory, [MkdirAll] makes one directory at most. *)
Lemma MkdirAll_rec_parent (os : FS.OS) (n : nat) (p : string) (d d1 : FS.fs)
    (r : option error) (h1 : list FS.fs) :
  FS.Stat os (FS.Dir os p) d = Some FS.Directory ->
  FS.MkdirAll_rec os n p d = (r, d1, h1) ->
  (forall q, q <> p -> d1 !! q = d !! q)
  /\ Forall (fun s : FS.fs => forall q, q <> p -> s !! q = d !! q) h1.
Proof.
  intros Hd Hrun.
  assert (L : forall r' d' h',
            FS.mkdirLast os p d = (r', d', h') ->
            (forall q, q <> p -> d' !! q = d !! q)
            /\ Forall (fun s : FS.fs => forall q, q <> p -> s !! q = d !! q) h').
  { intros r' d' h' [(-> & -> & _)|(_ & _ & -> & ->)]%mkdirLast_inv.
    - split; [done|constructor].
    - split; [|apply Forall_singleton]; intros q Hq; by rewrite lookup_insert_ne. }
  destruct n as [|n]; simpl in Hrun; destruct (FS.Stat os p d) as [[x|]|];
    try (injection Hrun as _ <- <-; split; [done|constructor]).
  - by eapply L.
  - unfold FS.andThen in Hrun.
    assert (FS.MkdirAll_rec os n (FS.Dir os p) d = (None, d, [])) as E
      by (destruct n; simpl; by rewrite Hd).
    rewrite E in Hrun.
    destruct (FS.mkdirLast os p d) as [[r' d'] h'] eqn:HL.
    injection Hrun as _ <- <-. by eapply L.
Qed.

(** Whatever its outcome, the file-backed [Save] keeps every path but
    [config.json]. *)
Lemma file_Save_kept {C : Type} (os : FS.OS) (codec : Codec)
    (s : FileStore.NodeStore C) (host : Host) (d d' : FS.fs)
    (r : option error) (h : list FS.fs) (p : string) :
  FileStore.Save os codec s host d = (r, d', h) ->
  p <> FS.Join os [FS.Join os [FileStore.GetMachinesDir os s; Name host]; "config.json"] ->
  kept os d d' p.
Proof.
  intros Hrun Hp. unfold FileStore.Save in Hrun.
  destruct (MarshalIndent codec host) as [data|e];
    [|injection Hrun as _ <- _; apply kept_refl].
  unfold FS.andThen in Hrun.
  destruct (FS.MkdirAll os _ d) as [[r1 d1] h1] eqn:Hmk.
  pose proof (MkdirAll_kept os _ d d1 r1 h1 p Hmk) as K1.
  destruct r1 as [e|]; [by injection Hrun as _ <- _|].
  destruct (FileStore.saveToFile os data _ d1) as [[r2 d2] h2] eqn:Hs.
  injection Hrun as _ <- _.
  eapply kept_trans; [exact K1|]. by eapply saveToFile_kept.
Qed.

(** X10.  Whatever its outcome and whatever fails on the way, the
    file-backed [Save] changes and removes nothing on the disk besides
    [config.json]: every other path is as it was, or was not there and is
    now a directory or a temporary file whose removal failed.  The
    directories it adds are the host's directory and parents of it.  In the
    states on the way, the paths other than [config.json] and the temporary
    file are as they were, or are directories that were added.  And on a
    system that lets every removal through, where the host's directory has
    a directory above it: nothing differs afterwards besides the host's
    directory and [config.json], no temporary file is left behind, and in
    the states on the way only one more path, the temporary file, differs
    from the start. *)
Theorem file_Save_frame {C : Type} (os : FS.OS) (codec : Codec)
    (s : FileStore.NodeStore C) (host : Host) (d d' : FS.fs)
    (r : option error) (h : list FS.fs) :
  FileStore.Save os codec s host d = (r, d', h) ->
  let hostPath := FS.Join os [FileStore.GetMachinesDir os s; Name host] in
  let file := FS.Join os [hostPath; "config.json"] in
  (forall p, p <> file -> kept os d d' p)
  /\ (forall p, p <> file -> d !! p = None -> d' !! p = Some FS.Directory ->
        p ∈ chain os (String.length hostPath) hostPath)
  /\ (exists tmp, forall st p, st ∈ h -> p <> file -> p <> tmp ->
        st !! p = d !! p \/ (d !! p = None /\ st !! p = Some FS.Directory))
  /\ ((forall p st, FS.FailCall os (FS.CallRemove p) st = None) ->
      FS.Stat os (FS.Dir os hostPath) d = Some FS.Directory ->
      (forall p, p <> hostPath -> p <> file -> d' !! p = d !! p)
      /\ (exists tmp, forall st p, st ∈ h ->
            p <> hostPath -> p <> file -> p <> tmp -> st !! p = d !! p)).
Proof.
  intros Hrun hostPath file. split.
  { intros p Hp. by apply (file_Save_kept os codec s host d d' r h p). }
  apply and_assoc. split.
  2: { intros NF Hpar. unfold FileStore.Save in Hrun.
       destruct (MarshalIndent codec host) as [data|e].
       2: { injection Hrun as <- <- <-. split; [done|].
            exists "". by intros st p Hs%elem_of_nil. }
       fold hostPath file in Hrun. unfold FS.andThen in Hrun.
       destruct (FS.MkdirAll os hostPath d) as [[r1 d1] h1] eqn:Hmk.
       destruct (MkdirAll_rec_parent os _ hostPath d d1 r1 h1 Hpar Hmk) as (P1 & PH).
       rewrite Forall_forall in PH.
       destruct r1 as [e|].
       { injection Hrun as <- <- <-. split; [intros p Hp _; by apply P1|].
         exists "". intros st p Hs Hp _ _. by apply PH. }
       destruct (FileStore.saveToFile os data file d1) as [[r2 d2] h2] eqn:Hs.
       injection Hrun as <- <- <-.
       destruct (saveToFile_run os data file d1 d2 r2 h2 Hs) as (_ & F2 & K2 & _).
       rewrite Forall_forall in F2. split.
       - intros p Hp Hpf. destruct (K2 p Hpf) as [E|(_ & [st Hst] & _)].
         + rewrite E. by apply P1.
         + by rewrite NF in Hst.
       - exists (FS.TempName os d1 (FS.Dir os file) "config.json.tmp").
         intros st p [Hin|Hin]%elem_of_app Hp Hpf Hpt.
         + by apply PH.
         + rewrite (proj1 (F2 st Hin) p Hpf Hpt). by apply P1. }
  unfold FileStore.Save in Hrun.
  destruct (MarshalIndent codec host) as [data|e].
  2: { injection Hrun as <- <- <-. split; [congruence|].
       exists "". by intros st p Hs%elem_of_nil. }
  fold hostPath file in Hrun. unfold FS.andThen in Hrun.
  destruct (FS.MkdirAll os hostPath d) as [[r1 d1] h1] eqn:Hmk.
  destruct (MkdirAll_rec_run os _ hostPath d d1 r1 h1 Hmk) as (G1 & GH & _).
  rewrite Forall_forall in GH.
  destruct r1 as [e|].
  { injection Hrun as <- <- <-. split.
    - intros p _ Hn Hd. destruct (G1 p) as [E|(_ & _ & Hc)]; [congruence|done].
    - exists "". intros st p Hs _ _.
      destruct (GH st Hs p) as [E|(N & D & _)]; [by left|by right]. }
  destruct (FileStore.saveToFile os data file d1) as [[r2 d2] h2] eqn:Hs.
  injection Hrun as <- <- <-.
  destruct (saveToFile_run os data file d1 d2 r2 h2 Hs) as ([A2 _] & F2 & K2 & _).
  rewrite Forall_forall in F2. split.
  - intros p Hp Hn Hd. destruct (K2 p Hp) as [E|(N & _ & x & X)]; [|congruence].
    destruct (G1 p) as [E1|(_ & _ & Hc)]; [congruence|done].
  - exists (FS.TempName os d1 (FS.Dir os file) "config.json.tmp").
    intros st p [Hin|Hin]%elem_of_app Hp Hpt.
    + destruct (GH st Hin p) as [E|(N & D & _)]; [by left|by right].
    + rewrite (proj1 (F2 st Hin) p Hp Hpt).
      destruct (G1 p) as [E|(N & D & _)]; [by left|by right].
Qed.

Lemma file_Save_frame_witness :
  fst (fst (FileStore.Save FS.slashOS toyCodec fsMem hostV3 diskBase)) = None
  /\ "/b/machines" ∈ chain FS.slashOS (String.length "/b/machines/n1") "/b/machines/n1"
  /\ kept FS.slashOS diskBase
       (snd (fst (FileStore.Save FS.slashOS toyCodec fsMem hostV3 diskBase)))
       "/b/machines/n1/config.json.tmp123456789".
Proof.
  destruct (FileStore.Save FS.slashOS toyCodec fsMem hostV3 diskBase) as [[r d'] h] eqn:E.
  assert (Hd : d' = snd (fst (FileStore.Save FS.slashOS toyCodec fsMem hostV3 diskBase)))
    by by rewrite E.
  pose proof (file_Save_frame FS.slashOS toyCodec fsMem hostV3 diskBase d' r h E) as H.
  cbv zeta in H. destruct H as (H1 & H2 & _ & _).
  split_and!.
  - change r with (fst (fst (r, d', h))). rewrite <- E. vm_compute. reflexivity.
  - apply H2.
    + apply String.eqb_neq. vm_compute. reflexivity.
    + vm_compute. reflexivity.
    + rewrite Hd. vm_compute. reflexivity.
  - apply H1. apply String.eqb_neq. vm_compute. reflexivity.
Defined.

(** X11.  What the file-backed [Save] wrote, the file-backed [loadConfig]
    reads back: when the migration routine takes what [MarshalIndent]
    produced as current, [loadConfig] for the record's name returns a host
    with the saved name, schema version, driver and options, and writes
    nothing.  ([Load] does not call [loadConfig].) *)
Theorem file_Save_loadConfig {C : Type} (os : FS.OS) (codec : Codec)
    (s : FileStore.NodeStore C) (r h0 : Host) (data : list byte)
    (d d' : FS.fs) (h : list FS.fs) :
  MarshalIndent codec r = Ok data ->
  FS.Join os [FileStore.GetMachinesDir os s; Name r; "config.json"]
  = FS.Join os [FS.Join os [FileStore.GetMachinesDir os s; Name r]; "config.json"] ->
  (forall h1, exists m, MigrateHost codec h1 data = Ok (m, false) /\ same_config m r) ->
  Name h0 = Name r ->
  FileStore.Save os codec s r d = (None, d', h) ->
  exists h', FileStore.loadConfig os codec s h0 d' = (Ok h', d', [])
    /\ Name h' = Name r /\ same_config h' r.
Proof.
  intros Hm HJ Hmig Hn Hrun. unfold FileStore.Save in Hrun. rewrite Hm in Hrun.
  apply andThen_ok_inv in Hrun as (d1 & h1 & h2 & _ & Hsave & _).
  apply saveToFile_ok in Hsave as [Hfile _].
  unfold FileStore.loadConfig, FS.ReadFile.
  rewrite Hn, HJ, (Stat_lookup _ _ _ _ Hfile).
  destruct (Hmig h0) as (m & -> & Hs). eexists. split_and!; [done|done|done].
Qed.

Lemma file_Save_loadConfig_witness :
  exists h', FileStore.loadConfig FS.slashOS toyCodec fsMem (KubeStore.emptyHost "n1")
               (snd (fst (FileStore.Save FS.slashOS toyCodec fsMem hostToy diskEmpty)))
             = (Ok h', snd (fst (FileStore.Save FS.slashOS toyCodec fsMem hostToy diskEmpty)), [])
    /\ Name h' = "n1" /\ same_config h' hostToy.
Proof.
  destruct (FileStore.Save FS.slashOS toyCodec fsMem hostToy diskEmpty)
    as [[r d'] h] eqn:E.
  assert (Hr : r = None).
  { change r with (fst (fst (r, d', h))). rewrite <- E. vm_compute. reflexivity. }
  subst r.
  apply (file_Save_loadConfig FS.slashOS toyCodec fsMem hostToy (KubeStore.emptyHost "n1")
           (list_byte_of_string "3 virtualbox") diskEmpty d' h).
  - vm_compute. reflexivity.
  - vm_compute. reflexivity.
  - intros h1. eexists. split; [reflexivity|]. split_and!; reflexivity.
  - reflexivity.
  - exact E.
Defined.

(** X12.  What the file-backed [loadConfig] can change.  Whatever its
    outcome and whatever fails on the way, nothing that was on the disk is
    changed or removed besides the backup [config.json.bak] and the
    [config.json] that [Save] writes; what may be there in addition is
    directories and temporary files whose removal failed.  When it fails
    with anything but the error of the re-save, that is at the read, the
    migration or the backup, no path but the backup has changed and no
    directory was added.  And on a system that lets every removal through:
    when the host's directory is in place, as it is wherever [config.json]
    was read from under it, nothing differs afterwards besides the backup,
    the host's directory and [config.json]; and when [loadConfig] fails with
    anything but the error of the re-save, nothing differs besides the
    backup: the record is as it was. *)
Theorem file_loadConfig_frame {C : Type} (os : FS.OS) (codec : Codec)
    (s : FileStore.NodeStore C) (h0 : Host) (d d' : FS.fs) (r : result Host)
    (h : list FS.fs) :
  FileStore.loadConfig os codec s h0 d = (r, d', h) ->
  let dir := FileStore.GetMachinesDir os s in
  let bak := FS.Join os [dir; Name h0; "config.json.bak"] in
  let hostPath := FS.Join os [dir; Name h0] in
  (forall p, p <> bak -> p <> FS.Join os [hostPath; "config.json"] -> kept os d d' p)
  /\ (forall e, r = Err e ->
        (forall e', e <> Errorf ("Error saving config after migration was performed: "
                                 +:+ Error e')) ->
        forall p, p <> bak ->
          d' !! p = d !! p
          \/ (d !! p = None /\ removalFails os p /\ exists x, d' !! p = Some (FS.File x)))
  /\ ((forall p st, FS.FailCall os (FS.CallRemove p) st = None) ->
      (FS.Stat os hostPath d = Some FS.Directory ->
       forall p, p <> bak -> p <> hostPath -> p <> FS.Join os [hostPath; "config.json"] ->
         d' !! p = d !! p)
      /\ (forall e, r = Err e ->
            (forall e', e <> Errorf ("Error saving config after migration was performed: "
                                     +:+ Error e')) ->
            forall p, p <> bak -> d' !! p = d !! p)).
Proof.
  intros Hrun dir bak hostPath.
  assert (NoFail : (forall p st, FS.FailCall os (FS.CallRemove p) st = None) ->
                   forall p, ~ removalFails os p).
  { intros H p [st Hst]. by rewrite H in Hst. }
  cut ((forall p, p <> bak -> p <> FS.Join os [hostPath; "config.json"] -> kept os d d' p)
       /\ (forall e, r = Err e ->
             (forall e', e <> Errorf ("Error saving config after migration was performed: "
                                      +:+ Error e')) ->
             forall p, p <> bak ->
               d' !! p = d !! p
               \/ (d !! p = None /\ removalFails os p
                   /\ exists x, d' !! p = Some (FS.File x)))
       /\ ((forall p st, FS.FailCall os (FS.CallRemove p) st = None) ->
           FS.Stat os hostPath d = Some FS.Directory ->
           forall p, p <> bak -> p <> hostPath ->
             p <> FS.Join os [hostPath; "config.json"] -> d' !! p = d !! p)).
  { intros (M1 & M2 & M3). split_and!; [exact M1|exact M2|]. intros NF.
    split; [by apply M3|]. intros e He Hne p Hp.
    destruct (M2 e He Hne p Hp) as [E|(_ & F & _)]; [done|]. by destruct (NoFail NF p). }
  unfold FileStore.loadConfig in Hrun. fold dir in Hrun.
  destruct (FS.ReadFile os _ d) as [data|e0].
  2: { injection Hrun as <- <- <-. split_and!; [intros; apply kept_refl|by left|done]. }
  destruct (MigrateHost codec h0 data) as [[m b]|e0].
  2: { injection Hrun as <- <- <-. split_and!; [intros; apply kept_refl|by left|done]. }
  destruct b.
  2: { injection Hrun as <- <- <-. split_and!; [intros; apply kept_refl|by left|done]. }
  simpl in Hrun. fold bak in Hrun.
  destruct (FileStore.saveToFile os data bak d) as [[r1 d1] h1] eqn:Hb.
  destruct (saveToFile_run os data bak d d1 r1 h1 Hb) as (_ & _ & K1 & E1).
  destruct r1 as [e1|].
  { injection Hrun as <- <- <-. split_and!.
    - intros p Hp _. by apply (saveToFile_kept os data bak d d1 (Some e1) h1).
    - intros e _ _ p Hp. by apply K1.
    - intros NF _ p Hp _ _. destruct (K1 p Hp) as [E|(_ & F & _)]; [done|].
      by destruct (NoFail NF p). }
  specialize (E1 eq_refl). subst d1.
  destruct (FileStore.Save os codec s (set_Name m (Name h0)) _) as [[r2 d2] h2] eqn:Hs.
  assert (S1 : forall p, p <> bak -> p <> FS.Join os [hostPath; "config.json"] ->
                 kept os d d2 p).
  { intros p Hp Hpf. eapply kept_trans.
    - by apply (saveToFile_kept os data bak d _ None h1).
    - apply (file_Save_kept os codec s (set_Name m (Name h0)) _ d2 r2 h2 p Hs).
      exact Hpf. }
  assert (S3 : (forall p st, FS.FailCall os (FS.CallRemove p) st = None) ->
               FS.Stat os hostPath d = Some FS.Directory ->
               forall p, p <> bak -> p <> hostPath ->
                 p <> FS.Join os [hostPath; "config.json"] -> d2 !! p = d !! p).
  { intros NF Hh p Hp Hph Hpf.
    unfold FileStore.Save in Hs. simpl in Hs. fold dir hostPath in Hs.
    destruct (MarshalIndent codec _) as [json|e];
      [|injection Hs as _ <- _; by rewrite lookup_insert_ne].
    unfold FS.andThen in Hs.
    destruct (FS.MkdirAll os hostPath _) as [[r3 d3] h3] eqn:Hmk.
    assert (E3 : d3 = <[bak := FS.File data]> d).
    { unfold FS.MkdirAll in Hmk.
      destruct (decide (hostPath = bak)) as [Eq|Ne].
      - destruct (String.length hostPath); simpl in Hmk;
          rewrite Eq, Stat_insert_eq in Hmk; by injection Hmk as _ <- _.
      - destruct (String.length hostPath); simpl in Hmk;
          rewrite Stat_insert_ne, Hh in Hmk by done; by injection Hmk as _ <- _. }
    subst d3. destruct r3 as [e|]; [injection Hs as _ <- _; by rewrite lookup_insert_ne|].
    destruct (FileStore.saveToFile os json _ _) as [[r4 d4] h4] eqn:Hsv.
    injection Hs as _ <- _.
    destruct (saveToFile_run os json _ _ d4 r4 h4 Hsv) as (_ & _ & K4 & _).
    destruct (K4 p Hpf) as [E|(_ & F & _)]; [by rewrite E, lookup_insert_ne|].
    by destruct (NoFail NF p). }
  destruct r2 as [e2|]; injection Hrun as <- <- <-.
  - split_and!; [exact S1| |exact S3]. intros e [= <-] Hne. by destruct (Hne e2).
  - split_and!; [exact S1|discriminate|exact S3].
Qed.

Lemma file_loadConfig_frame_witness :
  snd (fst (FileStore.loadConfig FS.slashOS toyCodec fsMem
              (KubeStore.emptyHost "n1") diskV2))
    !! "/b/machines/n1/config.json.tmp123456789" = None
  /\ snd (fst (FileStore.loadConfig FS.slashOS toyCodec fsMem
                 (KubeStore.emptyHost "n1") diskV2)) !! "/b/machines"
     = Some FS.Directory.
Proof.
  destruct (FileStore.loadConfig FS.slashOS toyCodec fsMem
              (KubeStore.emptyHost "n1") diskV2) as [[r d'] h] eqn:E.
  pose proof (proj2 (proj2 (file_loadConfig_frame FS.slashOS toyCodec fsMem
                              (KubeStore.emptyHost "n1") diskV2 d' r h E))) as H.
  cbv zeta in H. simpl.
  assert (NF : forall p st, FS.FailCall FS.slashOS (FS.CallRemove p) st = None) by done.
  assert (Hh : FS.Stat FS.slashOS "/b/machines/n1" diskV2 = Some FS.Directory)
    by (vm_compute; reflexivity).
  destruct (H NF) as [H1 _].
  split.
  - rewrite (H1 Hh); [vm_compute; reflexivity| | |];
      apply String.eqb_neq; vm_compute; reflexivity.
  - rewrite (H1 Hh); [vm_compute; reflexivity| | |];
      apply String.eqb_neq; vm_compute; reflexivity.
Defined.

(** ** Building a store; the base directory *)

(** X13.  [NewNodeStore] and the [-kubeconfig] flag, in both variants.  A
    flag that is set decides alone: neither the default file nor the
    in-cluster configuration is consulted, and the flag stays as it is.  And
    a first call with an unset flag that found the default file sets the flag
    to it, so that every later call loads that file, even where it no longer
    exists, and never the in-cluster configuration. *)
Theorem NewNodeStore_flag {Cfg C : Type} (env env' : SetupEnv Cfg C)
    (path ca key path' ca' key' flag : string) :
  let build (e : SetupEnv Cfg C) (file : string) :=
    match BuildConfigFromFlags e "" file with
    | Err err => Panicked (Error err)
    | Ok config =>
        match NewForConfig e config with
        | Err err => Panicked (Error err)
        | Ok client => Returned (path', ca', key', client)
        end
    end in
  let kube (o : outcome (KubeStore.NodeStore C)) :=
    match o with
    | Returned s => Returned (KubeStore.Path s, KubeStore.CaCertPath s,
                              KubeStore.CaPrivateKeyPath s, KubeStore.Client s)
    | Panicked m => Panicked m
    end in
  let file (o : outcome (FileStore.NodeStore C)) :=
    match o with
    | Returned s => Returned (FileStore.Path s, FileStore.CaCertPath s,
                              FileStore.CaPrivateKeyPath s, FileStore.Client s)
    | Panicked m => Panicked m
    end in
  (flag <> "" ->
     (let '(o, f) := KubeStore.NewNodeStore env' path' ca' key' flag in (kube o, f))
     = (build env' flag, flag)
     /\ (let '(o, f) := FileStore.NewNodeStore env' path' ca' key' flag in (file o, f))
        = (build env' flag, flag))
  /\ (Stat env (defaultConfig env) <> StatNotExist -> defaultConfig env <> "" ->
      snd (KubeStore.NewNodeStore env path ca key "") = defaultConfig env
      /\ snd (FileStore.NewNodeStore env path ca key "") = defaultConfig env
      /\ (let '(o, f) := KubeStore.NewNodeStore env' path' ca' key'
                           (snd (KubeStore.NewNodeStore env path ca key "")) in
          (kube o, f))
         = (build env' (defaultConfig env), defaultConfig env)
      /\ (let '(o, f) := FileStore.NewNodeStore env' path' ca' key'
                           (snd (FileStore.NewNodeStore env path ca key "")) in
          (file o, f))
         = (build env' (defaultConfig env), defaultConfig env)).
Proof.
  intros build kube file.
  assert (A : forall f, f <> "" ->
            (let '(o, f') := KubeStore.NewNodeStore env' path' ca' key' f in (kube o, f'))
            = (build env' f, f)
            /\ (let '(o, f') := FileStore.NewNodeStore env' path' ca' key' f in (file o, f'))
               = (build env' f, f)).
  { intros f Hf. unfold KubeStore.NewNodeStore, FileStore.NewNodeStore, build.
    apply String.eqb_neq in Hf. rewrite Hf. simpl.
    destruct (BuildConfigFromFlags env' "" f) as [config|e]; [|done].
    by destruct (NewForConfig env' config). }
  assert (B : snd (KubeStore.NewNodeStore env path ca key "") = defaultConfig env
              \/ Stat env (defaultConfig env) = StatNotExist).
  { unfold KubeStore.NewNodeStore. simpl.
    destruct (Stat env (defaultConfig env)); simpl; [left|by right|left];
      destruct (BuildConfigFromFlags env "" _) as [config|e]; try done;
      by destruct (NewForConfig env config). }
  assert (B' : snd (FileStore.NewNodeStore env path ca key "") = defaultConfig env
               \/ Stat env (defaultConfig env) = StatNotExist).
  { unfold FileStore.NewNodeStore. simpl.
    destruct (Stat env (defaultConfig env)); simpl; [left|by right|left];
      destruct (BuildConfigFromFlags env "" _) as [config|e]; try done;
      by destruct (NewForConfig env config). }
  split; [exact (A flag)|].
  intros Hs Hd. destruct B as [B|B]; [|done]. destruct B' as [B'|B']; [|done].
  rewrite B, B'. destruct (A _ Hd) as [A1 A2]. by split_and!.
Qed.

Lemma NewNodeStore_flag_witness :
  snd (KubeStore.NewNodeStore setupHome "/b" "ca.pem" "ca-key.pem" "")
  = "/home/me/.kube/config"
  /\ (let '(o, f) := FileStore.NewNodeStore setupGone "/b" "ca.pem" "ca-key.pem"
                       (snd (FileStore.NewNodeStore setupHome "/b" "ca.pem" "ca-key.pem" ""))
      in (match o with Returned _ => false | Panicked _ => true end, f))
     = (true, "/home/me/.kube/config").
Proof.
  pose proof (NewNodeStore_flag setupHome setupGone "/b" "ca.pem" "ca-key.pem"
                "/b" "ca.pem" "ca-key.pem" "") as H.
  cbv zeta in H. destruct H as [_ H].
  destruct H as (H1 & _ & _ & H4); [discriminate|discriminate|].
  split; [exact H1|].
  destruct (FileStore.NewNodeStore setupGone "/b" "ca.pem" "ca-key.pem" _) as [o f].
  injection H4 as Ho Hf. destruct o; [discriminate Ho|]. by rewrite Hf.
Defined.

(** X14.  The base directory is settled once.  A [BaseDir] that is set (from
    [KUBE_MACHINE_STORAGE_PATH] or by an earlier call) is returned as it is
    and stays; when it is unset, the first call sets it under the home
    directory, and every later call, whatever the home directory has become,
    answers from it: the machines and certificates directories are always
    under one and the same base. *)
Theorem GetBaseDir_settled (os : FS.OS) (home home' BaseDir : string) :
  let base := fst (Mcndirs.GetBaseDir os home BaseDir) in
  let BaseDir1 := snd (Mcndirs.GetBaseDir os home BaseDir) in
  BaseDir1 = base
  /\ (BaseDir <> "" -> base = BaseDir)
  /\ (BaseDir = "" -> base = FS.Join os [home; ".kube"; "machine"])
  /\ (base <> "" ->
      Mcndirs.GetBaseDir os home' BaseDir1 = (base, base)
      /\ Mcndirs.GetMachineDir os home' BaseDir1 = (FS.Join os [base; "machines"], base)
      /\ Mcndirs.GetMachineCertDir os home' BaseDir1 = (FS.Join os [base; "certs"], base)).
Proof.
  unfold Mcndirs.GetMachineDir, Mcndirs.GetMachineCertDir, Mcndirs.GetBaseDir. simpl.
  split_and!; [done| | |].
  - intros H%String.eqb_neq. by rewrite H.
  - by intros ->.
  - intros H%String.eqb_neq. by rewrite H.
Qed.

Lemma GetBaseDir_settled_witness :
  Mcndirs.GetMachineDir FS.slashOS "/root"
    (snd (Mcndirs.GetBaseDir FS.slashOS "/home/me" ""))
  = ("/home/me/.kube/machine/machines", "/home/me/.kube/machine").
Proof.
  apply (proj2 (proj2 (proj2
           (GetBaseDir_settled FS.slashOS "/home/me" "/root" "")))).
  apply String.eqb_neq. vm_compute. reflexivity.
Defined.
